(** * The whiteboard relay server (server.js), embedded in Rocq

    The development follows [src/server.js], the final draft of the server:
    origin check at the handshake, the [clients] registry, the bounded
    [drawingHistory], the message handler with its DRAW / CHAT / PING
    branches, [broadcastMessage], the heartbeat and sweep timers and
    [shutdown].

    The program is a set of callbacks run to completion by the Node event
    loop.  It is embedded as a transition function [step] over a record
    holding the module-level variables and the sockets of the [ws] library;
    one [Event] is one callback invocation together with the values the
    environment supplies to it (clock readings, the uuid, the inbound text). *)

From stdpp Require Import gmap strings list pretty.

Set Warnings "-register-all".

Open Scope Z_scope.
Open Scope string_scope.
Open Scope list_scope.

(** ** JSON values *)

(** What [JSON.parse] returns.  The members of an object are kept in
    property order, with distinct keys, as the parser leaves them.  A number
    that is an integer, as the clock readings the server produces are, is
    [JNum]; any other number is [JReal], by its decimal spelling: the
    server never inspects or computes with a number of a payload.  (A
    numeral beyond the range of a double, which the parser reads as
    [Infinity] and [JSON.stringify] writes as [null], is outside the
    model.) *)
Inductive json : Type :=
| JNull
| JBool (b : bool)
| JNum (n : Z)
| JReal (decimal : string)
| JStr (s : string)
| JArr (items : list json)
| JObj (members : list (string * json)).

(** A JavaScript value read out of parsed data: [None] is [undefined]. *)
Abbreviation jsval := (option json).

Module Obj.

(** [o[k]] on a member list. *)
Fixpoint get (k : string) (o : list (string * json)) : jsval :=
  match o with
  | [] => None
  | (k', v) :: o' => if String.eqb k k' then Some v else get k o'
  end.

(** [o[k] = v]: an existing property keeps its place, a new one goes last. *)
Fixpoint set (k : string) (v : json) (o : list (string * json))
  : list (string * json) :=
  match o with
  | [] => [(k, v)]
  | (k', v') :: o' =>
      if String.eqb k k' then (k', v) :: o' else (k', v') :: set k v o'
  end.

(** Decimal spelling of an array index, as a property name. *)
Definition index_key (i : nat) : string := pretty (N.of_nat i).

Fixpoint indexed {A} (f : A -> json) (i : nat) (l : list A)
  : list (string * json) :=
  match l with
  | [] => []
  | x :: l' => (index_key i, f x) :: indexed f (S i) l'
  end.

(** A string of the model holds the UTF-8 bytes of a JavaScript string (a
    lone surrogate as the three bytes of its code point).  JavaScript indexes
    a string by UTF-16 code unit: one unit for a character of one to three
    bytes, the two surrogates for a character of four. *)
Definition byte (c : Ascii.ascii) : N := Ascii.N_of_ascii c.

(** The number of bytes that follow a lead byte. *)
Definition continuation_bytes (lead : N) : nat :=
  if (lead <? 192)%N then 0%nat
  else if (lead <? 224)%N then 1%nat
  else if (lead <? 240)%N then 2%nat
  else 3%nat.

(** The three bytes of a code unit from U+0800 up. *)
Definition three_bytes (u : N) : string :=
  String (Ascii.ascii_of_N (224 + u / 4096))
    (String (Ascii.ascii_of_N (128 + (u / 64) mod 64))
       (String (Ascii.ascii_of_N (128 + u mod 64)) EmptyString)).

Definition surrogates (b0 b1 b2 b3 : N) : list string :=
  let point := ((b0 mod 8) * 262144 + (b1 mod 64) * 4096
                + (b2 mod 64) * 64 + b3 mod 64)%N in
  let v := (point - 65536)%N in
  [three_bytes (55296 + v / 1024); three_bytes (56320 + v mod 1024)].

(** The code units of one character, given as its bytes. *)
Definition units_of (character : string) : list string :=
  match character with
  | String b0 (String b1 (String b2 (String b3 EmptyString))) =>
      surrogates (byte b0) (byte b1) (byte b2) (byte b3)
  | _ => [character]
  end.

(** [cut pending need s]: [pending] holds the bytes read of the current
    character, of which [need] are still to come. *)
Fixpoint cut (pending : string) (need : nat) (s : string) : list string :=
  match s with
  | EmptyString =>
      match pending with
      | EmptyString => []
      | _ => [pending]
      end
  | String c s' =>
      match need with
      | O =>
          match continuation_bytes (byte c) with
          | O => String c EmptyString :: cut EmptyString 0 s'
          | S n => cut (String c EmptyString) (S n) s'
          end
      | S n =>
          let pending' := String.append pending (String c EmptyString) in
          match n with
          | O => units_of pending' ++ cut EmptyString 0 s'
          | S _ => cut pending' n s'
          end
      end
  end.

(** The UTF-16 code units of a string, each as a string of its own. *)
Definition code_units (s : string) : list string := cut EmptyString 0 s.

(** The own enumerable properties copied by [{ ...v }]: nothing for
    [undefined], [null], booleans and numbers; the indexed code units of a
    string; the indexed items of an array; the members of an object. *)
Definition spread (v : jsval) : list (string * json) :=
  match v with
  | Some (JObj o) => o
  | Some (JArr l) => indexed (fun x => x) 0 l
  | Some (JStr s) => indexed JStr 0 (code_units s)
  | _ => []
  end.

(** An object literal [{ k1: v1, ... }] as [JSON.stringify] writes it:
    a property whose value is [undefined] is left out. *)
Fixpoint literal (fields : list (string * jsval)) : list (string * json) :=
  match fields with
  | [] => []
  | (k, Some v) :: fs => (k, v) :: literal fs
  | (_, None) :: fs => literal fs
  end.

End Obj.

(** [v === "lit"] for a string literal. *)
Definition is_string (v : jsval) (lit : string) : bool :=
  match v with
  | Some (JStr s) => String.eqb s lit
  | _ => false
  end.

(** Whether [`${v}`] throws.  Parsed data holds no functions, so an object
    with an own [toString] member has no usable [toString] and the inherited
    [valueOf] returns the object itself: the conversion raises a TypeError.
    An array joins the conversions of its items ([null] items are skipped). *)
Fixpoint template_throws (v : json) : bool :=
  match v with
  | JObj o => existsb (fun kv => String.eqb (fst kv) "toString") o
  | JArr l => existsb template_throws l
  | _ => false
  end.

Definition interpolates (v : jsval) : bool :=
  match v with
  | Some j => negb (template_throws j)
  | None => true
  end.

(** ** Sockets, registry and server state *)

Definition Handle := nat.

Inductive ReadyState := CONNECTING | OPEN | CLOSING | CLOSED.

#[global] Instance ReadyState_eq_dec : EqDecision ReadyState.
Proof. solve_decision. Defined.

(** A call the server makes on a socket.  [OpSend v] is
    [send(JSON.stringify(v))]: the text is produced at the call, so the
    record keeps the value as it was then. *)
Inductive SocketOp :=
| OpSend (v : json)
| OpPing
| OpClose (code : Z) (reason : string)
| OpTerminate.

(** One accepted connection: the [ws] object of the library and the constants
    of the closure the 'connection' callback builds around it. *)
Record Conn := mkConn {
  readyState : ReadyState;
  ops : list SocketOp;          (* calls on the socket, oldest first *)
  clientId : string;            (* const clientId = uuidv4() *)
  pingInterval : bool           (* the 30 s interval is still scheduled *)
}.

(** A value of the [clients] map. *)
Record ClientInfo := mkInfo {
  id : string;
  ip : string;
  connectedAt : Z;
  lastActivity : Z;
  lastPong : option Z
}.

Inductive Exn := SyntaxError | TypeError | NotOpenError.

Inductive LogEntry :=
| LogConnected (cid addr : string)
| LogReceived (cid : string)
| LogChat
| LogProcessingError (cid : string) (e : Exn)
| LogDisconnected (cid : string) (code : Z) (reason : string)
| LogSocketError (cid : string)
| LogInitError (cid : string)
| LogPingError (cid : string)
| LogBroadcastError
| LogTerminating (cid : string)
| LogActive (n : nat)
| LogShuttingDown
| LogShutdownComplete
| LogForcedShutdown.

Record Server := mkServer {
  conns : gmap Handle Conn;               (* every socket handed to 'connection' *)
  wss_clients : list Handle;              (* wss.clients, a Set, in insertion order *)
  clients : list (Handle * ClientInfo);   (* const clients = new Map() *)
  drawingHistory : list json;             (* const drawingHistory = [] *)
  console : list LogEntry;                (* console.log / console.error, oldest first *)
  serverClosing : bool;                   (* server.close(cb) is pending *)
  exitTimers : list Z;                    (* delays of the armed forced-exit timers *)
  exitCode : option Z;                    (* the status the process ended with *)
  pushes : list (json * gmap Handle Conn) (* ghost, see [observe_push] *)
}.

Definition MAX_HISTORY : nat := 100.

Definition initial : Server :=
  mkServer ∅ [] [] [] [] false [] None [].

Definition with_conns (f : gmap Handle Conn -> gmap Handle Conn) (s : Server) :=
  mkServer (f (conns s)) (wss_clients s) (clients s) (drawingHistory s)
           (console s) (serverClosing s) (exitTimers s) (exitCode s)
           (pushes s).
Definition with_wss_clients (f : list Handle -> list Handle) (s : Server) :=
  mkServer (conns s) (f (wss_clients s)) (clients s) (drawingHistory s)
           (console s) (serverClosing s) (exitTimers s) (exitCode s)
           (pushes s).
Definition with_clients
  (f : list (Handle * ClientInfo) -> list (Handle * ClientInfo)) (s : Server) :=
  mkServer (conns s) (wss_clients s) (f (clients s)) (drawingHistory s)
           (console s) (serverClosing s) (exitTimers s) (exitCode s)
           (pushes s).
Definition with_history (f : list json -> list json) (s : Server) :=
  mkServer (conns s) (wss_clients s) (clients s) (f (drawingHistory s))
           (console s) (serverClosing s) (exitTimers s) (exitCode s)
           (pushes s).
Definition log (e : LogEntry) (s : Server) :=
  mkServer (conns s) (wss_clients s) (clients s) (drawingHistory s)
           (console s ++ [e]) (serverClosing s) (exitTimers s) (exitCode s)
           (pushes s).
Definition with_shutdown (closing : bool) (timers : list Z) (s : Server) :=
  mkServer (conns s) (wss_clients s) (clients s) (drawingHistory s)
           (console s) closing timers (exitCode s) (pushes s).
Definition exit (code : Z) (s : Server) :=
  mkServer (conns s) (wss_clients s) (clients s) (drawingHistory s)
           (console s) (serverClosing s) (exitTimers s) (Some code) (pushes s).

(** Ghost state, which the program does not have: [pushes] keeps every
    action pushed to the history together with the sockets as they were at
    the push, so that what was sent before and what after can be told
    apart. *)
Definition observe_push (action : json) (s : Server) :=
  mkServer (conns s) (wss_clients s) (clients s) (drawingHistory s)
           (console s) (serverClosing s) (exitTimers s) (exitCode s)
           (pushes s ++ [(action, conns s)]).

(** ** Callbacks: state with exceptions

    A callback body runs to completion on the server state and either
    returns or throws; what it did before a throw stays done. *)

Inductive Completion (A : Type) : Type :=
| Normal (a : A)
| Throw (e : Exn).
Arguments Normal {A} a.
Arguments Throw {A} e.

Definition Js (A : Type) : Type := Server -> Completion A * Server.

Definition ret {A} (a : A) : Js A := fun s => (Normal a, s).

Definition throw {A} (e : Exn) : Js A := fun s => (Throw e, s).

Definition bind {A B} (c : Js A) (k : A -> Js B) : Js B :=
  fun s =>
    match c s with
    | (Normal a, s') => k a s'
    | (Throw e, s') => (Throw e, s')
    end.

(** [try { body } catch (err) { handler }] *)
Definition try_catch (body : Js unit) (handler : Exn -> Js unit) : Js unit :=
  fun s =>
    match body s with
    | (Normal a, s') => (Normal a, s')
    | (Throw e, s') => handler e s'
    end.

Definition effect (f : Server -> Server) : Js unit :=
  fun s => (Normal tt, f s).

Definition gets {A} (f : Server -> A) : Js A :=
  fun s => (Normal (f s), s).

(** The state a callback leaves behind.  No callback of the program lets an
    exception escape: every call that can throw sits in a [try], and the
    sends outside one are made on sockets just seen OPEN. *)
Definition exec (c : Js unit) (s : Server) : Server := snd (c s).

Notation "'do' x <- c ; k" := (bind c (fun x => k))
  (at level 10, x name, c at level 100, k at level 200, only parsing).
Notation "'run' c ; k" := (bind c (fun _ => k))
  (at level 10, c at level 100, k at level 200, only parsing).

(** ** The containers of the program *)

(** [Map] keyed by socket identity, in insertion order. *)
Module JsMap.
Section Ops.
Context {V : Type}.

Fixpoint get (k : Handle) (m : list (Handle * V)) : option V :=
  match m with
  | [] => None
  | (k', v) :: m' => if decide (k = k') then Some v else get k m'
  end.

Fixpoint set (k : Handle) (v : V) (m : list (Handle * V)) : list (Handle * V) :=
  match m with
  | [] => [(k, v)]
  | (k', v') :: m' =>
      if decide (k = k') then (k', v) :: m' else (k', v') :: set k v m'
  end.

Definition delete (k : Handle) (m : list (Handle * V)) : list (Handle * V) :=
  filter (fun kv => kv.1 <> k) m.

(** Assignment to a field of the object stored under [k]. *)
Definition mutate (f : V -> V) (k : Handle) (m : list (Handle * V))
  : list (Handle * V) :=
  map (fun kv => if decide (kv.1 = k) then (kv.1, f kv.2) else kv) m.
End Ops.
End JsMap.

(** [Set] of sockets, in insertion order. *)
Module JsSet.
Definition add (k : Handle) (l : list Handle) : list Handle :=
  if decide (k ∈ l) then l else l ++ [k].
Definition delete (k : Handle) (l : list Handle) : list Handle :=
  filter (fun k' => k' <> k) l.
End JsSet.

(** [drawingHistory.push(action)] followed by
    [if (drawingHistory.length > MAX_HISTORY) drawingHistory.shift()]. *)
Definition push (action : json) (h : list json) : list json := h ++ [action].

Definition shift_if_over (h : list json) : list json :=
  if decide (MAX_HISTORY < length h)%nat then tail h else h.

(** ** Messages the server writes *)

Definition msg_INIT (history : list json) : json :=
  JObj [("type", JStr "INIT"); ("data", JArr history)].

Definition msg_SYSTEM (text : string) : json :=
  JObj [("type", JStr "SYSTEM"); ("message", JStr text)].

Definition msg_DRAW (action : json) : json :=
  JObj [("type", JStr "DRAW"); ("data", action)].

Definition msg_CHAT (name res : jsval) : json :=
  JObj (Obj.literal [("type", Some (JStr "CHAT")); ("Name", name); ("res", res)]).

Definition msg_PONG (timestamp : Z) : json :=
  JObj [("type", JStr "PONG"); ("timestamp", JNum timestamp)].

(** [{ ...data.data, clientId, timestamp: Date.now() }] *)
Definition make_action (payload : jsval) (cid : string) (now : Z) : json :=
  JObj (Obj.set "timestamp" (JNum now)
          (Obj.set "clientId" (JStr cid) (Obj.spread payload))).

(** ** Origin check (the [verifyClient] option) *)

Definition allowedOrigins : list string :=
  [ "https://whiteboard-frontend-ikhrz0fz2-creatorramas-projects.vercel.app";
    "http://127.0.0.1:5173" ].

(** One invocation of the [done] callback. *)
Inductive DoneCall :=
| Done (verified : bool) (code : option Z) (message : option string).

(** [!info.origin]: the header is missing or empty. *)
Definition falsy_origin (origin : option string) : bool :=
  match origin with
  | None => true
  | Some o => String.eqb o ""
  end.

Definition includes (l : list string) (origin : option string) : bool :=
  match origin with
  | None => false
  | Some o => existsb (String.eqb o) l
  end.

(** The calls [verifyClient] makes on [done], in order: the verdict of the
    [if]/[else], then the unconditional [done(true)] that closes the body. *)
Definition verifyClient (origin : option string) : list DoneCall :=
  (if falsy_origin origin || includes allowedOrigins origin
   then [Done true None None]
   else [Done false (Some 401) (Some "Unauthorized origin")])
  ++ [Done true None None].

(** The same option in the two earlier drafts of the server
    (src/unnamed/part_000): the body ends with the [if]/[else]. *)
Definition allowedOrigins_draft1 : list string :=
  [ "https://whiteboard-frontend-md5zbwoym-creatorramas-projects.vercel.app";
    "http://localhost:5173" ].

Definition verifyClient_draft1 (origin : option string) : list DoneCall :=
  if falsy_origin origin || includes allowedOrigins_draft1 origin
  then [Done true None None]
  else [Done false (Some 401) (Some "Unauthorized")].

(** The list of the second draft also holds [undefined], which [includes]
    finds only when the origin itself is [undefined]. *)
Definition allowedOrigins_draft2 : list (option string) :=
  [ Some "https://whiteboard-frontend-one.vercel.app";
    Some "https://whiteboard-frontend-ridxbyt24-creatorramas-projects.vercel.app";
    Some "https://whiteboard-frontend-md5zbwoym-creatorramas-projects.vercel.app";
    Some "http://localhost:5173";
    None ].

Definition includes_value (l : list (option string)) (origin : option string)
  : bool :=
  existsb (fun entry =>
             match entry, origin with
             | Some a, Some b => String.eqb a b
             | None, None => true
             | _, _ => false
             end) l.

Definition verifyClient_draft2 (origin : option string) : list DoneCall :=
  if falsy_origin origin || includes_value allowedOrigins_draft2 origin
  then [Done true None None]
  else [Done false (Some 401) (Some "Unauthorized origin")].

(** ** The HTTP side *)

(** [process.env.PORT] as a condition: unset and empty are both falsy. *)
Definition env_truthy (v : option string) : bool :=
  match v with
  | Some x => negb (String.eqb x "")
  | None => false
  end.

(** [const PORT = process.env.PORT || 8080] *)
Definition PORT (env_PORT : option string) : json :=
  match env_PORT with
  | Some x => if String.eqb x "" then JNum 8080 else JStr x
  | None => JNum 8080
  end.

Inductive HttpBody :=
| JsonBody (v : json)
| TextBody (text : string).

Record HttpResponse := mkResponse {
  status : Z;
  contentType : string;
  body : HttpBody
}.

(** The request listener of the hosted server: [/health] reports the size
    of [wss.clients] and the uptime the process reports, every other URL gets
    the plain banner. *)
Definition on_request (url : string) (uptime : json) (s : Server)
  : HttpResponse :=
  if String.eqb url "/health" then
    mkResponse 200 "application/json"
      (JsonBody (JObj [ ("status", JStr "ok");
                        ("connections", JNum (Z.of_nat (length (wss_clients s))));
                        ("uptime", uptime) ]))
  else
    mkResponse 200 "text/plain"
      (TextBody "WebSocket server is running. Connect using a WebSocket client.").

(** [http.createServer()] gets the listener only when [PORT] is set; in
    local development a request is never answered. *)
Definition handle_request (env_PORT : option string) (url : string)
  (uptime : json) (s : Server) : option HttpResponse :=
  if env_truthy env_PORT then Some (on_request url uptime s) else None.

(** ** The server *)

(** An inbound text, by what [JSON.parse(message.toString())] makes of it. *)
Inductive Inbound :=
| Unparseable
| Json (data : json).

Definition JSON_parse (message : Inbound) : Js json :=
  match message with
  | Unparseable => throw SyntaxError
  | Json data => ret data
  end.

(** [v.k] for one of the names the handler reads ([type], [data], [Name],
    [res]): a TypeError on [null], the member of an object, [undefined] on
    anything else. *)
Definition get_prop (v : json) (k : string) : Js jsval :=
  match v with
  | JNull => throw TypeError
  | JObj o => ret (Obj.get k o)
  | _ => ret None
  end.

(** Evaluation of a template literal with these interpolated values. *)
Definition template (vs : list jsval) : Js unit :=
  if forallb interpolates vs then ret tt else throw TypeError.

Fixpoint for_each {A} (l : list A) (body : A -> Js unit) : Js unit :=
  match l with
  | [] => ret tt
  | x :: l' => run body x ; for_each l' body
  end.

Definition ready (ws : Handle) (s : Server) : option ReadyState :=
  readyState <$> conns s !! ws.

Definition is_open (ws : Handle) (s : Server) : bool :=
  bool_decide (ready ws s = Some OPEN).

Definition is_closed (ws : Handle) (s : Server) : bool :=
  bool_decide (ready ws s = Some CLOSED).

Definition record_op (op : SocketOp) (c : Conn) : Conn :=
  mkConn (readyState c) (ops c ++ [op]) (clientId c) (pingInterval c).

Definition set_readyState (r : ReadyState) (c : Conn) : Conn :=
  mkConn r (ops c) (clientId c) (pingInterval c).

Definition set_closure (cid : string) (c : Conn) : Conn :=
  mkConn (readyState c) (ops c) cid true.

Definition clear_interval (c : Conn) : Conn :=
  mkConn (readyState c) (ops c) (clientId c) false.

Definition clearInterval (ws : Handle) : Js unit :=
  effect (with_conns (alter clear_interval ws)).

Definition console_log (e : LogEntry) : Js unit := effect (log e).

Section Handlers.

(** The [ws] library is not part of the repository and its version is not
    pinned: [send] and [ping] on a socket that is no longer OPEN throw in
    older releases and drop the data silently in newer ones. *)
Variable send_after_close_throws : bool.

(** *** The [ws] library, as far as the server uses it *)

Definition ws_transmit (ws : Handle) (op : SocketOp) : Js unit :=
  do open <- gets (is_open ws);
  if open then effect (with_conns (alter (record_op op) ws))
  else if send_after_close_throws then throw NotOpenError
  else ret tt.

Definition ws_send (ws : Handle) (v : json) : Js unit :=
  ws_transmit ws (OpSend v).

Definition ws_ping (ws : Handle) : Js unit :=
  ws_transmit ws OpPing.

(** [terminate()]: nothing on a CLOSED socket, otherwise the socket is
    destroyed and the state becomes CLOSING. *)
Definition terminated (c : Conn) : Conn :=
  match readyState c with
  | CLOSED => c
  | _ => set_readyState CLOSING (record_op OpTerminate c)
  end.

Definition ws_terminate (ws : Handle) : Js unit :=
  effect (with_conns (alter terminated ws)).

(** [close(code, reason)] starts the closing handshake of an OPEN socket. *)
Definition closed_with (code : Z) (reason : string) (c : Conn) : Conn :=
  match readyState c with
  | OPEN => set_readyState CLOSING (record_op (OpClose code reason) c)
  | _ => c
  end.

Definition ws_close (ws : Handle) (code : Z) (reason : string) : Js unit :=
  effect (with_conns (alter (closed_with code reason) ws)).

(** A completed handshake: the library creates the socket, OPEN, and adds
    it to [wss.clients] before it emits 'connection'. *)
Definition ws_accept (ws : Handle) (s : Server) : Server :=
  with_wss_clients (JsSet.add ws)
    (with_conns (insert ws (mkConn OPEN [] "" false)) s).

(** The end of a socket: the library marks it CLOSED and removes it from
    [wss.clients] before the server's 'close' listener runs. *)
Definition ws_closed (ws : Handle) (s : Server) : Server :=
  with_wss_clients (JsSet.delete ws)
    (with_conns (alter (set_readyState CLOSED) ws) s).

(** A failure of a socket: the library moves it to CLOSING before it emits
    'error'; the 'close' event follows. *)
Definition erroring (c : Conn) : Conn :=
  match readyState c with
  | CLOSED => c
  | _ => set_readyState CLOSING c
  end.

Definition ws_errored (ws : Handle) (s : Server) : Server :=
  with_conns (alter erroring ws) s.

(** *** server.js *)

Definition broadcastMessage (message : json) (excludeClient : option Handle)
  : Js unit :=
  do targets <- gets wss_clients;
  for_each targets (fun client =>
    do open <- gets (is_open client);
    if bool_decide (Some client <> excludeClient) && open
    then try_catch (ws_send client message)
                   (fun _ => console_log LogBroadcastError)
    else ret tt).

Definition on_connection (ws : Handle) (uuid addr : string)
  (connected_at last_activity : Z) : Js unit :=
  run effect (with_conns (alter (set_closure uuid) ws));
  run console_log (LogConnected uuid addr);
  run effect (with_clients
                (JsMap.set ws (mkInfo uuid addr connected_at last_activity None)));
  run try_catch
        (do history <- gets drawingHistory;
         run ws_send ws (msg_INIT history);
         ws_send ws (msg_SYSTEM "Connected to whiteboard server"))
        (fun _ => console_log (LogInitError uuid));
  broadcastMessage (msg_SYSTEM "A new user has joined the whiteboard") (Some ws).

Definition touch (now : Z) (info : ClientInfo) : ClientInfo :=
  mkInfo (id info) (ip info) (connectedAt info) now (lastPong info).

Definition ponged (now : Z) (info : ClientInfo) : ClientInfo :=
  mkInfo (id info) (ip info) (connectedAt info) (lastActivity info) (Some now).

Definition on_message (ws : Handle) (cid : string) (message : Inbound)
  (activity_time now : Z) : Js unit :=
  try_catch
    (run effect (with_clients (JsMap.mutate (touch activity_time) ws));
     do data <- JSON_parse message;
     do type <- get_prop data "type";
     run template [type];
     run console_log (LogReceived cid);
     if is_string type "DRAW" then
       do payload <- get_prop data "data";
       let action := make_action payload cid now in
       run effect (with_history (push action));
       run effect (observe_push action);                      (* ghost *)
       run effect (with_history shift_if_over);
       broadcastMessage (msg_DRAW action) (Some ws)
     else if is_string type "CHAT" then
       do name <- get_prop data "Name";
       do res <- get_prop data "res";
       run template [name; res];
       run console_log LogChat;
       broadcastMessage (msg_CHAT name res) None
     else if is_string type "PING" then
       ws_send ws (msg_PONG now)
     else ret tt)
    (fun err => console_log (LogProcessingError cid err)).

Definition on_pong (ws : Handle) (now : Z) : Js unit :=
  effect (with_clients (JsMap.mutate (ponged now) ws)).

Definition on_close (ws : Handle) (cid : string) (code : Z) (reason : string)
  : Js unit :=
  run console_log (LogDisconnected cid code reason);
  run clearInterval ws;
  run effect (with_clients (JsMap.delete ws));
  broadcastMessage (msg_SYSTEM "A user has left the whiteboard") None.

Definition on_error (ws : Handle) (cid : string) : Js unit :=
  run console_log (LogSocketError cid);
  clearInterval ws.

(** The body of the 30 s interval of one connection. *)
Definition heartbeat (ws : Handle) (cid : string) : Js unit :=
  do open <- gets (is_open ws);
  if open then
    try_catch (ws_ping ws)
      (fun _ =>
         run console_log (LogPingError cid);
         run clearInterval ws;
         do closed <- gets (is_closed ws);
         if closed then ret tt else ws_terminate ws)
  else clearInterval ws.

Definition INACTIVITY : Z := 5 * 60 * 1000.

(** The body of the 2 min interval.  A [Map] may lose the entry being
    visited during [forEach]; the remaining entries are still visited. *)
Definition sweep (now : Z) : Js unit :=
  do entries <- gets clients;
  run for_each entries (fun entry =>
        if decide (now - lastActivity entry.2 > INACTIVITY) then
          run console_log (LogTerminating (id entry.2));
          do closed <- gets (is_closed entry.1);
          run (if closed then ret tt else ws_terminate entry.1);
          effect (with_clients (JsMap.delete entry.1))
        else ret tt);
  do live <- gets wss_clients;
  console_log (LogActive (length live)).

Definition SHUTDOWN_NOTICE : json := msg_SYSTEM "Server is shutting down...".

Definition shutdown : Js unit :=
  run console_log LogShuttingDown;
  do targets <- gets wss_clients;
  run for_each targets (fun client =>
        do open <- gets (is_open client);
        if open then
          run ws_send client SHUTDOWN_NOTICE;
          ws_close client 1000 "Server shutdown"
        else ret tt);
  run effect (fun s => with_shutdown true (exitTimers s) s);
  effect (fun s => with_shutdown (serverClosing s) (exitTimers s ++ [5000]) s).

(** The callback given to [server.close]. *)
Definition on_server_closed : Js unit :=
  run console_log LogShutdownComplete;
  effect (exit 0).

(** The callback given to [setTimeout]. *)
Definition on_force_timeout : Js unit :=
  run console_log LogForcedShutdown;
  effect (exit 1).

(** *** The event loop *)

(** One callback invocation with what the environment passes to it. *)
Inductive Event :=
| EvConnection (ws : Handle) (uuid addr : string) (connected_at last_activity : Z)
| EvMessage (ws : Handle) (message : Inbound) (activity_time now : Z)
| EvPong (ws : Handle) (now : Z)
| EvClose (ws : Handle) (code : Z) (reason : string)
| EvError (ws : Handle)
| EvHeartbeat (ws : Handle)
| EvSweep (now : Z)
| EvSignal
| EvServerClosed
| EvForceTimeout.

(** A listener of socket [ws] runs with the constants of its closure. *)
Definition on_socket (ws : Handle) (listener : Conn -> Js unit) (s : Server)
  : Server :=
  match conns s !! ws with
  | Some c => exec (listener c) s
  | None => s
  end.

(** Nothing runs after the process has ended.  A 'connection' brings a
    socket not seen before; a listener runs only on a socket it was
    registered on; a timer runs only while it is scheduled.  [EvConnection]
    is the 'connection' listener with what the library does just before it
    emits the event; the handshake around it is [handshake] below. *)
Definition step (e : Event) (s : Server) : Server :=
  match exitCode s with
  | Some _ => s
  | None =>
      match e with
      | EvConnection ws uuid addr t1 t2 =>
          match conns s !! ws with
          | Some _ => s
          | None => exec (on_connection ws uuid addr t1 t2) (ws_accept ws s)
          end
      | EvMessage ws message t1 t2 =>
          on_socket ws (fun c => on_message ws (clientId c) message t1 t2) s
      | EvPong ws now =>
          on_socket ws (fun _ => on_pong ws now) s
      | EvClose ws code reason =>
          on_socket ws (fun c => run effect (ws_closed ws);
                                 on_close ws (clientId c) code reason) s
      | EvError ws =>
          on_socket ws (fun c => run effect (ws_errored ws);
                                 on_error ws (clientId c)) s
      | EvHeartbeat ws =>
          on_socket ws (fun c => if pingInterval c
                                 then heartbeat ws (clientId c) else ret tt) s
      | EvSweep now => exec (sweep now) s
      | EvSignal => exec shutdown s
      | EvServerClosed =>
          if serverClosing s then exec on_server_closed s else s
      | EvForceTimeout =>
          match exitTimers s with
          | [] => s
          | _ :: _ => exec on_force_timeout s
          end
      end
  end.

Definition run_events (es : list Event) (s : Server) : Server :=
  foldl (fun s e => step e s) s es.

(** *** The handshake

    The library answers a well-formed upgrade request by calling
    [verifyClient] with a [done] callback.  Each call of [done] acts on the
    socket of the request.  [done(false, code, message)] writes the status
    and ends the socket.  [done(true)] completes the upgrade and emits
    'connection'; on a socket that has ended it does nothing; on a socket
    that has been upgraded already the library throws, nothing catches the
    exception, and the process ends with status 1. *)
Inductive Upgrade :=
| Pending
| Refused (code : Z) (message : option string)
| Upgraded.

(** [code || 401] *)
Definition refusal_code (code : option Z) : Z :=
  match code with
  | Some c => if decide (c = 0) then 401 else c
  | None => 401
  end.

(** [message || http.STATUS_CODES[code]]: [None] is the standard text of
    the status. *)
Definition refusal_message (message : option string) : option string :=
  match message with
  | Some m => if String.eqb m "" then None else Some m
  | None => None
  end.

(** One call of [done].  A refusal after the first call is not something
    this validator does. *)
Definition on_done (ws : Handle) (uuid addr : string)
  (connected_at last_activity : Z) (st : Upgrade * Server) (call : DoneCall)
  : Upgrade * Server :=
  match exitCode st.2 with
  | Some _ => st
  | None =>
      match call, st.1 with
      | Done false code message, Pending =>
          (Refused (refusal_code code) (refusal_message message), st.2)
      | Done false _ _, _ => st
      | Done true _ _, Pending =>
          (Upgraded,
           step (EvConnection ws uuid addr connected_at last_activity) st.2)
      | Done true _ _, Refused _ _ => st
      | Done true _ _, Upgraded => (Upgraded, exit 1 st.2)
      end
  end.

(** An upgrade request checked by a validator that makes these calls. *)
Definition upgrade (calls : list DoneCall) (ws : Handle) (uuid addr : string)
  (connected_at last_activity : Z) (s : Server) : Upgrade * Server :=
  foldl (on_done ws uuid addr connected_at last_activity) (Pending, s) calls.

Definition handshake (origin : option string) (ws : Handle)
  (uuid addr : string) (connected_at last_activity : Z) (s : Server)
  : Upgrade * Server :=
  upgrade (verifyClient origin) ws uuid addr connected_at last_activity s.

(** * Notions used to state the properties *)

(** The texts a connection was sent, oldest first. *)
Definition texts (c : Conn) : list json :=
  omap (fun op => match op with OpSend v => Some v | _ => None end) (ops c).

(** The action an event appends to the history, if it appends one: the
    event is a DRAW message on a known socket of a running process. *)
Definition drawn (e : Event) (s : Server) : option json :=
  match exitCode s, e with
  | None, EvMessage ws (Json (JObj o)) _ now =>
      match conns s !! ws with
      | Some c =>
          if is_string (Obj.get "type" o) "DRAW"
          then Some (make_action (Obj.get "data" o) (clientId c) now)
          else None
      | None => None
      end
  | _, _ => None
  end.

(** All actions appended along a run, oldest first. *)
Fixpoint drawn_by (es : list Event) (s : Server) : list json :=
  match es with
  | [] => []
  | e :: es' => option_list (drawn e s) ++ drawn_by es' (step e s)
  end.

(** The last [n] elements of a list. *)
Definition most_recent (n : nat) (l : list json) : list json :=
  drop (length l - n) l.

(** The shape every reachable state has: a [Set] and a [Map] hold a key at
    most once, and every OPEN socket is a member of [wss.clients]. *)
Definition wf (s : Server) : Prop :=
  NoDup (wss_clients s)
  /\ NoDup (clients s).*1
  /\ (forall h c, conns s !! h = Some c -> readyState c = OPEN ->
                  h ∈ wss_clients s).

(** A message that takes none of the three branches of the handler. *)
Definition unrecognised (message : Inbound) : Prop :=
  forall o, message = Json (JObj o) ->
    is_string (Obj.get "type" o) "DRAW" = false
    /\ is_string (Obj.get "type" o) "CHAT" = false
    /\ is_string (Obj.get "type" o) "PING" = false.

(** An action that names its sender and carries a clock reading. *)
Definition stamped (action : json) : Prop :=
  exists fields cid now,
    action = JObj fields
    /\ Obj.get "clientId" fields = Some (JStr cid)
    /\ Obj.get "timestamp" fields = Some (JNum now).

(** The sockets the library has not yet reported closed. *)
Definition unclosed (s : Server) : gmap Handle Conn :=
  filter (fun hc => readyState hc.2 <> CLOSED) (conns s).

(** [wss.clients] holds exactly the sockets that are not CLOSED. *)
Definition listed (s : Server) : Prop :=
  forall h, h ∈ wss_clients s
            <-> exists c, conns s !! h = Some c /\ readyState c <> CLOSED.

(** No shutdown has been started. *)
Definition unsignalled (s : Server) : Prop :=
  serverClosing s = false /\ exitTimers s = [] /\ exitCode s = None.

(** Every key of the registry is a member of [wss.clients]. *)
Definition registry_listed (s : Server) : Prop :=
  forall h, h ∈ (clients s).*1 -> h ∈ wss_clients s.

(** An origin the check lets through: absent, empty, or in the list. *)
Definition let_through (origin : option string) : Prop :=
  origin = None \/ origin = Some ""
  \/ exists o, origin = Some o /\ o ∈ allowedOrigins.

(** The status the first exit callback of a run ends the process with. *)
Fixpoint first_exit (es : list Event) : option Z :=
  match es with
  | [] => None
  | EvServerClosed :: _ => Some 0
  | EvForceTimeout :: _ => Some 1
  | _ :: es' => first_exit es'
  end.

(** A run in which each callback comes with the time of the loop at which
    it starts, after the exit timer was armed at [armed] for [delay] ms.
    The loop serves a timer that is due before any callback that starts
    later: a callback that starts after [armed + delay] comes after the
    timer's. *)
Definition timer_served (armed delay : Z) (timed : list (Z * Event)) : Prop :=
  forall before t e after,
    timed = before ++ (t, e) :: after -> armed + delay < t ->
    EvForceTimeout ∈ before.*2.

(** * Properties *)

(** ** What a broadcast does to the sockets *)

(** The sockets after [message] went to the OPEN members of [targets]
    other than [exclude]. *)
Definition delivered (message : json) (exclude : option Handle)
  (targets : list Handle) (cs : gmap Handle Conn) : gmap Handle Conn :=
  foldl (fun cs client =>
           if bool_decide (Some client <> exclude)
              && bool_decide (readyState <$> cs !! client = Some OPEN)
           then alter (record_op (OpSend message)) client cs
           else cs) cs targets.

Lemma ws_transmit_open ws op s :
  is_open ws s = true ->
  ws_transmit ws op s = (Normal tt, with_conns (alter (record_op op) ws) s).
Proof. intros Hopen. unfold ws_transmit, bind, gets. now rewrite Hopen. Qed.

Lemma delivered_cons message exclude client targets cs :
  delivered message exclude (client :: targets) cs
  = delivered message exclude targets
      (if bool_decide (Some client <> exclude)
          && bool_decide (readyState <$> cs !! client = Some OPEN)
       then alter (record_op (OpSend message)) client cs
       else cs).
Proof. reflexivity. Qed.

Lemma broadcast_for_each message exclude targets s :
  for_each targets (fun client =>
    do open <- gets (is_open client);
    if bool_decide (Some client <> exclude) && open
    then try_catch (ws_send client message)
                   (fun _ => console_log LogBroadcastError)
    else ret tt) s
  = (Normal tt, with_conns (delivered message exclude targets) s).
Proof.
  revert s. induction targets as [|client targets IH]; intros s.
  - now destruct s.
  - cbn [for_each]. unfold bind at 1. unfold bind at 1. unfold gets at 1.
    unfold with_conns at 1. rewrite delivered_cons.
    change (bool_decide (readyState <$> conns s !! client = Some OPEN))
      with (is_open client s).
    destruct (bool_decide (Some client <> exclude) && is_open client s) eqn:Hc.
    + apply andb_prop in Hc as [_ Hopen].
      unfold try_catch, ws_send. rewrite (ws_transmit_open _ _ _ Hopen).
      now rewrite IH.
    + unfold ret. now rewrite IH.
Qed.

Lemma broadcastMessage_eq message exclude s :
  broadcastMessage message exclude s
  = (Normal tt, with_conns (delivered message exclude (wss_clients s)) s).
Proof.
  unfold broadcastMessage, bind, gets. apply broadcast_for_each.
Qed.

Lemma delivered_ready message exclude targets cs h :
  readyState <$> delivered message exclude targets cs !! h
  = readyState <$> cs !! h.
Proof.
  revert cs. induction targets as [|client targets IH]; intros cs; [done|].
  rewrite delivered_cons, IH. case_match; [|done].
  rewrite lookup_alter. destruct (decide (client = h)) as [->|]; [|done].
  now destruct (cs !! h).
Qed.

Lemma delivered_skip message exclude targets cs h :
  h ∉ targets \/ Some h = exclude \/ readyState <$> cs !! h <> Some OPEN ->
  delivered message exclude targets cs !! h = cs !! h.
Proof.
  revert cs. induction targets as [|client targets IH]; intros cs Hskip; [done|].
  rewrite delivered_cons, IH.
  - case_match eqn:Hc; [|done].
    apply andb_prop in Hc as [Hx Ho].
    apply bool_decide_eq_true in Hx, Ho.
    rewrite lookup_alter. destruct (decide (client = h)) as [->|]; [|done].
    destruct Hskip as [Hni|[Hex|Hno]]; [set_solver|congruence|congruence].
  - destruct Hskip as [Hni|[Hex|Hno]]; [left; set_solver|by right; left|].
    right; right. case_match; [|done].
    rewrite lookup_alter. destruct (decide (client = h)) as [->|]; [|done].
    by destruct (cs !! h).
Qed.

Lemma delivered_hit message exclude targets cs h c :
  NoDup targets -> h ∈ targets -> Some h <> exclude ->
  cs !! h = Some c -> readyState c = OPEN ->
  delivered message exclude targets cs !! h
  = Some (record_op (OpSend message) c).
Proof.
  revert cs. induction targets as [|client targets IH];
    intros cs Hnd Hin Hx Hc Hopen; [set_solver|].
  apply NoDup_cons in Hnd as [Hfresh Hnd].
  rewrite delivered_cons.
  destruct (decide (h = client)) as [Heq|Hne]; [subst client|].
  - rewrite delivered_skip by (left; exact Hfresh).
    rewrite bool_decide_eq_true_2 by done.
    rewrite bool_decide_eq_true_2 by (by rewrite Hc; cbn; f_equal).
    cbn [andb]. by rewrite lookup_alter_eq, Hc.
  - apply elem_of_cons in Hin as [?|Hin]; [done|].
    apply IH; [done|done|done| |done].
    case_match; [|done]. by rewrite lookup_alter_ne.
Qed.

(** ** The message handler, branch by branch *)

(** The state once the activity stamp is written and the type is logged. *)
Definition received (ws : Handle) (cid : string) (activity_time : Z)
  (s : Server) : Server :=
  log (LogReceived cid) (with_clients (JsMap.mutate (touch activity_time) ws) s).

Lemma on_message_unparseable ws cid t1 t2 s :
  exec (on_message ws cid Unparseable t1 t2) s
  = log (LogProcessingError cid SyntaxError)
        (with_clients (JsMap.mutate (touch t1) ws) s).
Proof. reflexivity. Qed.

Lemma on_message_null ws cid t1 t2 s :
  exec (on_message ws cid (Json JNull) t1 t2) s
  = log (LogProcessingError cid TypeError)
        (with_clients (JsMap.mutate (touch t1) ws) s).
Proof. reflexivity. Qed.

Lemma on_message_DRAW ws cid o t1 t2 s :
  Obj.get "type" o = Some (JStr "DRAW") ->
  let action := make_action (Obj.get "data" o) cid t2 in
  exec (on_message ws cid (Json (JObj o)) t1 t2) s
  = exec (broadcastMessage (msg_DRAW action) (Some ws))
         (with_history shift_if_over
            (observe_push action
               (with_history (push action) (received ws cid t1 s)))).
Proof.
  intros Htype action.
  unfold exec, on_message, try_catch, bind, JSON_parse, get_prop, effect, ret.
  cbn -[broadcastMessage]. rewrite Htype. cbn -[broadcastMessage].
  fold action. now rewrite !broadcastMessage_eq.
Qed.

Lemma on_message_CHAT ws cid o t1 t2 s :
  Obj.get "type" o = Some (JStr "CHAT") ->
  interpolates (Obj.get "Name" o) = true ->
  interpolates (Obj.get "res" o) = true ->
  exec (on_message ws cid (Json (JObj o)) t1 t2) s
  = exec (broadcastMessage (msg_CHAT (Obj.get "Name" o) (Obj.get "res" o)) None)
         (log LogChat (received ws cid t1 s)).
Proof.
  intros Htype Hname Hres.
  unfold exec, on_message, try_catch, bind, JSON_parse, get_prop, effect, ret.
  cbn -[broadcastMessage]. rewrite Htype. cbn -[broadcastMessage template].
  unfold template. cbn [forallb].
  rewrite Hname, Hres. cbn -[broadcastMessage].
  now rewrite !broadcastMessage_eq.
Qed.

(** A CHAT whose name or text cannot be interpolated into the log line is
    dropped by the [catch]: nothing is broadcast. *)
Lemma on_message_CHAT_dropped ws cid o t1 t2 s :
  Obj.get "type" o = Some (JStr "CHAT") ->
  interpolates (Obj.get "Name" o) && interpolates (Obj.get "res" o) = false ->
  exec (on_message ws cid (Json (JObj o)) t1 t2) s
  = log (LogProcessingError cid TypeError) (received ws cid t1 s).
Proof.
  intros Htype Hbad.
  unfold exec, on_message, try_catch, bind, JSON_parse, get_prop, effect, ret.
  cbn. rewrite Htype. cbn -[template]. unfold template. cbn [forallb].
  rewrite !andb_true_r, Hbad. reflexivity.
Qed.

Lemma on_message_PING ws cid o t1 t2 s :
  Obj.get "type" o = Some (JStr "PING") ->
  is_open ws s = true ->
  exec (on_message ws cid (Json (JObj o)) t1 t2) s
  = with_conns (alter (record_op (OpSend (msg_PONG t2))) ws)
               (received ws cid t1 s).
Proof.
  intros Htype Hopen.
  unfold exec, on_message, try_catch, bind, JSON_parse, get_prop, effect, ret.
  cbn -[ws_send]. rewrite Htype. cbn -[ws_send].
  unfold ws_send. rewrite ws_transmit_open; [reflexivity|exact Hopen].
Qed.

(** ** A frame rule for callbacks

    A relation between the state before and after that every primitive
    effect of the program respects is respected by every callback, hence by
    every event. *)

Section Frame.

Variable R : Server -> Server -> Prop.
Context `{!PreOrder R}.

Definition preserves {A} (c : Js A) : Prop := forall s, R s (c s).2.

Lemma preserves_ret {A} (a : A) : preserves (ret a).
Proof. intros s. reflexivity. Qed.

Lemma preserves_throw {A} (e : Exn) : preserves (@throw A e).
Proof. intros s. reflexivity. Qed.

Lemma preserves_gets {A} (f : Server -> A) : preserves (gets f).
Proof. intros s. reflexivity. Qed.

Lemma preserves_effect (f : Server -> Server) :
  (forall s, R s (f s)) -> preserves (effect f).
Proof. intros Hf s. apply Hf. Qed.

Lemma preserves_bind {A B} (c : Js A) (k : A -> Js B) :
  preserves c -> (forall a, preserves (k a)) -> preserves (bind c k).
Proof.
  intros Hc Hk s. unfold bind. specialize (Hc s).
  destruct (c s) as [[a|e] s1]; cbn in *; [|exact Hc].
  etransitivity; [exact Hc|apply Hk].
Qed.

Lemma preserves_try_catch (body : Js unit) (handler : Exn -> Js unit) :
  preserves body -> (forall e, preserves (handler e)) ->
  preserves (try_catch body handler).
Proof.
  intros Hb Hh s. unfold try_catch. specialize (Hb s).
  destruct (body s) as [[a|e] s1]; cbn in *; [exact Hb|].
  etransitivity; [exact Hb|apply Hh].
Qed.

Lemma preserves_for_each {A} (l : list A) (body : A -> Js unit) :
  (forall x, preserves (body x)) -> preserves (for_each l body).
Proof.
  intros Hbody. induction l as [|x l IH]; cbn [for_each].
  - apply preserves_ret.
  - apply preserves_bind; [apply Hbody|intros _; exact IH].
Qed.

Ltac frame :=
  cbv zeta;
  repeat first
    [ solve [auto]
    | apply preserves_ret
    | apply preserves_throw
    | apply preserves_gets
    | apply preserves_bind; [|intros ?]
    | apply preserves_try_catch; [|intros ?]
    | apply preserves_for_each; intros ?
    | apply preserves_effect; intros ?; solve [eauto]
    | match goal with
      | |- preserves (if ?b then _ else _) => destruct b
      | |- preserves (match ?x with _ => _ end) => destruct x
      end ].

Hypothesis R_log : forall e s, R s (log e s).
Hypothesis R_transmit : forall ws op s,
  is_open ws s = true -> R s (with_conns (alter (record_op op) ws) s).

Lemma preserves_transmit ws op : preserves (ws_transmit ws op).
Proof.
  intros s. unfold ws_transmit, bind, gets.
  destruct (is_open ws s) eqn:Hopen; cbn.
  - now apply R_transmit.
  - destruct send_after_close_throws; reflexivity.
Qed.

Lemma R_delivered message exclude targets s :
  R s (with_conns (delivered message exclude targets) s).
Proof using R_transmit PreOrder0.
  revert s. induction targets as [|client targets IH]; intros s.
  - destruct s; cbn; reflexivity.
  - unfold with_conns at 1. rewrite delivered_cons.
    change (bool_decide (readyState <$> conns s !! client = Some OPEN))
      with (is_open client s).
    destruct (bool_decide (Some client <> exclude) && is_open client s) eqn:Hc.
    + apply andb_prop in Hc as [_ Hopen].
      etransitivity; [apply (R_transmit client (OpSend message) s Hopen)|].
      exact (IH (with_conns (alter (record_op (OpSend message)) client) s)).
    + exact (IH s).
Qed.

Lemma preserves_broadcast message exclude :
  preserves (broadcastMessage message exclude).
Proof using R_transmit PreOrder0.
  intros s. rewrite broadcastMessage_eq. apply R_delivered.
Qed.

(** The branch taken on the [type] of a parsed message. *)
Definition dispatch (ws : Handle) (cid : string) (data : json) (type : jsval)
  (now : Z) : Js unit :=
  if is_string type "DRAW" then
    do payload <- get_prop data "data";
    let action := make_action payload cid now in
    run effect (with_history (push action));
    run effect (observe_push action);
    run effect (with_history shift_if_over);
    broadcastMessage (msg_DRAW action) (Some ws)
  else if is_string type "CHAT" then
    do name <- get_prop data "Name";
    do res <- get_prop data "res";
    run template [name; res];
    run console_log LogChat;
    broadcastMessage (msg_CHAT name res) None
  else if is_string type "PING" then
    ws_send ws (msg_PONG now)
  else ret tt.

(** Everything the message handler does after it has written the activity
    stamp. *)
Definition on_message_rest (ws : Handle) (cid : string) (message : Inbound)
  (now : Z) : Js unit :=
  do data <- JSON_parse message;
  do type <- get_prop data "type";
  run template [type];
  run console_log (LogReceived cid);
  dispatch ws cid data type now.

Lemma on_message_split ws cid message t1 t2 s :
  on_message ws cid message t1 t2 s
  = try_catch (on_message_rest ws cid message t2)
      (fun err => console_log (LogProcessingError cid err))
      (with_clients (JsMap.mutate (touch t1) ws) s).
Proof. reflexivity. Qed.

Lemma preserves_on_message_rest ws cid message now :
  (forall f s, R s (with_history f s)) ->
  (forall action s, R s (observe_push action s)) ->
  preserves (try_catch (on_message_rest ws cid message now)
               (fun err => console_log (LogProcessingError cid err))).
Proof using R_log R_transmit PreOrder0.
  intros R_history R_observed.
  pose proof preserves_broadcast. pose proof preserves_transmit.
  unfold on_message_rest, dispatch, JSON_parse, get_prop, template,
    console_log, ws_send.
  frame.
Qed.

(** A message that does not get as far as the DRAW branch never needs
    [R_history]. *)
Definition not_draw (message : Inbound) : Prop :=
  forall o, message = Json (JObj o) -> is_string (Obj.get "type" o) "DRAW" = false.

Lemma preserves_on_message_not_draw ws cid message now :
  not_draw message ->
  preserves (try_catch (on_message_rest ws cid message now)
               (fun err => console_log (LogProcessingError cid err))).
Proof using R_log R_transmit PreOrder0.
  intros Hnd.
  pose proof preserves_broadcast. pose proof preserves_transmit.
  destruct message as [|data]; [|destruct data as [|b|n|r|str|items|o]];
    try (intros s; cbn; apply R_log).
  change (preserves
            (try_catch
               (run template [Obj.get "type" o];
                run console_log (LogReceived cid);
                dispatch ws cid (JObj o) (Obj.get "type" o) now)
               (fun err => console_log (LogProcessingError cid err)))).
  unfold dispatch. rewrite (Hnd o eq_refl).
  unfold get_prop, template, console_log, ws_send. frame.
Qed.

Hypothesis R_clients_set : forall ws info s,
  R s (with_clients (JsMap.set ws info) s).
Hypothesis R_clients_mutate : forall g ws s,
  R s (with_clients (JsMap.mutate g ws) s).
Hypothesis R_clients_delete : forall ws s,
  R s (with_clients (JsMap.delete ws) s).
Hypothesis R_closure : forall cid ws s,
  R s (with_conns (alter (set_closure cid) ws) s).
Hypothesis R_interval : forall ws s,
  R s (with_conns (alter clear_interval ws) s).
Hypothesis R_terminate : forall ws s,
  R s (with_conns (alter terminated ws) s).
Hypothesis R_close : forall code reason ws s,
  R s (with_conns (alter (closed_with code reason) ws) s).
Hypothesis R_accept : forall ws s,
  conns s !! ws = None -> R s (ws_accept ws s).
Hypothesis R_closed : forall ws s, R s (ws_closed ws s).
Hypothesis R_errored : forall ws s, R s (ws_errored ws s).
Hypothesis R_shutdown : forall closing timers s,
  R s (with_shutdown closing timers s).
Hypothesis R_exit : forall code s, R s (exit code s).

Lemma preserves_on_connection ws uuid addr t1 t2 :
  preserves (on_connection ws uuid addr t1 t2).
Proof using R_log R_transmit R_clients_set R_closure PreOrder0.
  pose proof preserves_broadcast. pose proof preserves_transmit.
  unfold on_connection, console_log, ws_send. frame.
Qed.

Lemma preserves_on_pong ws now : preserves (on_pong ws now).
Proof using R_clients_mutate. unfold on_pong. frame. Qed.

Lemma preserves_on_close ws cid code reason :
  preserves (run effect (ws_closed ws); on_close ws cid code reason).
Proof using R_log R_transmit R_clients_delete R_interval R_closed PreOrder0.
  pose proof preserves_broadcast.
  unfold on_close, console_log, clearInterval. frame.
Qed.

Lemma preserves_on_error ws cid :
  preserves (run effect (ws_errored ws); on_error ws cid).
Proof using R_log R_interval R_errored PreOrder0.
  unfold on_error, console_log, clearInterval. frame.
Qed.

Lemma preserves_heartbeat ws cid : preserves (heartbeat ws cid).
Proof using R_log R_transmit R_interval R_terminate PreOrder0.
  pose proof preserves_transmit.
  unfold heartbeat, console_log, clearInterval, ws_ping, ws_terminate. frame.
Qed.

Lemma preserves_sweep now : preserves (sweep now).
Proof using R_log R_terminate R_clients_delete PreOrder0.
  unfold sweep, console_log, ws_terminate. frame.
Qed.

Lemma preserves_shutdown : preserves shutdown.
Proof using R_log R_transmit R_close R_shutdown PreOrder0.
  pose proof preserves_transmit.
  unfold shutdown, console_log, ws_send, ws_close. frame.
Qed.

Lemma preserves_exit_callbacks :
  preserves on_server_closed /\ preserves on_force_timeout.
Proof using R_log R_exit PreOrder0.
  unfold on_server_closed, on_force_timeout, console_log. split; frame.
Qed.

Lemma preserves_on_message_touched ws cid message t1 t2 :
  preserves (try_catch (on_message_rest ws cid message t2)
               (fun err => console_log (LogProcessingError cid err))) ->
  preserves (on_message ws cid message t1 t2).
Proof using R_clients_mutate PreOrder0.
  intros Hrest s. rewrite on_message_split.
  etransitivity; [apply (R_clients_mutate (touch t1) ws)|apply Hrest].
Qed.

(** Every event other than an inbound message respects [R]. *)
Lemma step_preserves_other e s :
  (forall ws message t1 t2, e <> EvMessage ws message t1 t2) ->
  R s (step e s).
Proof using R_log R_transmit R_clients_set R_clients_mutate R_clients_delete
  R_closure R_interval R_terminate R_close R_accept R_closed R_errored
  R_shutdown R_exit PreOrder0.
  intros Hother. unfold step, on_socket, exec.
  destruct (exitCode s); [reflexivity|].
  destruct e as [ws uuid addr t1 t2|ws m t1 t2|ws now|ws code reason|ws|ws|now| | | ].
  - destruct (conns s !! ws) eqn:Hfresh; [reflexivity|].
    etransitivity; [apply (R_accept ws s Hfresh)|apply preserves_on_connection].
  - now destruct (Hother ws m t1 t2).
  - destruct (conns s !! ws); [apply preserves_on_pong|reflexivity].
  - destruct (conns s !! ws); [apply preserves_on_close|reflexivity].
  - destruct (conns s !! ws); [apply preserves_on_error|reflexivity].
  - destruct (conns s !! ws) as [c|]; [|reflexivity].
    destruct (pingInterval c); [apply preserves_heartbeat|reflexivity].
  - apply preserves_sweep.
  - apply preserves_shutdown.
  - destruct (serverClosing s); [apply preserves_exit_callbacks|reflexivity].
  - destruct (exitTimers s); [reflexivity|apply preserves_exit_callbacks].
Qed.

Lemma step_message_preserves ws message t1 t2 s :
  (forall cid, preserves (try_catch (on_message_rest ws cid message t2)
                 (fun err => console_log (LogProcessingError cid err)))) ->
  R s (step (EvMessage ws message t1 t2) s).
Proof using R_clients_mutate PreOrder0.
  intros Hrest. unfold step, on_socket, exec.
  destruct (exitCode s); [reflexivity|].
  destruct (conns s !! ws) as [c|]; [|reflexivity].
  now apply preserves_on_message_touched.
Qed.

(** Every event respects a relation that also allows the history to change. *)
Theorem step_preserves e s :
  (forall f s, R s (with_history f s)) ->
  (forall action s, R s (observe_push action s)) ->
  R s (step e s).
Proof using R_log R_transmit R_clients_set R_clients_mutate R_clients_delete
  R_closure R_interval R_terminate R_close R_accept R_closed R_errored
  R_shutdown R_exit PreOrder0.
  intros Hhist Hobs.
  destruct e as [ws uuid addr t1 t2|ws m t1 t2|ws now|ws code reason|ws|ws|now| | | ];
    try (apply step_preserves_other; discriminate).
  apply step_message_preserves. intros cid.
  now apply preserves_on_message_rest.
Qed.

Corollary run_preserves es s :
  (forall f s, R s (with_history f s)) ->
  (forall action s, R s (observe_push action s)) ->
  R s (run_events es s).
Proof using R_log R_transmit R_clients_set R_clients_mutate R_clients_delete
  R_closure R_interval R_terminate R_close R_accept R_closed R_errored
  R_shutdown R_exit PreOrder0.
  intros Hhist Hobs. revert s.
  induction es as [|e es IH]; intros s; [reflexivity|].
  cbn [run_events foldl]. etransitivity; [now apply step_preserves|apply IH].
Qed.

End Frame.

(** ** Relations on one socket *)

Section OneSocket.

Variable Q : Conn -> Conn -> Prop.
Context `{!PreOrder Q}.
Variable h : Handle.

(** Socket [h], if it exists before, exists after and is [Q]-related. *)
Definition lifted (s s' : Server) : Prop :=
  forall c, conns s !! h = Some c ->
  exists c', conns s' !! h = Some c' /\ Q c c'.

#[local] Instance lifted_preorder : PreOrder lifted.
Proof.
  split.
  - intros s c Hc. exists c. split; [exact Hc|reflexivity].
  - intros s1 s2 s3 H12 H23 c Hc.
    destruct (H12 c Hc) as (c2 & Hc2 & Hq2).
    destruct (H23 c2 Hc2) as (c3 & Hc3 & Hq3).
    exists c3. split; [exact Hc3|]. etransitivity; eassumption.
Qed.

Lemma lifted_same s s' : conns s' = conns s -> lifted s s'.
Proof.
  intros Heq c Hc. exists c. rewrite Heq. split; [exact Hc|reflexivity].
Qed.

Lemma lifted_alter g ws s :
  (forall c, ws = h -> conns s !! h = Some c -> Q c (g c)) ->
  lifted s (with_conns (alter g ws) s).
Proof.
  intros Hg c Hc. cbn. rewrite lookup_alter.
  destruct (decide (ws = h)) as [Heq|Hne].
  - subst ws. rewrite Hc. cbn. exists (g c). split; [reflexivity|now apply Hg].
  - exists c. split; [exact Hc|reflexivity].
Qed.

Hypothesis Q_transmit : forall op c, readyState c = OPEN -> Q c (record_op op c).
Hypothesis Q_closure : forall cid c, Q c (set_closure cid c).
Hypothesis Q_interval : forall c, Q c (clear_interval c).
Hypothesis Q_terminate : forall c, Q c (terminated c).
Hypothesis Q_close : forall code reason c, Q c (closed_with code reason c).
Hypothesis Q_closed : forall c, Q c (set_readyState CLOSED c).
Hypothesis Q_errored : forall c, Q c (erroring c).

Theorem run_lifted es s : lifted s (run_events es s).
Proof.
  apply (run_preserves lifted); try (intros; apply lifted_same; reflexivity).
  - intros ws op s0 Hopen. apply lifted_alter. intros c -> Hc.
    apply Q_transmit. unfold is_open, ready in Hopen.
    apply bool_decide_eq_true in Hopen. rewrite Hc in Hopen. now inversion Hopen.
  - intros cid ws s0. apply lifted_alter. intros; apply Q_closure.
  - intros ws s0. apply lifted_alter. intros; apply Q_interval.
  - intros ws s0. apply lifted_alter. intros; apply Q_terminate.
  - intros code reason ws s0. apply lifted_alter. intros; apply Q_close.
  - intros ws s0 Hfresh c Hc. cbn.
    destruct (decide (ws = h)) as [->|Hne]; [congruence|].
    rewrite lookup_insert_ne by done. exists c. split; [exact Hc|reflexivity].
  - intros ws s0.
    apply (lifted_alter (set_readyState CLOSED) ws s0). intros; apply Q_closed.
  - intros ws s0. apply lifted_alter. intros; apply Q_errored.
Qed.

Corollary step_lifted e s : lifted s (step e s).
Proof. apply (run_lifted [e]). Qed.

End OneSocket.

(** The calls on a socket only ever grow at the end. *)
Definition grows (c c' : Conn) : Prop := ops c `prefix_of` ops c'.

(** A socket that is not OPEN stays so and is sent no further text. *)
Definition silent (c c' : Conn) : Prop :=
  readyState c <> OPEN -> readyState c' <> OPEN /\ texts c' = texts c.

#[local] Instance grows_preorder : PreOrder grows.
Proof.
  split; [intros c; apply (reflexivity (R:=prefix))|].
  intros c1 c2 c3. apply (transitivity (R:=prefix)).
Qed.

#[local] Instance silent_preorder : PreOrder silent.
Proof.
  split; [now intros c Hc|].
  intros c1 c2 c3 H12 H23 Hc. destruct (H12 Hc) as [Hc2 Ht2].
  destruct (H23 Hc2) as [Hc3 Ht3]. split; [exact Hc3|congruence].
Qed.

Lemma texts_record_op op c :
  texts (record_op op c)
  = (texts c ++ match op with OpSend v => [v] | _ => [] end)%list.
Proof. unfold texts. cbn. rewrite omap_app. now destruct op. Qed.

Theorem ops_grow h es s c :
  conns s !! h = Some c ->
  exists c', conns (run_events es s) !! h = Some c' /\ ops c `prefix_of` ops c'.
Proof.
  apply (run_lifted grows); unfold grows.
  - intros op c0 _. now apply prefix_app_r.
  - now intros.
  - now intros.
  - intros c0. unfold terminated. destruct (readyState c0); cbn;
      first [reflexivity|now apply prefix_app_r].
  - intros code reason c0. unfold closed_with. destruct (readyState c0); cbn;
      first [reflexivity|now apply prefix_app_r].
  - now intros.
  - intros c0. unfold erroring. now destruct (readyState c0).
Qed.

Theorem closing_socket_stays_silent h es s c :
  conns s !! h = Some c -> readyState c <> OPEN ->
  exists c', conns (run_events es s) !! h = Some c'
             /\ readyState c' <> OPEN /\ texts c' = texts c.
Proof.
  intros Hc Hno.
  destruct (run_lifted silent h) with (es:=es) (s:=s) (c:=c)
    as (c' & Hc' & Hs); try exact Hc.
  - intros op c0 Hopen Hno0. congruence.
  - now intros cid c0 Hno0.
  - now intros c0 Hno0.
  - intros c0 Hno0. unfold terminated.
    destruct (readyState c0) eqn:Hr; cbn; try (split; [congruence|]);
      try rewrite Hr; try done.
    all: try (change (texts (record_op OpTerminate c0) = texts c0);
              rewrite texts_record_op; apply app_nil_r).
  - intros code reason c0 Hno0. unfold closed_with.
    destruct (readyState c0) eqn:Hr; try done; now rewrite Hr.
  - intros c0 Hno0. now split.
  - intros c0 Hno0. unfold erroring.
    destruct (readyState c0) eqn:Hr; cbn; rewrite ?Hr; now split.
  - exists c'. split; [exact Hc'|now apply Hs].
Qed.

(** ** The registry and the socket set keep their keys distinct *)

Lemma JsMap_keys_mutate {V} (f : V -> V) k (m : list (Handle * V)) :
  (JsMap.mutate f k m).*1 = m.*1.
Proof.
  induction m as [|[k' v] m IH]; [done|].
  cbn. rewrite <- IH. f_equal. now destruct (decide (k' = k)).
Qed.

Lemma JsMap_get_mutate {V} (f : V -> V) k k' (m : list (Handle * V)) :
  JsMap.get k' (JsMap.mutate f k m)
  = if decide (k' = k) then f <$> JsMap.get k' m else JsMap.get k' m.
Proof.
  induction m as [|[k0 v] m IH]; [now destruct (decide (k' = k))|].
  cbn. fold (JsMap.mutate f k m).
  destruct (decide (k0 = k)); cbn; destruct (decide (k' = k0)); cbn;
    rewrite ?IH; destruct (decide (k' = k)); cbn; congruence.
Qed.

Lemma JsMap_keys_delete {V} k (m : list (Handle * V)) :
  (JsMap.delete k m).*1 = filter (fun k' => k' <> k) m.*1.
Proof.
  unfold JsMap.delete. induction m as [|[k' v] m IH]; [done|].
  rewrite fmap_cons, !filter_cons. cbn [fst].
  destruct (decide (k' <> k)); [rewrite fmap_cons|]; now rewrite IH.
Qed.

Lemma JsMap_get_delete {V} k k' (m : list (Handle * V)) :
  JsMap.get k' (JsMap.delete k m)
  = if decide (k' = k) then None else JsMap.get k' m.
Proof.
  unfold JsMap.delete. induction m as [|[k0 v] m IH]; [now destruct (decide _)|].
  rewrite filter_cons. cbn [fst JsMap.get].
  destruct (decide (k0 <> k)) as [Hne|Heq]; cbn [JsMap.get].
  - rewrite IH. repeat destruct (decide _); congruence.
  - apply dec_stable in Heq. subst k0. rewrite IH.
    repeat destruct (decide _); congruence.
Qed.

Lemma JsMap_keys_set {V} k (v : V) (m : list (Handle * V)) :
  (JsMap.set k v m).*1 = if decide (k ∈ m.*1) then m.*1 else (m.*1 ++ [k])%list.
Proof.
  induction m as [|[k' v'] m IH]; [done|].
  cbn. destruct (decide (k = k')) as [->|Hne]; cbn.
  - rewrite decide_True by apply list_elem_of_here. reflexivity.
  - rewrite IH. destruct (decide (k ∈ m.*1)) as [Hin|Hni].
    + rewrite decide_True by (now apply list_elem_of_further). reflexivity.
    + rewrite decide_False; [reflexivity|].
      intros [?|?]%elem_of_cons; congruence.
Qed.

Lemma JsMap_get_set {V} k (v : V) (m : list (Handle * V)) :
  JsMap.get k (JsMap.set k v m) = Some v.
Proof.
  induction m as [|[k' v'] m IH]; cbn.
  - now rewrite decide_True.
  - destruct (decide (k = k')) as [->|Hne]; cbn.
    + now rewrite decide_True.
    + now rewrite decide_False.
Qed.

Lemma JsMap_get_elem_of {V} k (v : V) (m : list (Handle * V)) :
  JsMap.get k m = Some v -> (k, v) ∈ m.
Proof.
  induction m as [|[k' v'] m IH]; [done|]. cbn.
  destruct (decide (k = k')) as [->|Hne].
  - intros [= ->]. apply list_elem_of_here.
  - intros Hget. apply list_elem_of_further. now apply IH.
Qed.

Lemma NoDup_snoc_fresh (k : Handle) (l : list Handle) :
  NoDup l -> k ∉ l -> NoDup (l ++ [k]).
Proof.
  intros Hnd Hni. apply NoDup_app. split; [exact Hnd|]. split.
  - intros x Hx [->|Hn]%elem_of_cons; [done|]. now apply not_elem_of_nil in Hn.
  - apply NoDup_singleton.
Qed.

Definition keeps_wf (s s' : Server) : Prop := wf s -> wf s'.

#[local] Instance keeps_wf_preorder : PreOrder keeps_wf.
Proof.
  split; [now intros s0|]. intros s1 s2 s3 H12 H23 H1. apply H23, H12, H1.
Qed.

Lemma keeps_wf_alter g ws s :
  (forall c, readyState (g c) = OPEN -> readyState c = OPEN) ->
  keeps_wf s (with_conns (alter g ws) s).
Proof.
  intros Hg (Hset & Hmap & Hopen). split; [exact Hset|]. split; [exact Hmap|].
  intros h c'. cbn. rewrite lookup_alter.
  destruct (decide (ws = h)) as [->|Hne]; [|apply Hopen].
  destruct (conns s !! h) as [c|] eqn:Hc; [|discriminate].
  cbn. intros [= <-] Hr. apply (Hopen h c Hc). now apply Hg.
Qed.

Theorem run_wf es s : wf s -> wf (run_events es s).
Proof.
  apply (run_preserves keeps_wf); try (now intros).
  - intros ws op s0 _. now apply keeps_wf_alter.
  - intros ws info s0 (Hset & Hmap & Hopen).
    split; [exact Hset|]. split; [|exact Hopen]. cbn.
    rewrite JsMap_keys_set. destruct (decide _); [exact Hmap|].
    now apply NoDup_snoc_fresh.
  - intros g ws s0 (Hset & Hmap & Hopen).
    split; [exact Hset|]. split; [|exact Hopen]. cbn.
    now rewrite JsMap_keys_mutate.
  - intros ws s0 (Hset & Hmap & Hopen).
    split; [exact Hset|]. split; [|exact Hopen]. cbn -[JsMap.delete].
    rewrite JsMap_keys_delete. now apply NoDup_filter.
  - intros cid ws s0. now apply keeps_wf_alter.
  - intros ws s0. now apply keeps_wf_alter.
  - intros ws s0. apply keeps_wf_alter. intros c. unfold terminated.
    destruct (readyState c) eqn:Hr; cbn; congruence.
  - intros code reason ws s0. apply keeps_wf_alter. intros c.
    unfold closed_with. destruct (readyState c) eqn:Hr; cbn; congruence.
  - intros ws s0 Hfresh (Hset & Hmap & Hopen).
    assert (Hadd : forall h, h = ws \/ h ∈ wss_clients s0 ->
                     h ∈ JsSet.add ws (wss_clients s0)).
    { intros h Hh. unfold JsSet.add. destruct (decide _) as [Hin|Hni].
      - destruct Hh as [->|Hh]; assumption.
      - apply elem_of_app. destruct Hh as [->|Hh]; [right|now left].
        apply list_elem_of_here. }
    split; [|split; [exact Hmap|]]; cbn.
    + unfold JsSet.add. destruct (decide _); [exact Hset|].
      now apply NoDup_snoc_fresh.
    + intros h c. destruct (decide (ws = h)) as [->|Hne].
      * intros _ _. apply Hadd. now left.
      * rewrite lookup_insert_ne by exact Hne. intros Hc Hr.
        apply Hadd. right. now apply (Hopen h c).
  - intros ws s0 (Hset & Hmap & Hopen).
    split; [|split; [exact Hmap|]]; cbn.
    + unfold JsSet.delete. now apply NoDup_filter.
    + intros h c. rewrite lookup_alter.
      destruct (decide (ws = h)) as [->|Hne].
      * destruct (conns s0 !! h); [|discriminate]. cbn. now intros [= <-].
      * intros Hc Hr. unfold JsSet.delete. apply list_elem_of_filter.
        split; [congruence|now apply (Hopen h c)].
  - intros ws s0. apply keeps_wf_alter. intros c. unfold erroring.
    destruct (readyState c) eqn:Hr; cbn; congruence.
Qed.

Corollary reachable_wf es : wf (run_events es initial).
Proof.
  apply run_wf. split; [apply NoDup_nil_2|]. split; [apply NoDup_nil_2|].
  intros h c Hc. cbn in Hc. now rewrite lookup_empty in Hc.
Qed.

(** ** Inbound messages *)

Lemma step_message s ws c message t1 t2 :
  exitCode s = None -> conns s !! ws = Some c ->
  step (EvMessage ws message t1 t2) s
  = exec (on_message ws (clientId c) message t1 t2) s.
Proof. intros Hrun Hc. unfold step, on_socket. now rewrite Hrun, Hc. Qed.

Lemma Obj_get_set_eq k v o : Obj.get k (Obj.set k v o) = Some v.
Proof.
  induction o as [|[k' v'] o IH]; cbn.
  - now rewrite String.eqb_refl.
  - destruct (String.eqb k k') eqn:Hk; cbn; now rewrite Hk.
Qed.

Lemma Obj_get_set_ne k k' v o :
  k <> k' -> Obj.get k (Obj.set k' v o) = Obj.get k o.
Proof.
  intros Hne. apply String.eqb_neq in Hne.
  induction o as [|[k0 v0] o IH]; cbn.
  - now rewrite Hne.
  - destruct (String.eqb k' k0) eqn:Hk; cbn; [|now rewrite IH].
    destruct (String.eqb k k0) eqn:Hk0; [|reflexivity].
    apply String.eqb_eq in Hk, Hk0. subst. now rewrite String.eqb_refl in Hne.
Qed.

Lemma delivered_lookup message exclude targets cs h :
  NoDup targets ->
  delivered message exclude targets cs !! h
  = (fun c => if bool_decide (Some h <> exclude /\ h ∈ targets /\ readyState c = OPEN)
              then record_op (OpSend message) c else c) <$> cs !! h.
Proof.
  intros Hnd. destruct (cs !! h) as [c|] eqn:Hc; cbn.
  - case_bool_decide as Hcond.
    + destruct Hcond as (Hx & Hin & Hopen). now apply delivered_hit.
    + rewrite delivered_skip; [exact Hc|].
      destruct (decide (h ∈ targets)); [|now left].
      destruct (decide (Some h = exclude)); [now right; left|].
      right; right. rewrite Hc. cbn. intros [= Hopen]. now apply Hcond.
  - rewrite delivered_skip; [exact Hc|]. right; right. now rewrite Hc.
Qed.

Lemma shift_if_over_last (h : list json) (action : json) :
  last (shift_if_over (push action h)) = Some action.
Proof.
  unfold shift_if_over, push. destruct (decide _) as [Hover|_].
  - destruct h as [|x h]; [cbn in Hover; unfold MAX_HISTORY in Hover; lia|].
    cbn. apply last_snoc.
  - apply last_snoc.
Qed.

(** C3: a DRAW message from a connection builds an action that holds the
    sender's connection identifier, the server's clock reading and the
    members of the payload (an object) under every other name.  The action
    goes to the tail of the history, the oldest entry leaving if a hundred
    are there already, while no socket has yet been written to; then every
    other OPEN connection of [wss.clients] is sent one DRAW message that
    carries the action, and the sender and every other socket are sent
    nothing. *)
Theorem draw_recorded_then_relayed_to_others s ws sender o t1 t2 :
  exitCode s = None ->
  conns s !! ws = Some sender ->
  NoDup (wss_clients s) ->
  Obj.get "type" o = Some (JStr "DRAW") ->
  let s' := step (EvMessage ws (Json (JObj o)) t1 t2) s in
  exists fields,
    Obj.get "clientId" fields = Some (JStr (clientId sender))
    /\ Obj.get "timestamp" fields = Some (JNum t2)
    /\ (forall members k,
          Obj.get "data" o = Some (JObj members) ->
          k <> "clientId" -> k <> "timestamp" ->
          Obj.get k fields = Obj.get k members)
    /\ drawingHistory s'
       = (if decide (length (drawingHistory s) < 100)%nat
          then drawingHistory s ++ [JObj fields]
          else tail (drawingHistory s) ++ [JObj fields])
    /\ pushes s' = pushes s ++ [(JObj fields, conns s)]
    /\ (forall h,
          conns s' !! h
          = (fun c =>
               mkConn (readyState c)
                 (ops c ++ if bool_decide (h <> ws /\ h ∈ wss_clients s
                                           /\ readyState c = OPEN)
                           then [OpSend (JObj [("type", JStr "DRAW");
                                               ("data", JObj fields)])]
                           else [])
                 (clientId c) (pingInterval c))
            <$> conns s !! h).
Proof.
  intros Hrun Hsender Hnd Htype s'.
  set (fields := Obj.set "timestamp" (JNum t2)
                   (Obj.set "clientId" (JStr (clientId sender))
                      (Obj.spread (Obj.get "data" o)))).
  assert (Haction : make_action (Obj.get "data" o) (clientId sender) t2
                    = JObj fields) by reflexivity.
  assert (Hs' : s' = with_conns
                       (delivered (msg_DRAW (JObj fields)) (Some ws)
                          (wss_clients s))
                       (with_history shift_if_over
                          (observe_push (JObj fields)
                             (with_history (push (JObj fields))
                                (received ws (clientId sender) t1 s))))).
  { unfold s'. rewrite (step_message _ _ _ _ _ _ Hrun Hsender).
    unfold exec, on_message, try_catch, bind, JSON_parse, get_prop, effect, ret.
    cbn -[broadcastMessage]. rewrite Htype. cbn -[broadcastMessage].
    rewrite Haction. now rewrite broadcastMessage_eq. }
  exists fields. split; [|split; [|split; [|split; [|split]]]].
  - unfold fields. rewrite Obj_get_set_ne by discriminate. apply Obj_get_set_eq.
  - apply Obj_get_set_eq.
  - intros members k Hdata Hc Ht. unfold fields.
    rewrite !Obj_get_set_ne by assumption. now rewrite Hdata.
  - rewrite Hs'. cbn -[delivered shift_if_over push].
    unfold shift_if_over, push, MAX_HISTORY. rewrite length_app. cbn [length].
    destruct (decide (100 < length (drawingHistory s) + 1)%nat),
      (decide (length (drawingHistory s) < 100)%nat); try lia; [|reflexivity].
    destruct (drawingHistory s); [cbn in *; lia|reflexivity].
  - rewrite Hs'. reflexivity.
  - intros h. rewrite Hs'. cbn -[delivered].
    rewrite delivered_lookup by exact Hnd.
    destruct (conns s !! h) as [c|]; [|reflexivity]. cbn. f_equal.
    rewrite (bool_decide_ext (Some h <> Some ws /\ h ∈ wss_clients s
                              /\ readyState c = OPEN)
               (h <> ws /\ h ∈ wss_clients s /\ readyState c = OPEN))
      by (split; intros (Hx & Hr); (split; [congruence|exact Hr])).
    case_bool_decide; [reflexivity|]. destruct c. cbn. now rewrite app_nil_r.
Qed.

(** C4: a CHAT message carrying a name and a text is sent, as the pair it
    carries, once to every OPEN connection of [wss.clients], the sender
    included; no other socket is sent anything and the history is not
    touched. *)
Theorem chat_relayed_to_all_including_sender s ws sender o name text t1 t2 :
  exitCode s = None ->
  conns s !! ws = Some sender ->
  NoDup (wss_clients s) ->
  Obj.get "type" o = Some (JStr "CHAT") ->
  Obj.get "Name" o = Some (JStr name) ->
  Obj.get "res" o = Some (JStr text) ->
  let s' := step (EvMessage ws (Json (JObj o)) t1 t2) s in
  (forall h,
      conns s' !! h
      = (fun c =>
           mkConn (readyState c)
             (ops c ++ if bool_decide (h ∈ wss_clients s /\ readyState c = OPEN)
                       then [OpSend (JObj [("type", JStr "CHAT");
                                           ("Name", JStr name);
                                           ("res", JStr text)])]
                       else [])
             (clientId c) (pingInterval c))
        <$> conns s !! h)
  /\ drawingHistory s' = drawingHistory s.
Proof.
  intros Hrun Hsender Hnd Htype Hname Hres s'.
  assert (Hs' : s' = exec (broadcastMessage
                             (msg_CHAT (Some (JStr name)) (Some (JStr text)))
                             None)
                   (log LogChat (received ws (clientId sender) t1 s))).
  { unfold s'. rewrite (step_message _ _ _ _ _ _ Hrun Hsender).
    rewrite on_message_CHAT; [|exact Htype|now rewrite Hname|now rewrite Hres].
    now rewrite Hname, Hres. }
  unfold exec in Hs'. rewrite broadcastMessage_eq in Hs'. split.
  - intros h. rewrite Hs'. cbn -[delivered].
    rewrite delivered_lookup by exact Hnd.
    destruct (conns s !! h) as [c|]; [|reflexivity]. cbn. f_equal.
    rewrite (bool_decide_ext (Some h <> None /\ h ∈ wss_clients s
                              /\ readyState c = OPEN)
               (h ∈ wss_clients s /\ readyState c = OPEN))
      by (split; [now intros (_ & Hr)|now intros Hr]).
    case_bool_decide; [reflexivity|]. destruct c. cbn. now rewrite app_nil_r.
  - now rewrite Hs'.
Qed.

(** C6: a PING message from an OPEN connection makes the server send one
    PONG message with its clock reading to that connection; no other socket
    is written to and the history is not touched. *)
Theorem ping_answered_by_one_pong s ws sender o t1 t2 :
  exitCode s = None ->
  conns s !! ws = Some sender ->
  readyState sender = OPEN ->
  Obj.get "type" o = Some (JStr "PING") ->
  let s' := step (EvMessage ws (Json (JObj o)) t1 t2) s in
  conns s' !! ws
    = Some (mkConn OPEN
              (ops sender ++ [OpSend (JObj [("type", JStr "PONG");
                                            ("timestamp", JNum t2)])])
              (clientId sender) (pingInterval sender))
  /\ (forall h, h <> ws -> conns s' !! h = conns s !! h)
  /\ drawingHistory s' = drawingHistory s.
Proof.
  intros Hrun Hsender Hopen Htype s'.
  assert (Hs' : s' = with_conns (alter (record_op (OpSend (msg_PONG t2))) ws)
                       (received ws (clientId sender) t1 s)).
  { unfold s'. rewrite (step_message _ _ _ _ _ _ Hrun Hsender).
    apply on_message_PING; [exact Htype|].
    unfold is_open, ready. rewrite Hsender. cbn. rewrite Hopen.
    now apply bool_decide_eq_true. }
  rewrite Hs'. cbn. split; [|split].
  - rewrite lookup_alter_eq, Hsender. cbn. unfold record_op. now rewrite Hopen.
  - intros h Hne. now rewrite lookup_alter_ne.
  - reflexivity.
Qed.

(** C9: a message that [JSON.parse] rejects leaves one error line on the
    console and nothing else: no socket is written to or closed, the history,
    [wss.clients] and the keys of the registry are as before. *)
Theorem unparseable_message_logged_and_discarded s ws sender t1 t2 :
  exitCode s = None ->
  conns s !! ws = Some sender ->
  let s' := step (EvMessage ws Unparseable t1 t2) s in
  console s' = console s ++ [LogProcessingError (clientId sender) SyntaxError]
  /\ conns s' = conns s
  /\ drawingHistory s' = drawingHistory s
  /\ wss_clients s' = wss_clients s
  /\ (clients s').*1 = (clients s).*1
  /\ exitCode s' = None.
Proof.
  intros Hrun Hsender s'. unfold s'.
  rewrite (step_message _ _ _ _ _ _ Hrun Hsender), on_message_unparseable.
  cbn. rewrite JsMap_keys_mutate. repeat split; assumption || reflexivity.
Qed.

(** ** The sweep *)

(** What the sweep does when it visits one entry of the registry. *)
Definition sweep_entry (now : Z) (s : Server) (entry : Handle * ClientInfo)
  : Server :=
  if decide (now - lastActivity entry.2 > INACTIVITY) then
    with_clients (JsMap.delete entry.1)
      (with_conns (alter terminated entry.1)
         (log (LogTerminating (id entry.2)) s))
  else s.

Lemma with_conns_id f s : f (conns s) = conns s -> with_conns f s = s.
Proof. intros Hf. destruct s. unfold with_conns. cbn in *. now rewrite Hf. Qed.

Lemma alter_terminated_closed ws s :
  is_closed ws s = true -> alter terminated ws (conns s) = conns s.
Proof.
  intros Hclosed. apply bool_decide_eq_true in Hclosed. unfold ready in Hclosed.
  apply map_eq. intros k. rewrite lookup_alter.
  destruct (decide (ws = k)) as [->|]; [|reflexivity].
  destruct (conns s !! k) as [c|]; [|reflexivity].
  cbn in *. unfold terminated. injection Hclosed as ->. reflexivity.
Qed.

Lemma sweep_for_each now entries s :
  for_each entries (fun entry =>
    if decide (now - lastActivity entry.2 > INACTIVITY) then
      run console_log (LogTerminating (id entry.2));
      do closed <- gets (is_closed entry.1);
      run (if closed then ret tt else ws_terminate entry.1);
      effect (with_clients (JsMap.delete entry.1))
    else ret tt) s
  = (Normal tt, foldl (sweep_entry now) s entries).
Proof.
  revert s. induction entries as [|entry entries IH]; intros s; [reflexivity|].
  cbn [for_each foldl]. unfold bind at 1. unfold sweep_entry at 2.
  destruct (decide (now - lastActivity entry.2 > INACTIVITY)) as [Hstale|Hfresh].
  - unfold bind, console_log, effect, gets. cbn.
    destruct (is_closed entry.1 (log (LogTerminating (id entry.2)) s)) eqn:Hc; cbn.
    + rewrite (with_conns_id (alter terminated entry.1))
        by (now apply alter_terminated_closed).
      apply IH.
    + apply IH.
  - apply IH.
Qed.

Lemma sweep_eq now s :
  exec (sweep now) s
  = log (LogActive (length (wss_clients s))) (foldl (sweep_entry now) s (clients s)).
Proof.
  unfold exec, sweep, bind at 1, gets at 1. unfold bind at 1.
  rewrite sweep_for_each. unfold bind, gets, console_log, effect. cbn.
  f_equal. f_equal. f_equal.
  generalize (clients s). intros l. revert s.
  induction l as [|entry l IH]; intros s; [reflexivity|].
  cbn [foldl]. rewrite IH. unfold sweep_entry. now destruct (decide _).
Qed.

(** A socket none of whose visited entries is stale is not touched and
    keeps its registry entry. *)
Lemma sweep_fold_other now entries s h :
  (forall info, (h, info) ∈ entries -> now - lastActivity info <= INACTIVITY) ->
  conns (foldl (sweep_entry now) s entries) !! h = conns s !! h
  /\ JsMap.get h (clients (foldl (sweep_entry now) s entries))
     = JsMap.get h (clients s).
Proof.
  revert s. induction entries as [|[k info] entries IH]; intros s Hrecent;
    [done|].
  cbn [foldl].
  destruct (IH (sweep_entry now s (k, info))) as [Hconns Hclients].
  { intros i Hi. apply Hrecent. now apply list_elem_of_further. }
  rewrite Hconns, Hclients. unfold sweep_entry. cbn [fst snd].
  destruct (decide (now - lastActivity info > INACTIVITY)) as [Hstale|]; [|done].
  assert (Hne : k <> h).
  { intros ->. specialize (Hrecent info (list_elem_of_here _ _)). lia. }
  cbn -[JsMap.delete]. rewrite lookup_alter_ne by exact Hne. split; [reflexivity|].
  rewrite JsMap_get_delete. now rewrite decide_False by congruence.
Qed.

(** A socket with a stale entry is terminated once and loses the entry. *)
Lemma sweep_fold_stale now entries s h info :
  NoDup entries.*1 -> (h, info) ∈ entries ->
  now - lastActivity info > INACTIVITY ->
  conns (foldl (sweep_entry now) s entries) !! h = terminated <$> conns s !! h
  /\ JsMap.get h (clients (foldl (sweep_entry now) s entries)) = None.
Proof.
  revert s. induction entries as [|[k i] entries IH]; intros s Hnd Hin Hstale.
  - now apply not_elem_of_nil in Hin.
  - rewrite fmap_cons in Hnd. apply NoDup_cons in Hnd as [Hk Hnd]. cbn in Hk.
    cbn [foldl]. apply elem_of_cons in Hin as [Heq|Hin].
    + injection Heq as <- <-.
      destruct (sweep_fold_other now entries (sweep_entry now s (h, info)) h)
        as [Hconns Hclients].
      { intros i' Hi'. destruct Hk. apply list_elem_of_fmap.
        now exists (h, i'). }
      rewrite Hconns, Hclients. unfold sweep_entry. cbn [fst snd].
      rewrite decide_True by exact Hstale. cbn -[JsMap.delete].
      rewrite lookup_alter_eq, JsMap_get_delete. now rewrite decide_True.
    + destruct (IH (sweep_entry now s (k, i)) Hnd Hin Hstale) as [Hconns Hclients].
      rewrite Hconns, Hclients. split; [|reflexivity].
      assert (Hne : k <> h).
      { intros ->. destruct Hk. apply list_elem_of_fmap. now exists (h, info). }
      unfold sweep_entry. cbn [fst snd]. destruct (decide _); [|reflexivity].
      cbn. now rewrite lookup_alter_ne.
Qed.


Lemma terminated_texts c : texts (terminated c) = texts c.
Proof.
  unfold terminated. destruct (readyState c); try reflexivity;
    change (texts (record_op OpTerminate c) = texts c);
    rewrite texts_record_op; apply app_nil_r.
Qed.

Lemma NoDup_keys_unique {V} (m : list (Handle * V)) k v v' :
  NoDup m.*1 -> (k, v) ∈ m -> JsMap.get k m = Some v' -> v = v'.
Proof.
  induction m as [|[k0 v0] m IH]; intros Hnd Hin Hget.
  - now apply not_elem_of_nil in Hin.
  - rewrite fmap_cons in Hnd. apply NoDup_cons in Hnd as [Hk Hnd]. cbn in *.
    destruct (decide (k = k0)) as [->|Hne].
    + injection Hget as <-. apply elem_of_cons in Hin as [Heq|Hin]; [congruence|].
      destruct Hk. apply list_elem_of_fmap. now exists (k0, v).
    + apply elem_of_cons in Hin as [Heq|Hin]; [congruence|]. now apply IH.
Qed.


(** ** Activity stamps *)

(** A component of the state that a callback leaves alone. *)
Definition same_on {A} (proj : Server -> A) (s s' : Server) : Prop :=
  proj s' = proj s.

#[local] Instance same_on_preorder {A} (proj : Server -> A) :
  PreOrder (same_on proj).
Proof.
  split; [now intros s|]. unfold same_on. intros s1 s2 s3 H12 H23. congruence.
Qed.

Lemma on_message_keeps {A} (proj : Server -> A) ws cid message t1 t2 s :
  (forall e s, proj (log e s) = proj s) ->
  (forall f s, proj (with_conns f s) = proj s) ->
  (forall f s, proj (with_history f s) = proj s) ->
  (forall action s, proj (observe_push action s) = proj s) ->
  proj (exec (on_message ws cid message t1 t2) s)
  = proj (with_clients (JsMap.mutate (touch t1) ws) s).
Proof.
  intros Hlog Hconns Hhist Hobs. unfold exec. rewrite on_message_split.
  apply (preserves_on_message_rest (same_on proj)); unfold same_on; auto.
Qed.

(** C10: every 'message' event on a registered connection, whatever the
    text is (unparseable, of an unknown type, or a recognised message),
    writes the clock reading into the connection's last-activity stamp; a
    sweep that comes no more than 300 000 ms after that reading keeps the
    connection registered. *)
Theorem every_message_stamps_activity s ws sender info message t1 t2 :
  exitCode s = None ->
  conns s !! ws = Some sender ->
  JsMap.get ws (clients s) = Some info ->
  let s' := step (EvMessage ws message t1 t2) s in
  JsMap.get ws (clients s') = Some (touch t1 info)
  /\ lastActivity (touch t1 info) = t1
  /\ (forall now,
        NoDup (clients s).*1 -> now - t1 <= INACTIVITY ->
        JsMap.get ws (clients (step (EvSweep now) s')) = Some (touch t1 info)).
Proof.
  intros Hrun Hsender Hinfo s'.
  assert (Hclients : clients s' = JsMap.mutate (touch t1) ws (clients s)).
  { unfold s'. rewrite (step_message _ _ _ _ _ _ Hrun Hsender).
    now apply (on_message_keeps clients). }
  assert (Hexit : exitCode s' = None).
  { unfold s'. rewrite (step_message _ _ _ _ _ _ Hrun Hsender).
    now rewrite (on_message_keeps exitCode). }
  assert (Hget : JsMap.get ws (clients s') = Some (touch t1 info)).
  { rewrite Hclients, JsMap_get_mutate, decide_True by reflexivity.
    now rewrite Hinfo. }
  split; [exact Hget|]. split; [reflexivity|].
  intros now Hnd Hrecent. unfold step. rewrite Hexit, sweep_eq. cbn.
  destruct (sweep_fold_other now (clients s') s' ws) as [_ Hkept];
    [|now rewrite Hkept].
  intros i Hi.
  assert (Hnd' : NoDup (clients s').*1)
    by (now rewrite Hclients, JsMap_keys_mutate).
  now rewrite (NoDup_keys_unique _ _ _ _ Hnd' Hi Hget).
Qed.

(** ** Shutdown *)

Definition shutdown_client (s : Server) (client : Handle) : Server :=
  if is_open client s then
    with_conns (alter (closed_with 1000 "Server shutdown") client)
      (with_conns (alter (record_op (OpSend SHUTDOWN_NOTICE)) client) s)
  else s.

Lemma shutdown_for_each targets s :
  for_each targets (fun client =>
    do open <- gets (is_open client);
    if open then
      run ws_send client SHUTDOWN_NOTICE;
      ws_close client 1000 "Server shutdown"
    else ret tt) s
  = (Normal tt, foldl shutdown_client s targets).
Proof.
  revert s. induction targets as [|client targets IH]; intros s; [reflexivity|].
  cbn [for_each foldl]. unfold bind at 1. unfold bind at 1. unfold gets at 1.
  unfold shutdown_client at 2.
  destruct (is_open client s) eqn:Hopen; [|apply IH].
  unfold bind, ws_send. rewrite (ws_transmit_open _ _ _ Hopen). apply IH.
Qed.

Lemma shutdown_eq s :
  exec shutdown s
  = let s1 := foldl shutdown_client (log LogShuttingDown s) (wss_clients s) in
    with_shutdown true (exitTimers s1 ++ [5000]) s1.
Proof.
  unfold exec, shutdown, bind at 1, console_log at 1, effect at 1.
  unfold bind at 1, gets at 1. unfold bind at 1.
  now rewrite shutdown_for_each.
Qed.

Lemma shutdown_fold_frame targets s :
  exitTimers (foldl shutdown_client s targets) = exitTimers s
  /\ exitCode (foldl shutdown_client s targets) = exitCode s.
Proof.
  revert s. induction targets as [|client targets IH]; intros s; [done|].
  cbn [foldl]. destruct (IH (shutdown_client s client)) as [-> ->].
  unfold shutdown_client. now destruct (is_open client s).
Qed.

(** A socket after the two calls [shutdown] makes on it. *)
Definition shut (c : Conn) : Conn :=
  closed_with 1000 "Server shutdown" (record_op (OpSend SHUTDOWN_NOTICE) c).

Lemma shut_not_open c : readyState (shut c) <> OPEN.
Proof.
  unfold shut, closed_with, record_op. cbn.
  destruct (readyState c) eqn:Hr; cbn; congruence.
Qed.

Lemma shutdown_client_lookup_same s h c :
  conns s !! h = Some c ->
  conns (shutdown_client s h) !! h
  = Some (if bool_decide (readyState c = OPEN) then shut c else c).
Proof.
  intros Hc. unfold shutdown_client, is_open, ready. rewrite Hc. cbn.
  case_bool_decide as Hopen.
  - injection Hopen as Hopen. rewrite bool_decide_eq_true_2 by exact Hopen.
    cbn. now rewrite !lookup_alter_eq, Hc.
  - rewrite bool_decide_eq_false_2 by congruence. exact Hc.
Qed.

Lemma shutdown_client_lookup_ne s h client :
  client <> h -> conns (shutdown_client s client) !! h = conns s !! h.
Proof.
  intros Hne. unfold shutdown_client. destruct (is_open client s); [|reflexivity].
  cbn. now rewrite !lookup_alter_ne.
Qed.

Lemma shutdown_client_lookup_None s h client :
  conns s !! h = None -> conns (shutdown_client s client) !! h = None.
Proof.
  intros Hc. destruct (decide (client = h)) as [->|Hne].
  - unfold shutdown_client, is_open, ready. rewrite Hc. cbn.
    rewrite bool_decide_eq_false_2 by discriminate. exact Hc.
  - now rewrite shutdown_client_lookup_ne.
Qed.

Lemma shutdown_fold_lookup targets s h :
  conns (foldl shutdown_client s targets) !! h
  = (fun c => if bool_decide (h ∈ targets /\ readyState c = OPEN)
              then shut c else c) <$> conns s !! h.
Proof.
  revert s. induction targets as [|client targets IH]; intros s.
  - cbn [foldl]. destruct (conns s !! h) as [c|]; [|reflexivity].
    change (Some c = Some (if bool_decide (h ∈ [] /\ readyState c = OPEN)
                           then shut c else c)).
    rewrite bool_decide_eq_false_2; [reflexivity|].
    intros [Hin _]. now apply not_elem_of_nil in Hin.
  - cbn [foldl]. rewrite IH.
    destruct (conns s !! h) as [c|] eqn:Hc;
      [|now rewrite shutdown_client_lookup_None].
    destruct (decide (client = h)) as [->|Hne].
    + rewrite (shutdown_client_lookup_same _ _ _ Hc).
      cbn [fmap option_fmap option_map]. f_equal.
      destruct (decide (readyState c = OPEN)) as [Hopen|Hno].
      * rewrite (bool_decide_eq_true_2 (readyState c = OPEN)) by exact Hopen.
        rewrite bool_decide_eq_false_2
          by (intros [_ ?]; now apply (shut_not_open c)).
        rewrite bool_decide_eq_true_2; [reflexivity|].
        split; [apply list_elem_of_here|exact Hopen].
      * rewrite (bool_decide_eq_false_2 (readyState c = OPEN)) by exact Hno.
        rewrite !bool_decide_eq_false_2; [reflexivity| |]; now intros [_ ?].
    + rewrite (shutdown_client_lookup_ne _ _ _ Hne), Hc.
      cbn [fmap option_fmap option_map]. f_equal.
      apply (f_equal (fun b : bool => if b then _ else _)).
      apply bool_decide_ext. split.
      * intros [Hin Hr]. split; [now apply list_elem_of_further|exact Hr].
      * intros [[Heq|Hin]%elem_of_cons Hr]; [congruence|now split].
Qed.

Lemma exit_is_final es s code : exitCode s = Some code -> run_events es s = s.
Proof.
  intros Hexit. induction es as [|e es IH]; [reflexivity|].
  cbn [run_events foldl]. unfold step at 2. rewrite Hexit. exact IH.
Qed.

(** The part of the state that only the shutdown and the exit callbacks
    write. *)
Definition shutdown_state (s : Server) : bool * list Z * option Z :=
  (serverClosing s, exitTimers s, exitCode s).

Lemma step_shutdown_state e s :
  e <> EvSignal -> e <> EvServerClosed -> e <> EvForceTimeout ->
  shutdown_state (step e s) = shutdown_state s.
Proof.
  intros Hsignal Hclosed Hforce.
  change (same_on shutdown_state s (step e s)).
  unfold step, on_socket, exec. destruct (exitCode s); [reflexivity|].
  destruct e as [ws uuid addr t1 t2|ws m t1 t2|ws now|ws code reason|ws|ws|now| | | ];
    try congruence.
  - destruct (conns s !! ws) eqn:Hfresh; [reflexivity|].
    etransitivity;
      [|apply (preserves_on_connection (same_on shutdown_state));
        intros; reflexivity].
    reflexivity.
  - destruct (conns s !! ws) as [c|]; [|reflexivity].
    apply (preserves_on_message_touched (same_on shutdown_state));
      [intros; reflexivity|].
    apply (preserves_on_message_rest (same_on shutdown_state));
      intros; reflexivity.
  - destruct (conns s !! ws); [|reflexivity].
    apply (preserves_on_pong (same_on shutdown_state)); intros; reflexivity.
  - destruct (conns s !! ws); [|reflexivity].
    apply (preserves_on_close (same_on shutdown_state)); intros; reflexivity.
  - destruct (conns s !! ws); [|reflexivity].
    apply (preserves_on_error (same_on shutdown_state)); intros; reflexivity.
  - destruct (conns s !! ws) as [c|]; [|reflexivity].
    destruct (pingInterval c); [|reflexivity].
    apply (preserves_heartbeat (same_on shutdown_state)); intros; reflexivity.
  - apply (preserves_sweep (same_on shutdown_state)); intros; reflexivity.
Qed.

Lemma step_signal_state s :
  exitCode s = None ->
  serverClosing (step EvSignal s) = true
  /\ exitTimers (step EvSignal s) = exitTimers s ++ [5000]
  /\ exitCode (step EvSignal s) = None.
Proof.
  intros Hrun. unfold step. rewrite Hrun, shutdown_eq.
  destruct (shutdown_fold_frame (wss_clients s) (log LogShuttingDown s))
    as [Htimers Hexit].
  cbn -[shutdown_client]. now rewrite Htimers, Hexit.
Qed.

(** Once [server.close] is pending and the timer is armed, the process
    runs until the first of the two exit callbacks and ends with its
    status. *)
Lemma run_closing es s :
  exitCode s = None -> serverClosing s = true -> exitTimers s <> [] ->
  exitCode (run_events es s) = first_exit es.
Proof.
  revert s. induction es as [|e es IH]; intros s Hrun Hclosing Htimers;
    [exact Hrun|].
  cbn [run_events foldl].
  change (foldl (fun s e => step e s) (step e s) es)
    with (run_events es (step e s)).
  assert (Hother : e <> EvSignal -> e <> EvServerClosed -> e <> EvForceTimeout ->
                   exitCode (run_events es (step e s)) = first_exit es).
  { intros H1 H2 H3.
    pose proof (step_shutdown_state e s H1 H2 H3) as Hsame.
    injection Hsame as Hc Ht Hx. apply IH; congruence. }
  destruct e as [ws uuid addr t1 t2|ws m t1 t2|ws now|ws code reason|ws|ws|now| | | ];
    cbn [first_exit]; try (apply Hother; discriminate).
  - destruct (step_signal_state s Hrun) as (Hc & Ht & Hx).
    apply IH; [exact Hx|exact Hc|].
    rewrite Ht. now destruct (exitTimers s).
  - rewrite (exit_is_final es _ 0); unfold step; rewrite Hrun, Hclosing;
      reflexivity.
  - rewrite (exit_is_final es _ 1); unfold step; rewrite Hrun;
      destruct (exitTimers s); done.
Qed.

Lemma first_exit_after_timeout es :
  EvForceTimeout ∈ es -> first_exit es = Some 0 \/ first_exit es = Some 1.
Proof.
  induction es as [|e es IH]; [now intros ?%not_elem_of_nil|].
  intros [<-|Hin]%elem_of_cons; [now right|].
  destruct e; cbn [first_exit]; auto.
Qed.

(** C8: on a signal every OPEN connection of [wss.clients] is sent the
    SYSTEM notice of the shutdown and then [close(1000, ...)]; whatever
    happens afterwards it is never sent a text again, so it gets the notice
    exactly once.  [server.close] is pending and a timer of 5000 ms is
    armed, whether or not anything was sent.  From then on the process runs
    until the first of the two callbacks and ends with 0 if that is the one
    of [server.close] and with 1 if it is the timer's, whatever events come
    in between and after.  In a run where the signal is handled at loop
    time [t0] and the loop serves a due timer before a later callback, no
    callback that starts after [t0 + 5000] finds the process alive. *)
Theorem shutdown_notifies_closes_and_exits s :
  exitCode s = None ->
  let s' := step EvSignal s in
  let notice := JObj [("type", JStr "SYSTEM");
                      ("message", JStr "Server is shutting down...")] in
  (forall h,
      conns s' !! h
      = (fun c => if bool_decide (h ∈ wss_clients s /\ readyState c = OPEN)
                  then mkConn CLOSING
                         (ops c ++ [OpSend notice;
                                    OpClose 1000 "Server shutdown"])
                         (clientId c) (pingInterval c)
                  else c) <$> conns s !! h)
  /\ (forall h c es,
        conns s !! h = Some c -> h ∈ wss_clients s -> readyState c = OPEN ->
        exists c', conns (run_events es s') !! h = Some c'
                   /\ readyState c' <> OPEN
                   /\ texts c' = texts c ++ [notice])
  /\ serverClosing s' = true
  /\ exitTimers s' = exitTimers s ++ [5000]
  /\ exitCode s' = None
  /\ (forall es, exitCode (run_events es s') = first_exit es)
  /\ (forall t0 timed,
        timer_served t0 5000 timed ->
        forall before t e after,
          timed = before ++ (t, e) :: after -> t0 + 5000 < t ->
          let s0 := run_events ((t0, EvSignal) :: before).*2 s in
          exitCode s0 = Some 0 \/ exitCode s0 = Some 1).
Proof.
  intros Hrun s' notice.
  assert (Hs' : s' = exec shutdown s) by (unfold s', step; now rewrite Hrun).
  destruct (step_signal_state s Hrun) as (Hclosing & Htimers & Hexit).
  fold s' in Hclosing, Htimers, Hexit.
  assert (Hshut : forall c, readyState c = OPEN ->
             shut c = mkConn CLOSING
                        (ops c ++ [OpSend notice; OpClose 1000 "Server shutdown"])
                        (clientId c) (pingInterval c)).
  { intros c Hopen. unfold shut, closed_with, record_op, set_readyState. cbn.
    rewrite Hopen. cbn. now rewrite <- app_assoc. }
  assert (Hlookup : forall h,
             conns s' !! h
             = (fun c => if bool_decide (h ∈ wss_clients s /\ readyState c = OPEN)
                         then mkConn CLOSING
                                (ops c ++ [OpSend notice;
                                           OpClose 1000 "Server shutdown"])
                                (clientId c) (pingInterval c)
                         else c) <$> conns s !! h).
  { intros h. rewrite Hs', shutdown_eq. cbn -[shutdown_client].
    rewrite shutdown_fold_lookup.
    change (conns (log LogShuttingDown s)) with (conns s).
    destruct (conns s !! h) as [c|]; [|reflexivity]. cbn. f_equal.
    case_bool_decide as Hcond; [|reflexivity]. now apply Hshut. }
  assert (Hfirst : forall es, exitCode (run_events es s') = first_exit es).
  { intros es. apply run_closing; [exact Hexit|exact Hclosing|].
    rewrite Htimers. now destruct (exitTimers s). }
  split; [exact Hlookup|]. split; [|split; [exact Hclosing|]].
  - intros h c es Hc Hin Hopen.
    assert (Hn : conns s' !! h
                 = Some (mkConn CLOSING
                           (ops c ++ [OpSend notice;
                                      OpClose 1000 "Server shutdown"])
                           (clientId c) (pingInterval c))).
    { rewrite Hlookup, Hc. cbn. now rewrite bool_decide_eq_true_2. }
    destruct (closing_socket_stays_silent h es s' _ Hn)
      as (c' & Hc' & Hno & Htexts); [discriminate|].
    exists c'. split; [exact Hc'|]. split; [exact Hno|].
    rewrite Htexts. unfold texts. cbn. now rewrite omap_app.
  - split; [exact Htimers|]. split; [exact Hexit|]. split; [exact Hfirst|].
    intros t0 timed Hserved before t e after Heq Hlate.
    change (run_events ((t0, EvSignal) :: before).*2 s)
      with (run_events before.*2 s').
    cbv zeta. rewrite Hfirst. apply first_exit_after_timeout.
    exact (Hserved before t e after Heq Hlate).
Qed.

(** ** A new connection *)

Lemma is_open_alter g k ws s :
  (forall c, readyState (g c) = readyState c) ->
  is_open ws (with_conns (alter g k) s) = is_open ws s.
Proof.
  intros Hg. unfold is_open, ready. cbn. rewrite lookup_alter.
  destruct (decide (k = ws)) as [->|]; [|reflexivity].
  destruct (conns s !! ws) as [c|]; [|reflexivity]. cbn. now rewrite Hg.
Qed.

Lemma on_connection_eq ws uuid addr t1 t2 s :
  is_open ws s = true ->
  exec (on_connection ws uuid addr t1 t2) s
  = exec (broadcastMessage (msg_SYSTEM "A new user has joined the whiteboard")
                           (Some ws))
      (with_conns (alter (record_op (OpSend (msg_SYSTEM
                                               "Connected to whiteboard server")))
                         ws)
         (with_conns (alter (record_op (OpSend (msg_INIT (drawingHistory s)))) ws)
            (with_clients (JsMap.set ws (mkInfo uuid addr t1 t2 None))
               (log (LogConnected uuid addr)
                  (with_conns (alter (set_closure uuid) ws) s))))).
Proof.
  intros Hopen.
  set (s1 := with_clients (JsMap.set ws (mkInfo uuid addr t1 t2 None))
               (log (LogConnected uuid addr)
                  (with_conns (alter (set_closure uuid) ws) s))).
  assert (H1 : is_open ws s1 = true).
  { change (is_open ws s1) with
      (is_open ws (with_conns (alter (set_closure uuid) ws) s)).
    now rewrite is_open_alter. }
  assert (H2 : is_open ws (with_conns
                 (alter (record_op (OpSend (msg_INIT (drawingHistory s)))) ws) s1)
               = true) by (now rewrite is_open_alter).
  unfold exec, on_connection.
  unfold bind at 1, effect at 1. unfold bind at 1, console_log at 1, effect at 1.
  unfold bind at 1, effect at 1. fold s1. unfold bind at 1.
  unfold try_catch at 1. unfold bind at 1, gets at 1. unfold bind at 1, ws_send.
  change (drawingHistory s1) with (drawingHistory s).
  rewrite (ws_transmit_open _ _ _ H1), (ws_transmit_open _ _ _ H2).
  reflexivity.
Qed.

Lemma step_connection s ws uuid addr t1 t2 :
  exitCode s = None -> conns s !! ws = None ->
  step (EvConnection ws uuid addr t1 t2) s
  = exec (on_connection ws uuid addr t1 t2) (ws_accept ws s).
Proof. intros Hrun Hfresh. unfold step. now rewrite Hrun, Hfresh. Qed.

Lemma NoDup_JsSet_add k l : NoDup l -> NoDup (JsSet.add k l).
Proof.
  intros Hnd. unfold JsSet.add. destruct (decide _); [exact Hnd|].
  now apply NoDup_snoc_fresh.
Qed.

Lemma elem_of_JsSet_add h k l : h ∈ JsSet.add k l <-> h = k \/ h ∈ l.
Proof.
  unfold JsSet.add. destruct (decide (k ∈ l)) as [Hin|Hni].
  - split; [intros ?; now right|]. intros [->|?]; assumption.
  - rewrite elem_of_app, list_elem_of_singleton. tauto.
Qed.

Lemma elem_of_JsSet_delete h k l : h ∈ JsSet.delete k l <-> h <> k /\ h ∈ l.
Proof. exact (list_elem_of_filter (fun k' => k' <> k) l h). Qed.

Lemma step_connection_socket s ws uuid addr t1 t2 :
  exitCode s = None -> conns s !! ws = None ->
  let s' := step (EvConnection ws uuid addr t1 t2) s in
  conns s' !! ws
  = Some (record_op (OpSend (msg_SYSTEM "Connected to whiteboard server"))
            (record_op (OpSend (msg_INIT (drawingHistory s)))
               (set_closure uuid (mkConn OPEN [] "" false))))
  /\ JsMap.get ws (clients s') = Some (mkInfo uuid addr t1 t2 None)
  /\ wss_clients s' = JsSet.add ws (wss_clients s)
  /\ drawingHistory s' = drawingHistory s.
Proof.
  intros Hrun Hfresh s'.
  assert (Hopen : is_open ws (ws_accept ws s) = true).
  { unfold is_open, ready, ws_accept. cbn. now rewrite lookup_insert_eq. }
  assert (Hs' : s' = exec (on_connection ws uuid addr t1 t2) (ws_accept ws s))
    by (now apply step_connection).
  rewrite (on_connection_eq _ _ _ _ _ _ Hopen) in Hs'.
  unfold exec in Hs'. rewrite broadcastMessage_eq in Hs'.
  cbn -[delivered JsSet.add] in Hs'.
  split; [|split; [|split]].
  - rewrite Hs'. cbn -[delivered JsSet.add].
    rewrite delivered_skip by (right; now left).
    now rewrite !lookup_alter_eq, lookup_insert_eq.
  - rewrite Hs'. cbn -[delivered JsSet.add]. apply JsMap_get_set.
  - now rewrite Hs'.
  - now rewrite Hs'.
Qed.

(** ** The handshake *)

Lemma includes_spec l o : includes l (Some o) = true <-> o ∈ l.
Proof.
  cbn. rewrite existsb_exists. split.
  - intros (x & Hin & Heq). apply String.eqb_eq in Heq as ->.
    now apply list_elem_of_In.
  - intros Hin. exists o. split; [now apply list_elem_of_In|apply String.eqb_refl].
Qed.

Lemma falsy_origin_spec origin :
  falsy_origin origin = true <-> origin = None \/ origin = Some "".
Proof.
  destruct origin as [o|]; cbn.
  - rewrite String.eqb_eq. split; [intros ->; now right|].
    now intros [[=]|[= ->]].
  - split; [now left|reflexivity].
Qed.

Lemma let_through_spec origin :
  let_through origin
  <-> falsy_origin origin || includes allowedOrigins origin = true.
Proof.
  unfold let_through. rewrite orb_true_iff, falsy_origin_spec. split.
  - intros [H|[H|(o & -> & Hin)]]; [left; now left|left; now right|right].
    now apply includes_spec.
  - intros [[H|H]|H]; [now left|right; now left|].
    destruct origin as [o|]; [|now left]. right; right. exists o.
    split; [reflexivity|now apply includes_spec].
Qed.

Lemma step_connection_live s ws uuid addr t1 t2 :
  exitCode s = None ->
  exitCode (step (EvConnection ws uuid addr t1 t2) s) = None.
Proof.
  intros Hrun.
  assert (Hsame : shutdown_state (step (EvConnection ws uuid addr t1 t2) s)
                  = shutdown_state s)
    by (now apply step_shutdown_state).
  injection Hsame as _ _ Hx. congruence.
Qed.

(** A validator that calls [done(true)] and nothing else: the upgrade is
    completed and the 'connection' listener runs. *)
Lemma upgrade_accepted_once s ws uuid addr t1 t2 :
  exitCode s = None ->
  upgrade [Done true None None] ws uuid addr t1 t2 s
  = (Upgraded, step (EvConnection ws uuid addr t1 t2) s).
Proof.
  intros Hrun. unfold upgrade. cbn [foldl]. unfold on_done. cbn [fst snd].
  now rewrite Hrun.
Qed.

(** A second [done(true)] finds the socket upgraded and ends the process. *)
Lemma upgrade_accepted_twice s ws uuid addr t1 t2 :
  exitCode s = None ->
  upgrade [Done true None None; Done true None None] ws uuid addr t1 t2 s
  = (Upgraded, exit 1 (step (EvConnection ws uuid addr t1 t2) s)).
Proof.
  intros Hrun.
  pose proof (upgrade_accepted_once s ws uuid addr t1 t2 Hrun) as Hfirst.
  unfold upgrade in *. cbn [foldl] in *. rewrite Hfirst.
  unfold on_done. cbn [fst snd].
  now rewrite (step_connection_live _ _ _ _ _ _ Hrun).
Qed.

(** [done(false, code, message)] ends the socket; a [done(true)] that
    follows finds it ended. *)
Lemma upgrade_refused s ws uuid addr t1 t2 code message rest :
  exitCode s = None ->
  Forall (fun call => call = Done true None None) rest ->
  upgrade (Done false code message :: rest) ws uuid addr t1 t2 s
  = (Refused (refusal_code code) (refusal_message message), s).
Proof.
  intros Hrun Hrest. unfold upgrade. cbn [foldl].
  assert (Hfirst : on_done ws uuid addr t1 t2 (Pending, s)
                     (Done false code message)
                   = (Refused (refusal_code code) (refusal_message message), s))
    by (unfold on_done; cbn [fst snd]; now rewrite Hrun).
  rewrite Hfirst. clear Hfirst.
  induction Hrest as [|call rest -> _ IH]; [reflexivity|].
  cbn [foldl]. unfold on_done at 2. cbn [fst snd]. rewrite Hrun. exact IH.
Qed.

(** C5: a socket that has just been accepted is registered and is sent, first
    of all, an INIT message whose data is the history as it stands at that
    moment (all of it, in order), then the welcome notice.  The INIT message
    stays the first thing the socket was sent through every later event, the
    connection's own DRAW messages included: its payload is never revised.
    This is what a handshake with an origin the check lets through leaves
    on the socket. *)
Theorem new_connection_gets_history_snapshot s ws uuid addr t1 t2 :
  exitCode s = None ->
  conns s !! ws = None ->
  let s' := step (EvConnection ws uuid addr t1 t2) s in
  let init := OpSend (JObj [("type", JStr "INIT");
                            ("data", JArr (drawingHistory s))]) in
  let welcome := OpSend (JObj [("type", JStr "SYSTEM");
                               ("message", JStr "Connected to whiteboard server")]) in
  conns s' !! ws = Some (mkConn OPEN [init; welcome] uuid true)
  /\ JsMap.get ws (clients s') = Some (mkInfo uuid addr t1 t2 None)
  /\ (forall es, exists c',
        conns (run_events es s') !! ws = Some c' /\ head (ops c') = Some init)
  /\ (forall origin, let_through origin ->
        conns (handshake origin ws uuid addr t1 t2 s).2 !! ws
        = Some (mkConn OPEN [init; welcome] uuid true)).
Proof.
  intros Hrun Hfresh s' init welcome.
  destruct (step_connection_socket s ws uuid addr t1 t2 Hrun Hfresh)
    as (Hc & Hinfo & _).
  split; [exact Hc|]. split; [exact Hinfo|]. split.
  - intros es. destruct (ops_grow ws es s' _ Hc) as (c' & Hc' & [rest Hrest]).
    exists c'. split; [exact Hc'|]. now rewrite Hrest.
  - intros origin Hok. apply let_through_spec in Hok.
    unfold handshake, verifyClient. rewrite Hok. cbn [app].
    rewrite (upgrade_accepted_twice _ _ _ _ _ _ Hrun). exact Hc.
Qed.

(** ** The history buffer *)

Lemma is_string_true v lit : is_string v lit = true -> v = Some (JStr lit).
Proof.
  destruct v as [[]|]; cbn; try discriminate.
  now intros ->%String.eqb_eq.
Qed.

(** One event: a DRAW puts its action at the tail and drops the head if the
    buffer then holds more than [MAX_HISTORY]; nothing else changes the
    buffer. *)
Lemma step_history e s :
  drawingHistory (step e s)
  = match drawn e s with
    | Some action => shift_if_over (push action (drawingHistory s))
    | None => drawingHistory s
    end.
Proof.
  assert (Hother : forall e, (forall ws m t1 t2, e <> EvMessage ws m t1 t2) ->
                     drawingHistory (step e s) = drawingHistory s).
  { intros e' He'.
    now apply (step_preserves_other (same_on drawingHistory)). }
  assert (Hnot : forall ws m t1 t2, not_draw m ->
                   drawingHistory (step (EvMessage ws m t1 t2) s)
                   = drawingHistory s).
  { intros ws m t1 t2 Hm.
    apply (step_message_preserves (same_on drawingHistory)); try done.
    intros cid. apply (preserves_on_message_not_draw (same_on drawingHistory));
      first [exact Hm | intros; reflexivity]. }
  destruct e as [ws uuid addr t1 t2|ws m t1 t2|ws now|ws code reason|ws|ws|now| | | ];
    try (rewrite Hother by discriminate; unfold drawn;
         now destruct (exitCode s)).
  destruct (exitCode s) eqn:Hexit;
    [unfold step, drawn; now rewrite Hexit|].
  destruct (conns s !! ws) as [c|] eqn:Hc.
  2: { unfold step, on_socket, drawn. rewrite Hexit, Hc.
       now destruct m as [|[]]. }
  destruct m as [|[|b|n|r|str|items|o]];
    try (rewrite Hnot by (intros o' [=]); unfold drawn; now rewrite Hexit).
  unfold drawn. rewrite Hexit, Hc.
  destruct (is_string (Obj.get "type" o) "DRAW") eqn:Hdraw.
  - apply is_string_true in Hdraw.
    rewrite (step_message _ _ _ _ _ _ Hexit Hc), (on_message_DRAW _ _ _ _ _ _ Hdraw).
    unfold exec. now rewrite broadcastMessage_eq.
  - apply Hnot. now intros o' [= <-].
Qed.

Lemma shift_if_over_most_recent (h : list json) (action : json) :
  (length h <= MAX_HISTORY)%nat ->
  shift_if_over (push action h) = most_recent MAX_HISTORY (h ++ [action]).
Proof.
  intros Hlen. unfold shift_if_over, push, most_recent.
  destruct (decide _) as [Hover|Hfits]; rewrite length_app in *;
    cbn [length] in *.
  - replace (length h + 1 - MAX_HISTORY)%nat with 1%nat by lia.
    now destruct (h ++ [action]).
  - now replace (length h + 1 - MAX_HISTORY)%nat with 0%nat by lia.
Qed.

Lemma most_recent_app n (l r : list json) :
  most_recent n (most_recent n l ++ r) = most_recent n (l ++ r).
Proof.
  unfold most_recent. rewrite !length_app, length_drop.
  rewrite (drop_app l r). rewrite drop_app, length_drop, drop_drop.
  f_equal; [f_equal; lia|f_equal; lia].
Qed.

Lemma most_recent_length n (l : list json) :
  (length (most_recent n l) <= n)%nat.
Proof. unfold most_recent. rewrite length_drop. lia. Qed.

Lemma run_history es s :
  (length (drawingHistory s) <= MAX_HISTORY)%nat ->
  drawingHistory (run_events es s)
  = most_recent MAX_HISTORY (drawingHistory s ++ drawn_by es s).
Proof.
  revert s. induction es as [|e es IH]; intros s Hlen.
  - cbn. rewrite app_nil_r. unfold most_recent.
    now replace (length (drawingHistory s) - MAX_HISTORY)%nat with 0%nat by lia.
  - cbn [run_events foldl drawn_by].
    change (foldl (fun s e => step e s) (step e s) es)
      with (run_events es (step e s)).
    pose proof (step_history e s) as Hstep.
    destruct (drawn e s) as [action|]; cbn [option_list].
    + rewrite shift_if_over_most_recent in Hstep by exact Hlen.
      rewrite IH by (rewrite Hstep; apply most_recent_length).
      rewrite Hstep, most_recent_app. now rewrite <- app_assoc.
    + rewrite IH by (now rewrite Hstep). now rewrite Hstep.
Qed.

(** C1: after any sequence of events from the start of the server the
    history holds at most 100 actions, and they are the most recent of all
    the actions DRAW messages have appended, in the order they were
    appended: only the oldest entries are ever missing. *)
Theorem history_is_the_last_hundred_draws es :
  let s := run_events es initial in
  MAX_HISTORY = 100%nat
  /\ (length (drawingHistory s) <= MAX_HISTORY)%nat
  /\ drawingHistory s = most_recent MAX_HISTORY (drawn_by es initial).
Proof.
  intros s. split; [reflexivity|].
  assert (Hs : drawingHistory s = most_recent MAX_HISTORY (drawn_by es initial)).
  { unfold s. rewrite run_history by (cbn; lia). reflexivity. }
  split; [|exact Hs]. rewrite Hs. apply most_recent_length.
Qed.

(** ** The origin check *)

(** The verdict of the [if]/[else] is the first call of [done]: an absent
    or listed origin is accepted, any other is turned away with 401. *)
Lemma verifyClient_first_verdict origin :
  head (verifyClient origin)
  = Some (if falsy_origin origin || includes allowedOrigins origin
          then Done true None None
          else Done false (Some 401) (Some "Unauthorized origin")).
Proof. unfold verifyClient. now destruct (_ || _). Qed.

(** Whatever the verdict was, [done(true)] is called after it. *)
Lemma verifyClient_then_accepts origin :
  last (verifyClient origin) = Some (Done true None None)
  /\ length (verifyClient origin) = 2%nat.
Proof. unfold verifyClient. now destruct (_ || _). Qed.


(** * The rest of the server *)

(** ** Arrival and departure *)

(** X1: a new connection is announced once to every OPEN connection that was
    already there, with the SYSTEM notice that a user has joined; a socket
    that is not OPEN is sent nothing; [wss.clients] gains the new socket at
    its end and the history is not touched. *)
Theorem arrival_is_announced_to_the_others s ws uuid addr t1 t2 :
  exitCode s = None ->
  conns s !! ws = None ->
  NoDup (wss_clients s) ->
  ws ∉ wss_clients s ->
  let s' := step (EvConnection ws uuid addr t1 t2) s in
  wss_clients s' = wss_clients s ++ [ws]
  /\ drawingHistory s' = drawingHistory s
  /\ (forall h, h <> ws ->
        conns s' !! h
        = (fun c =>
             mkConn (readyState c)
               (ops c ++ if bool_decide (h ∈ wss_clients s /\ readyState c = OPEN)
                         then [OpSend (JObj [("type", JStr "SYSTEM");
                                             ("message",
                                              JStr "A new user has joined the whiteboard")])]
                         else [])
               (clientId c) (pingInterval c))
          <$> conns s !! h).
Proof.
  intros Hrun Hfresh Hnd Hni s'.
  assert (Hopen : is_open ws (ws_accept ws s) = true).
  { unfold is_open, ready, ws_accept. cbn. now rewrite lookup_insert_eq. }
  assert (Hs' : s' = exec (on_connection ws uuid addr t1 t2) (ws_accept ws s))
    by (now apply step_connection).
  rewrite (on_connection_eq _ _ _ _ _ _ Hopen) in Hs'.
  unfold exec in Hs'. rewrite broadcastMessage_eq in Hs'.
  cbn -[delivered JsSet.add] in Hs'.
  rewrite Hs'. cbn -[delivered JsSet.add].
  split; [unfold JsSet.add; now rewrite decide_False|]. split; [reflexivity|].
  intros h Hne. rewrite delivered_lookup by (now apply NoDup_JsSet_add).
  rewrite !lookup_alter_ne, lookup_insert_ne by congruence.
  destruct (conns s !! h) as [c|]; [|reflexivity]. cbn. f_equal.
  rewrite (bool_decide_ext (Some h <> Some ws
                            /\ h ∈ JsSet.add ws (wss_clients s)
                            /\ readyState c = OPEN)
             (h ∈ wss_clients s /\ readyState c = OPEN)).
  - case_bool_decide; [reflexivity|]. destruct c. cbn. now rewrite app_nil_r.
  - rewrite elem_of_JsSet_add. split.
    + intros (_ & [Heq|Hin] & Hr); [congruence|now split].
    + intros (Hin & Hr). split; [congruence|]. split; [now right|exact Hr].
Qed.

Lemma on_close_eq ws cid code reason s :
  exec (bind (effect (ws_closed ws)) (fun _ => on_close ws cid code reason)) s
  = exec (broadcastMessage (msg_SYSTEM "A user has left the whiteboard") None)
      (with_clients (JsMap.delete ws)
         (with_conns (alter clear_interval ws)
            (log (LogDisconnected cid code reason) (ws_closed ws s)))).
Proof. reflexivity. Qed.

(** X2: when a socket closes it is CLOSED, out of [wss.clients] and out of the
    registry, its interval is cleared and it is sent nothing; every OPEN
    connection that remains is sent once the SYSTEM notice that a user has
    left, and no other socket is sent anything. *)
Theorem departure_is_announced_to_the_rest s ws c code reason :
  exitCode s = None ->
  conns s !! ws = Some c ->
  NoDup (wss_clients s) ->
  let s' := step (EvClose ws code reason) s in
  conns s' !! ws = Some (mkConn CLOSED (ops c) (clientId c) false)
  /\ (ws ∉ wss_clients s')
  /\ JsMap.get ws (clients s') = None
  /\ drawingHistory s' = drawingHistory s
  /\ (forall h, h <> ws ->
        conns s' !! h
        = (fun c =>
             mkConn (readyState c)
               (ops c ++ if bool_decide (h ∈ wss_clients s /\ readyState c = OPEN)
                         then [OpSend (JObj [("type", JStr "SYSTEM");
                                             ("message",
                                              JStr "A user has left the whiteboard")])]
                         else [])
               (clientId c) (pingInterval c))
          <$> conns s !! h).
Proof.
  intros Hrun Hc Hnd s'.
  assert (Hs' : s' = exec (bind (effect (ws_closed ws))
                             (fun _ => on_close ws (clientId c) code reason)) s).
  { unfold s', step, on_socket. now rewrite Hrun, Hc. }
  rewrite on_close_eq in Hs'. unfold exec in Hs'.
  rewrite broadcastMessage_eq in Hs'.
  cbn -[delivered JsSet.delete JsMap.delete] in Hs'.
  rewrite Hs'. cbn -[delivered JsSet.delete JsMap.delete].
  assert (Hnd' : NoDup (JsSet.delete ws (wss_clients s)))
    by (unfold JsSet.delete; now apply NoDup_filter).
  split; [|split; [|split; [|split]]].
  - rewrite delivered_skip.
    + rewrite !lookup_alter_eq, Hc. reflexivity.
    + left. rewrite elem_of_JsSet_delete. now intros [? _].
  - rewrite elem_of_JsSet_delete. now intros [? _].
  - rewrite JsMap_get_delete. now rewrite decide_True.
  - reflexivity.
  - intros h Hne. rewrite delivered_lookup by exact Hnd'.
    rewrite !lookup_alter_ne by congruence.
    destruct (conns s !! h) as [c0|]; [|reflexivity]. cbn. f_equal.
    rewrite (bool_decide_ext (Some h <> None
                              /\ h ∈ JsSet.delete ws (wss_clients s)
                              /\ readyState c0 = OPEN)
               (h ∈ wss_clients s /\ readyState c0 = OPEN)).
    + case_bool_decide; [reflexivity|]. destruct c0. cbn.
      now rewrite app_nil_r.
    + rewrite elem_of_JsSet_delete. split.
      * now intros (_ & [_ Hin] & Hr).
      * intros (Hin & Hr). split; [discriminate|]. now split.
Qed.

(** X3: when a socket fails, the library has moved it to CLOSING by the time
    the 'error' listener runs; the listener logs the error and stops the
    connection's heartbeat.  The socket stays in [wss.clients] and in the
    registry until its 'close' event, nobody is told, later firings of its
    interval do nothing, and it is never sent a text again. *)
Theorem error_leaves_a_closing_socket_without_heartbeat s ws c :
  exitCode s = None ->
  conns s !! ws = Some c ->
  readyState c <> CLOSED ->
  let s' := step (EvError ws) s in
  conns s' = <[ws := mkConn CLOSING (ops c) (clientId c) false]> (conns s)
  /\ wss_clients s' = wss_clients s
  /\ clients s' = clients s
  /\ drawingHistory s' = drawingHistory s
  /\ console s' = console s ++ [LogSocketError (clientId c)]
  /\ step (EvHeartbeat ws) s' = s'
  /\ (forall es, exists c',
        conns (run_events es s') !! ws = Some c'
        /\ readyState c' <> OPEN /\ texts c' = texts c).
Proof.
  intros Hrun Hc Hlive s'.
  assert (Hs' : s' = with_conns (alter clear_interval ws)
                       (log (LogSocketError (clientId c)) (ws_errored ws s))).
  { unfold s', step, on_socket. now rewrite Hrun, Hc. }
  assert (Hconns : conns s'
                   = <[ws := mkConn CLOSING (ops c) (clientId c) false]> (conns s)).
  { rewrite Hs'. cbn. apply map_eq. intros h.
    destruct (decide (ws = h)) as [->|Hne].
    - rewrite !lookup_alter_eq, lookup_insert_eq, Hc. cbn. unfold erroring.
      now destruct (readyState c).
    - now rewrite !lookup_alter_ne, lookup_insert_ne. }
  split; [exact Hconns|]. rewrite Hs' at 1 2 3 4.
  split; [reflexivity|]. split; [reflexivity|]. split; [reflexivity|].
  split; [reflexivity|]. split.
  - unfold step, on_socket. rewrite Hconns, lookup_insert_eq.
    replace (exitCode s') with (@None Z) by (now rewrite Hs'). reflexivity.
  - intros es.
    destruct (closing_socket_stays_silent ws es s'
                (mkConn CLOSING (ops c) (clientId c) false))
      as (c' & Hc' & Hno & Htexts);
      [now rewrite Hconns, lookup_insert_eq|discriminate|].
    exists c'. split; [exact Hc'|]. split; [exact Hno|exact Htexts].
Qed.

Lemma ws_transmit_not_open ws op s :
  is_open ws s = false -> (ws_transmit ws op s).2 = s.
Proof.
  intros Hopen. unfold ws_transmit, bind, gets. rewrite Hopen.
  now destruct send_after_close_throws.
Qed.

Lemma is_open_lookup ws s c :
  conns s !! ws = Some c -> is_open ws s = bool_decide (readyState c = OPEN).
Proof.
  intros Hc. unfold is_open, ready. rewrite Hc. cbn.
  apply bool_decide_ext. split; congruence.
Qed.

(** X4: the heartbeat of an OPEN socket makes one [ping] call on it and changes
    nothing else in the server (no text, no activity stamp); on a socket
    that is no longer OPEN it makes no call and unschedules itself, after
    which it does nothing when it fires. *)
Theorem heartbeat_pings_or_retires s ws c :
  exitCode s = None ->
  conns s !! ws = Some c ->
  pingInterval c = true ->
  let s' := step (EvHeartbeat ws) s in
  (readyState c = OPEN ->
     conns s' = <[ws := mkConn OPEN (ops c ++ [OpPing]) (clientId c) true]> (conns s)
     /\ s' = with_conns (fun _ => conns s') s)
  /\ (readyState c <> OPEN ->
       conns s' = <[ws := mkConn (readyState c) (ops c) (clientId c) false]> (conns s)
       /\ s' = with_conns (fun _ => conns s') s
       /\ step (EvHeartbeat ws) s' = s').
Proof.
  intros Hrun Hc Hint s'.
  assert (Hs' : s' = exec (heartbeat ws (clientId c)) s).
  { unfold s', step, on_socket. now rewrite Hrun, Hc, Hint. }
  assert (Halter : forall g, alter g ws (conns s) = <[ws := g c]> (conns s)).
  { intros g. apply map_eq. intros h. rewrite lookup_alter, lookup_insert.
    destruct (decide (ws = h)) as [->|]; [now rewrite Hc|reflexivity]. }
  split.
  - intros Hopen.
    assert (Ho : is_open ws s = true).
    { rewrite (is_open_lookup _ _ _ Hc). now apply bool_decide_eq_true. }
    assert (Heq : s' = with_conns (alter (record_op OpPing) ws) s).
    { rewrite Hs'. unfold exec, heartbeat, bind, gets. rewrite Ho.
      unfold try_catch, ws_ping. now rewrite (ws_transmit_open _ _ _ Ho). }
    assert (Hconns : conns s' = <[ws := mkConn OPEN (ops c ++ [OpPing])
                                          (clientId c) true]> (conns s)).
    { rewrite Heq. cbn. rewrite Halter. unfold record_op.
      now rewrite Hopen, Hint. }
    split; [exact Hconns|]. rewrite Heq at 1. unfold with_conns.
    now rewrite Heq.
  - intros Hno.
    assert (Ho : is_open ws s = false).
    { rewrite (is_open_lookup _ _ _ Hc). now apply bool_decide_eq_false. }
    assert (Heq : s' = with_conns (alter clear_interval ws) s).
    { rewrite Hs'. unfold exec, heartbeat, bind, gets. now rewrite Ho. }
    assert (Hconns : conns s' = <[ws := mkConn (readyState c) (ops c)
                                          (clientId c) false]> (conns s)).
    { rewrite Heq. cbn. now rewrite Halter. }
    split; [exact Hconns|]. split.
    + rewrite Heq at 1. unfold with_conns. now rewrite Heq.
    + unfold step, on_socket. rewrite Hconns, lookup_insert_eq.
      replace (exitCode s') with (@None Z) by (now rewrite Heq). reflexivity.
Qed.

(** X5: a pong is recorded as [lastPong] and is not activity: the stamp the sweep
    reads is unchanged, so a connection that only answers pings is evicted
    all the same. *)
Theorem pong_is_not_activity s ws c info t :
  exitCode s = None ->
  conns s !! ws = Some c ->
  JsMap.get ws (clients s) = Some info ->
  let s' := step (EvPong ws t) s in
  JsMap.get ws (clients s')
    = Some (mkInfo (id info) (ip info) (connectedAt info) (lastActivity info)
                   (Some t))
  /\ conns s' = conns s
  /\ (forall now,
        NoDup (clients s).*1 -> now - lastActivity info > INACTIVITY ->
        JsMap.get ws (clients (step (EvSweep now) s')) = None).
Proof.
  intros Hrun Hc Hinfo s'.
  assert (Hs' : s' = with_clients (JsMap.mutate (ponged t) ws) s).
  { unfold s', step, on_socket. now rewrite Hrun, Hc. }
  assert (Hget : JsMap.get ws (clients s') = Some (ponged t info)).
  { rewrite Hs'. cbn. rewrite JsMap_get_mutate, decide_True by reflexivity.
    now rewrite Hinfo. }
  split; [exact Hget|]. split; [now rewrite Hs'|].
  intros now Hnd Hstale.
  assert (Hnd' : NoDup (clients s').*1).
  { rewrite Hs'. cbn. now rewrite JsMap_keys_mutate. }
  unfold step. replace (exitCode s') with (@None Z) by (now rewrite Hs').
  rewrite sweep_eq. cbn.
  apply (sweep_fold_stale now (clients s') s' ws (ponged t info) Hnd').
  - now apply JsMap_get_elem_of.
  - exact Hstale.
Qed.

(** ** Messages that reach nobody *)

(** X6: only DRAW, CHAT and PING messages make the server send anything: a text
    that is not JSON, [null], a number, a string, an array, or an object of
    any other (or no) [type] leaves every socket and the history as they
    were. *)
Theorem unrecognised_message_sends_nothing s ws sender message t1 t2 :
  exitCode s = None ->
  conns s !! ws = Some sender ->
  unrecognised message ->
  let s' := step (EvMessage ws message t1 t2) s in
  conns s' = conns s
  /\ drawingHistory s' = drawingHistory s
  /\ wss_clients s' = wss_clients s.
Proof.
  intros Hrun Hsender Hun s'. unfold s'.
  rewrite (step_message _ _ _ _ _ _ Hrun Hsender).
  destruct message as [|[|b|n|r|str|items|o]]; try (now cbn).
  destruct (Hun o eq_refl) as (Hd & Hc & Hp).
  unfold exec, on_message, try_catch, bind, JSON_parse, get_prop, effect, ret,
    template.
  cbn -[broadcastMessage ws_send].
  destruct (interpolates (Obj.get "type" o)); cbn -[broadcastMessage ws_send];
    [|now cbn].
  rewrite Hd, Hc, Hp. now cbn.
Qed.

(** X7: a CHAT whose name or text cannot be written into the log line (an
    object with its own [toString] member, or an array holding one) is
    caught as an error: nobody is sent anything. *)
Theorem chat_that_cannot_be_logged_is_dropped s ws sender o t1 t2 :
  exitCode s = None ->
  conns s !! ws = Some sender ->
  Obj.get "type" o = Some (JStr "CHAT") ->
  interpolates (Obj.get "Name" o) && interpolates (Obj.get "res" o) = false ->
  let s' := step (EvMessage ws (Json (JObj o)) t1 t2) s in
  conns s' = conns s
  /\ drawingHistory s' = drawingHistory s
  /\ console s' = console s ++ [LogReceived (clientId sender);
                                 LogProcessingError (clientId sender) TypeError].
Proof.
  intros Hrun Hsender Htype Hbad s'. unfold s'.
  rewrite (step_message _ _ _ _ _ _ Hrun Hsender).
  rewrite (on_message_CHAT_dropped _ _ _ _ _ _ Htype Hbad). cbn.
  now rewrite <- app_assoc.
Qed.

(** X8: a PING that arrives on a socket that is no longer OPEN is not answered:
    no socket is written to, whichever way the library treats the send. *)
Theorem ping_on_closing_socket_is_not_answered s ws sender o t1 t2 :
  exitCode s = None ->
  conns s !! ws = Some sender ->
  readyState sender <> OPEN ->
  Obj.get "type" o = Some (JStr "PING") ->
  let s' := step (EvMessage ws (Json (JObj o)) t1 t2) s in
  conns s' = conns s /\ drawingHistory s' = drawingHistory s.
Proof.
  intros Hrun Hsender Hno Htype s'. unfold s'.
  rewrite (step_message _ _ _ _ _ _ Hrun Hsender).
  assert (Ho : is_open ws (received ws (clientId sender) t1 s) = false).
  { change (is_open ws (received ws (clientId sender) t1 s)) with (is_open ws s).
    rewrite (is_open_lookup _ _ _ Hsender). now apply bool_decide_eq_false. }
  pose proof (ws_transmit_not_open ws (OpSend (msg_PONG t2)) _ Ho) as Hsend.
  unfold exec, on_message, try_catch, bind, JSON_parse, get_prop, effect, ret.
  cbn -[ws_send]. rewrite Htype. cbn -[ws_send]. unfold ws_send.
  fold (received ws (clientId sender) t1 s).
  destruct (ws_transmit ws (OpSend (msg_PONG t2))
              (received ws (clientId sender) t1 s)) as [[[]|e] s1];
    cbn in *; subst s1; now cbn.
Qed.

Lemma JsMap_mutate_absent {V} (f : V -> V) k (m : list (Handle * V)) :
  JsMap.get k m = None -> JsMap.mutate f k m = m.
Proof.
  induction m as [|[k' v] m IH]; [done|]. cbn. fold (JsMap.mutate f k m).
  destruct (decide (k = k')) as [->|Hne]; [discriminate|].
  intros Hget. rewrite decide_False by congruence. now rewrite IH.
Qed.

(** X9: a message on a socket that has no entry in the registry (the sweep has
    removed it) does not bring the entry back: the registry is unchanged,
    whatever the message is. *)
Theorem message_from_unregistered_socket_does_not_register s ws sender message t1 t2 :
  exitCode s = None ->
  conns s !! ws = Some sender ->
  JsMap.get ws (clients s) = None ->
  clients (step (EvMessage ws message t1 t2) s) = clients s.
Proof.
  intros Hrun Hsender Habsent.
  rewrite (step_message _ _ _ _ _ _ Hrun Hsender).
  rewrite (on_message_keeps clients) by reflexivity. cbn.
  now apply JsMap_mutate_absent.
Qed.

(** ** What a recorded action holds *)

(** The name of an array index is a numeral: it is neither [clientId] nor
    [timestamp]. *)
Lemma pretty_N_go_not_a_word x s word :
  (forall d rest, String (pretty_N_char d) rest <> word) ->
  s <> word -> pretty_N_go x s <> word.
Proof.
  intros Hword. revert s. induction (N.lt_wf_0 x) as [x _ IH]; intros s Hs.
  assert (x = 0 \/ 0 < x)%N as [->|Hpos] by lia.
  - now rewrite pretty_N_go_0.
  - rewrite pretty_N_go_step by done. apply IH; [|apply Hword].
    now apply N.div_lt.
Qed.

Lemma index_key_not_a_word i word :
  (forall d rest, String (pretty_N_char d) rest <> word) ->
  Obj.index_key i <> word.
Proof.
  intros Hword. unfold Obj.index_key, pretty, pretty_N.
  destruct (decide _) as [_|Hne]; [apply (Hword 0%N "")|].
  rewrite pretty_N_go_step by lia.
  apply pretty_N_go_not_a_word; [exact Hword|apply Hword].
Qed.

Lemma index_key_not_reserved i :
  Obj.index_key i <> "clientId" /\ Obj.index_key i <> "timestamp".
Proof.
  split; apply index_key_not_a_word; intros d rest [= Hd _];
    unfold pretty_N_char in Hd; repeat case_match; discriminate.
Qed.

Lemma Obj_get_indexed {A} (f : A -> json) (l : list A) i j :
  Obj.get (Obj.index_key (j + i)) (Obj.indexed f j l) = f <$> l !! i.
Proof.
  revert i j. induction l as [|x l IH]; intros i j; [done|].
  cbn [Obj.indexed Obj.get]. destruct i as [|i].
  - now rewrite Nat.add_0_r, String.eqb_refl.
  - rewrite (proj2 (String.eqb_neq _ _)).
    + replace (j + S i)%nat with (S j + i)%nat by lia. apply IH.
    + unfold Obj.index_key. intros Heq%(inj pretty). lia.
Qed.

(** X10: the action built from a payload names the sender and the clock
    reading, whatever the payload says under those two names.  Of an object
    it keeps every other member with the value it came with; of an array,
    every item under its index; of a string, every UTF-16 code unit under
    its index; of anything else, nothing. *)
Theorem action_keeps_the_payload payload cid now :
  exists fields,
    make_action payload cid now = JObj fields
    /\ Obj.get "clientId" fields = Some (JStr cid)
    /\ Obj.get "timestamp" fields = Some (JNum now)
    /\ (forall members k,
          payload = Some (JObj members) ->
          k <> "clientId" -> k <> "timestamp" ->
          Obj.get k fields = Obj.get k members)
    /\ (forall items (i : nat),
          payload = Some (JArr items) -> Obj.get (pretty i) fields = items !! i)
    /\ (forall text (i : nat),
          payload = Some (JStr text) ->
          Obj.get (pretty i) fields = JStr <$> Obj.code_units text !! i)
    /\ (payload = None \/ payload = Some JNull
        \/ (exists b, payload = Some (JBool b))
        \/ (exists n, payload = Some (JNum n))
        \/ (exists r, payload = Some (JReal r)) ->
        fields = [("clientId", JStr cid); ("timestamp", JNum now)]).
Proof.
  set (fields := Obj.set "timestamp" (JNum now)
                   (Obj.set "clientId" (JStr cid) (Obj.spread payload))).
  assert (Haction : make_action payload cid now = JObj fields) by reflexivity.
  assert (Hrest : forall k, k <> "clientId" -> k <> "timestamp" ->
                    Obj.get k fields = Obj.get k (Obj.spread payload))
    by (intros k Hc Ht; unfold fields; now rewrite !Obj_get_set_ne).
  exists fields. split; [exact Haction|].
  split; [unfold fields; rewrite Obj_get_set_ne by discriminate;
          apply Obj_get_set_eq|].
  split; [apply Obj_get_set_eq|]. split; [|split; [|split]].
  - intros members k -> Hc Ht. now rewrite (Hrest k Hc Ht).
  - intros items i ->. destruct (index_key_not_reserved i) as [Hc Ht].
    change (pretty i) with (Obj.index_key i). rewrite (Hrest _ Hc Ht).
    cbn [Obj.spread].
    pose proof (Obj_get_indexed (fun x => x) items i 0) as Hget.
    cbn [Nat.add] in Hget. rewrite Hget. now destruct (items !! i).
  - intros text i ->. destruct (index_key_not_reserved i) as [Hc Ht].
    change (pretty i) with (Obj.index_key i). rewrite (Hrest _ Hc Ht).
    cbn [Obj.spread].
    exact (Obj_get_indexed JStr (Obj.code_units text) i 0).
  - intros Hnone. unfold fields.
    destruct Hnone as [->|[->|[[b ->]|[[n ->]|[r ->]]]]]; reflexivity.
Qed.

Lemma drawn_stamped e s action : drawn e s = Some action -> stamped action.
Proof.
  unfold drawn. destruct (exitCode s); [discriminate|].
  destruct e as [| ws [|[| | | | | |o]] t1 t2| | | | | | | | ]; try discriminate.
  destruct (conns s !! ws) as [c|]; [|discriminate].
  destruct (is_string _ _); [|discriminate]. intros [= <-].
  eexists _, (clientId c), t2. split; [reflexivity|]. split.
  - rewrite Obj_get_set_ne by discriminate. apply Obj_get_set_eq.
  - apply Obj_get_set_eq.
Qed.

Lemma drawn_by_stamped es s : Forall stamped (drawn_by es s).
Proof.
  revert s. induction es as [|e es IH]; intros s; [constructor|].
  cbn [drawn_by]. apply Forall_app. split; [|apply IH].
  destruct (drawn e s) as [action|] eqn:Hd; [|constructor].
  constructor; [|constructor]. now apply (drawn_stamped e s).
Qed.

(** X11: every entry of the history, at any time, names a sender and carries a
    clock reading of the server. *)
Theorem history_entries_are_stamped es :
  Forall stamped (drawingHistory (run_events es initial)).
Proof.
  rewrite run_history by (cbn; lia). cbn [drawingHistory initial app].
  unfold most_recent. apply Forall_drop, drawn_by_stamped.
Qed.

(** X12: the first thing a connection that arrives after any run of events is
    sent is an INIT message whose data holds at most 100 actions, the
    latest of those drawn so far, oldest first. *)
Theorem init_replays_at_most_a_hundred es ws uuid addr t1 t2 :
  let s := run_events es initial in
  exitCode s = None ->
  conns s !! ws = None ->
  exists history rest,
    ops <$> conns (step (EvConnection ws uuid addr t1 t2) s) !! ws
    = Some (OpSend (JObj [("type", JStr "INIT"); ("data", JArr history)])
            :: rest)
    /\ history = drop (length (drawn_by es initial) - 100) (drawn_by es initial)
    /\ (length history <= 100)%nat.
Proof.
  intros s Hrun Hfresh.
  destruct (step_connection_socket s ws uuid addr t1 t2 Hrun Hfresh)
    as (Hc & _).
  assert (Hhist : drawingHistory s = most_recent MAX_HISTORY (drawn_by es initial)).
  { unfold s. now rewrite run_history by (cbn; lia). }
  exists (drawingHistory s),
    [OpSend (JObj [("type", JStr "SYSTEM");
                   ("message", JStr "Connected to whiteboard server")])].
  split; [now rewrite Hc|]. split; [exact Hhist|].
  rewrite Hhist. apply most_recent_length.
Qed.

(** ** What the sweep and the shutdown leave alone *)

Lemma sweep_fold_frame now entries s :
  wss_clients (foldl (sweep_entry now) s entries) = wss_clients s
  /\ drawingHistory (foldl (sweep_entry now) s entries) = drawingHistory s
  /\ (forall h c, conns s !! h = Some c ->
        exists c', conns (foldl (sweep_entry now) s entries) !! h = Some c'
                   /\ texts c' = texts c)
  /\ (forall h info,
        JsMap.get h (clients (foldl (sweep_entry now) s entries)) = Some info ->
        JsMap.get h (clients s) = Some info).
Proof.
  revert s. induction entries as [|[k i] entries IH]; intros s.
  - cbn. repeat split; eauto.
  - cbn [foldl].
    destruct (IH (sweep_entry now s (k, i))) as (Hset & Hhist & Hconns & Hreg).
    assert (Hone : wss_clients (sweep_entry now s (k, i)) = wss_clients s
                   /\ drawingHistory (sweep_entry now s (k, i)) = drawingHistory s
                   /\ (forall h c, conns s !! h = Some c ->
                         exists c', conns (sweep_entry now s (k, i)) !! h = Some c'
                                    /\ texts c' = texts c)
                   /\ (forall h info,
                         JsMap.get h (clients (sweep_entry now s (k, i))) = Some info ->
                         JsMap.get h (clients s) = Some info)).
    { unfold sweep_entry. cbn [fst snd].
      destruct (decide _); [|repeat split; eauto].
      cbn -[JsMap.delete]. repeat split.
      - intros h c Hc. rewrite lookup_alter.
        destruct (decide (k = h)) as [->|]; [|eauto].
        rewrite Hc. cbn. eexists. split; [reflexivity|apply terminated_texts].
      - intros h info. rewrite JsMap_get_delete.
        now destruct (decide (h = k)). }
    destruct Hone as (Hset1 & Hhist1 & Hconns1 & Hreg1).
    split; [congruence|]. split; [congruence|]. split.
    + intros h c Hc. destruct (Hconns1 h c Hc) as (c1 & Hc1 & Ht1).
      destruct (Hconns h c1 Hc1) as (c' & Hc' & Ht'). exists c'.
      split; [exact Hc'|congruence].
    + intros h info Hget. apply Hreg1, Hreg, Hget.
Qed.

(** X13: a sweep sends no text to anyone and leaves [wss.clients] and the history
    alone: an evicted socket stays in [wss.clients] until its 'close' event.
    The registry only loses entries; those it keeps are unchanged. *)
Theorem sweep_writes_to_nobody s now :
  let s' := step (EvSweep now) s in
  wss_clients s' = wss_clients s
  /\ drawingHistory s' = drawingHistory s
  /\ (forall h c, conns s !! h = Some c ->
        exists c', conns s' !! h = Some c' /\ texts c' = texts c)
  /\ (forall h info,
        JsMap.get h (clients s') = Some info ->
        JsMap.get h (clients s) = Some info).
Proof.
  intros s'. unfold s', step. destruct (exitCode s); [repeat split; eauto|].
  rewrite sweep_eq. cbn. apply sweep_fold_frame.
Qed.

Lemma shutdown_fold_registry targets s :
  clients (foldl shutdown_client s targets) = clients s
  /\ drawingHistory (foldl shutdown_client s targets) = drawingHistory s
  /\ wss_clients (foldl shutdown_client s targets) = wss_clients s.
Proof.
  revert s. induction targets as [|client targets IH]; intros s; [done|].
  cbn [foldl]. destruct (IH (shutdown_client s client)) as (-> & -> & ->).
  unfold shutdown_client. now destruct (is_open client s).
Qed.

(** X14: after a signal no socket is OPEN any more, so nothing the server
    broadcasts afterwards reaches anyone, and a second signal writes to no
    socket.  The registry, [wss.clients] and the history are not touched. *)
Theorem shutdown_leaves_no_socket_open s :
  exitCode s = None ->
  wf s ->
  let s' := step EvSignal s in
  (forall h c', conns s' !! h = Some c' -> readyState c' <> OPEN)
  /\ conns (step EvSignal s') = conns s'
  /\ clients s' = clients s
  /\ wss_clients s' = wss_clients s
  /\ drawingHistory s' = drawingHistory s.
Proof.
  intros Hrun (_ & _ & Hlisted) s'.
  assert (Hs' : s' = exec shutdown s) by (unfold s', step; now rewrite Hrun).
  destruct (shutdown_fold_frame (wss_clients s) (log LogShuttingDown s))
    as [_ Hexit].
  destruct (shutdown_fold_registry (wss_clients s) (log LogShuttingDown s))
    as (Hreg & Hhist & Hset).
  assert (Hnone : forall h c', conns s' !! h = Some c' -> readyState c' <> OPEN).
  { intros h c'. rewrite Hs', shutdown_eq. cbn -[shutdown_client].
    rewrite shutdown_fold_lookup. cbn.
    destruct (conns s !! h) as [c|] eqn:Hc; [|discriminate]. cbn.
    intros [= <-]. case_bool_decide as Hcond; [apply shut_not_open|].
    intros Hopen. apply Hcond. split; [|exact Hopen]. now apply (Hlisted h c). }
  assert (Hexit' : exitCode s' = None).
  { rewrite Hs', shutdown_eq. cbn -[shutdown_client]. now rewrite Hexit. }
  split; [exact Hnone|]. split.
  - unfold step. rewrite Hexit', shutdown_eq. cbn -[shutdown_client].
    apply map_eq. intros h. rewrite shutdown_fold_lookup. cbn.
    destruct (conns s' !! h) as [c'|] eqn:Hc'; [|reflexivity]. cbn. f_equal.
    rewrite bool_decide_eq_false_2; [reflexivity|].
    intros [_ Hopen]. now apply (Hnone h c').
  - rewrite Hs', shutdown_eq. cbn -[shutdown_client].
    now rewrite Hreg, Hhist, Hset.
Qed.

(** ** What ends the process *)

Lemma step_unsignalled e s :
  e <> EvSignal -> unsignalled s -> unsignalled (step e s).
Proof.
  intros Hne (Hclosing & Htimers & Hexit).
  assert (Hsame : e <> EvServerClosed -> e <> EvForceTimeout ->
                  unsignalled (step e s)).
  { intros Hc Hf.
    assert (Heq : shutdown_state (step e s) = shutdown_state s)
      by (now apply step_shutdown_state).
    injection Heq as H1 H2 H3. repeat split; congruence. }
  destruct e; try (apply Hsame; discriminate).
  - unfold step. rewrite Hexit, Hclosing. now repeat split.
  - unfold step. rewrite Hexit, Htimers. now repeat split.
Qed.

(** X15: once connections are established, nothing but a signal ends the
    process, starts closing the HTTP server or arms the exit timer: no
    message, pong, close, error, heartbeat or sweep does, and the two exit
    callbacks do not run. *)
Theorem no_exit_without_a_signal es s :
  exitCode s = None -> serverClosing s = false -> exitTimers s = [] ->
  (forall e, e ∈ es ->
     e <> EvSignal
     /\ forall ws uuid addr t1 t2, e <> EvConnection ws uuid addr t1 t2) ->
  let s' := run_events es s in
  exitCode s' = None /\ serverClosing s' = false /\ exitTimers s' = [].
Proof.
  intros Hexit Hclosing Htimers Hnone.
  assert (Hs : unsignalled (run_events es s)).
  { assert (Hs0 : unsignalled s) by (now repeat split).
    clear Hexit Hclosing Htimers. revert s Hs0.
    induction es as [|e es IH]; intros s0 Hs0; [exact Hs0|].
    cbn [run_events foldl]. apply IH.
    - intros e' He'. apply Hnone. now apply list_elem_of_further.
    - apply step_unsignalled; [|exact Hs0].
      apply (Hnone e), list_elem_of_here. }
  destruct Hs as (H1 & H2 & H3). cbv zeta. now repeat split.
Qed.

(** X21: a handshake with an origin the check lets through ends the process:
    the first [done(true)] upgrades the socket and runs the 'connection'
    listener, the [done(true)] that closes the body of [verifyClient] finds
    the socket upgraded, and the process ends with status 1; nothing runs
    afterwards.  With the validator of either earlier draft, which calls
    [done] once, the process runs on whatever the origin is. *)
Theorem accepted_handshake_ends_the_process s origin ws uuid addr t1 t2 :
  exitCode s = None ->
  let_through origin ->
  let connected := step (EvConnection ws uuid addr t1 t2) s in
  let after := (handshake origin ws uuid addr t1 t2 s).2 in
  exitCode connected = None
  /\ exitCode after = Some 1
  /\ conns after = conns connected
  /\ clients after = clients connected
  /\ console after = console connected
  /\ (forall es, run_events es after = after)
  /\ (forall any,
        exitCode (upgrade (verifyClient_draft1 any) ws uuid addr t1 t2 s).2 = None
        /\ exitCode (upgrade (verifyClient_draft2 any) ws uuid addr t1 t2 s).2
           = None).
Proof.
  intros Hrun Hok connected after.
  assert (Hlive : exitCode connected = None)
    by (now apply step_connection_live).
  assert (Hafter : after = exit 1 connected).
  { unfold after, handshake, verifyClient. apply let_through_spec in Hok.
    rewrite Hok. cbn [app].
    now rewrite (upgrade_accepted_twice _ _ _ _ _ _ Hrun). }
  split; [exact Hlive|]. rewrite Hafter.
  split; [reflexivity|]. split; [reflexivity|]. split; [reflexivity|].
  split; [reflexivity|]. split; [intros es; now apply (exit_is_final es _ 1)|].
  intros any. split.
  - unfold verifyClient_draft1. destruct (_ || _).
    + now rewrite (upgrade_accepted_once _ _ _ _ _ _ Hrun).
    + now rewrite (upgrade_refused _ _ _ _ _ _ _ _ _ Hrun) by constructor.
  - unfold verifyClient_draft2. destruct (_ || _).
    + now rewrite (upgrade_accepted_once _ _ _ _ _ _ Hrun).
    + now rewrite (upgrade_refused _ _ _ _ _ _ _ _ _ Hrun) by constructor.
Qed.

(** ** The health report *)

Definition keeps_listed (s s' : Server) : Prop := listed s -> listed s'.

#[local] Instance keeps_listed_preorder : PreOrder keeps_listed.
Proof.
  split; [now intros s0|]. intros s1 s2 s3 H12 H23 H1. apply H23, H12, H1.
Qed.

Lemma keeps_listed_alter g ws s :
  (forall c, readyState (g c) = CLOSED <-> readyState c = CLOSED) ->
  keeps_listed s (with_conns (alter g ws) s).
Proof.
  intros Hg Hl h. cbn. rewrite (Hl h), lookup_alter.
  destruct (decide (ws = h)) as [->|]; [|reflexivity].
  destruct (conns s !! h) as [c|]; cbn.
  - split; intros (c' & [= <-] & Hr); eexists; (split; [reflexivity|]);
      intros Hc; apply Hr; now apply Hg.
  - split; now intros (c' & [=] & _).
Qed.

Lemma run_listed es s : listed s -> listed (run_events es s).
Proof.
  apply (run_preserves keeps_listed); try (now intros).
  - intros ws op s0 _. now apply keeps_listed_alter.
  - intros cid ws s0. now apply keeps_listed_alter.
  - intros ws s0. now apply keeps_listed_alter.
  - intros ws s0. apply keeps_listed_alter. intros c. unfold terminated.
    destruct (readyState c) eqn:Hr; cbn; rewrite ?Hr; split; congruence.
  - intros code reason ws s0. apply keeps_listed_alter. intros c.
    unfold closed_with. destruct (readyState c) eqn:Hr; cbn; rewrite ?Hr;
      split; congruence.
  - intros ws s0 Hfresh Hl h. cbn -[JsSet.add].
    rewrite elem_of_JsSet_add, (Hl h), lookup_insert.
    destruct (decide (ws = h)) as [->|Hne].
    + split; [intros _; eexists; split; [reflexivity|discriminate]|now left].
    + split; [intros [?|?]; [congruence|assumption]|now right].
  - intros ws s0 Hl h. cbn -[JsSet.delete].
    rewrite elem_of_JsSet_delete, (Hl h), lookup_alter.
    destruct (decide (ws = h)) as [->|Hne].
    + split; [now intros [? _]|].
      destruct (conns s0 !! h); cbn; now intros (c' & [= <-] & Hr).
    + split; [now intros [_ ?]|]. intros Hc. split; [congruence|exact Hc].
  - intros ws s0. apply keeps_listed_alter. intros c. unfold erroring.
    destruct (readyState c) eqn:Hr; cbn; rewrite ?Hr; split; congruence.
Qed.

Lemma listed_count s :
  NoDup (wss_clients s) -> listed s ->
  length (wss_clients s) = size (unclosed s).
Proof.
  intros Hnd Hl. rewrite <- length_map_to_list.
  rewrite <- (length_fmap fst (map_to_list (unclosed s))).
  apply Permutation_length, NoDup_Permutation;
    [exact Hnd|apply NoDup_fst_map_to_list|].
  intros h. rewrite (Hl h), list_elem_of_fmap. unfold unclosed. split.
  - intros (c & Hc & Hr). exists (h, c). split; [reflexivity|].
    apply elem_of_map_to_list, map_lookup_filter_Some. now split.
  - intros ([h' c] & -> & Hin).
    apply elem_of_map_to_list, map_lookup_filter_Some in Hin as [Hc Hr].
    now exists c.
Qed.

(** X16: on the hosted server every request is answered with status 200.
    [/health] reports, as [connections], the number of sockets that have not
    been reported closed (those the sweep has terminated still count); any
    other URL, [/health] with a query string included, gets the banner. *)
Theorem health_counts_unclosed_sockets es env_PORT uptime :
  env_truthy env_PORT = true ->
  let s := run_events es initial in
  handle_request env_PORT "/health" uptime s
    = Some (mkResponse 200 "application/json"
              (JsonBody (JObj [ ("status", JStr "ok");
                                ("connections", JNum (Z.of_nat (size (unclosed s))));
                                ("uptime", uptime) ])))
  /\ (forall url, url <> "/health" ->
        handle_request env_PORT url uptime s
        = Some (mkResponse 200 "text/plain"
                  (TextBody "WebSocket server is running. Connect using a WebSocket client."))).
Proof.
  intros Henv s. unfold handle_request. rewrite Henv. split.
  - unfold on_request. cbn [String.eqb Ascii.eqb Bool.eqb].
    assert (Hcount : length (wss_clients s) = size (unclosed s)).
    { apply listed_count; [apply reachable_wf|].
      apply run_listed. intros h. cbn. rewrite lookup_empty.
      split; [now intros ?%not_elem_of_nil|now intros (c & [=] & _)]. }
    now rewrite Hcount.
  - intros url Hurl. unfold on_request.
    apply String.eqb_neq in Hurl. now rewrite Hurl.
Qed.

(** ** The origin check, call by call *)

(** X17: for every origin [verifyClient] calls [done] twice.  The first call
    accepts exactly an absent, empty or listed origin and turns any other
    away with 401; the second call accepts, whatever the first said. *)
Theorem verifyClient_calls_done_twice origin :
  exists verdict,
    verifyClient origin = [verdict; Done true None None]
    /\ (verdict = Done true None None
        <-> origin = None \/ origin = Some ""
            \/ exists o, origin = Some o /\ o ∈ allowedOrigins)
    /\ (verdict = Done true None None
        \/ verdict = Done false (Some 401) (Some "Unauthorized origin")).
Proof.
  unfold verifyClient.
  destruct (falsy_origin origin || includes allowedOrigins origin) eqn:Hok;
    eexists; (split; [reflexivity|]); (split; [|tauto]).
  - split; [intros _|reflexivity].
    apply orb_true_iff in Hok as [Hf|Hi].
    + apply falsy_origin_spec in Hf. tauto.
    + destruct origin as [o|]; [|now left]. right; right. exists o.
      split; [reflexivity|now apply includes_spec].
  - split; [discriminate|]. apply orb_false_iff in Hok as [Hf Hi].
    intros [->|[->|(o & -> & Hin)]]; try discriminate.
    apply includes_spec in Hin. congruence.
Qed.

Lemma includes_value_spec l o : includes_value l (Some o) = true <-> Some o ∈ l.
Proof.
  unfold includes_value. rewrite existsb_exists. split.
  - intros ([x|] & Hin & Heq); [|discriminate].
    apply String.eqb_eq in Heq as ->. now apply list_elem_of_In.
  - intros Hin. exists (Some o).
    split; [now apply list_elem_of_In|apply String.eqb_refl].
Qed.

(** X18: the two earlier drafts call [done] once: an absent, empty or listed
    origin is accepted, any other is turned away with 401 and nothing
    follows. *)
Theorem draft_validators_call_done_once origin :
  (exists verdict,
      verifyClient_draft1 origin = [verdict]
      /\ (verdict = Done true None None
          <-> origin = None \/ origin = Some ""
              \/ exists o, origin = Some o /\ o ∈ allowedOrigins_draft1)
      /\ (verdict = Done true None None
          \/ verdict = Done false (Some 401) (Some "Unauthorized")))
  /\ (exists verdict,
        verifyClient_draft2 origin = [verdict]
        /\ (verdict = Done true None None
            <-> origin = None \/ origin = Some ""
                \/ exists o, origin = Some o /\ Some o ∈ allowedOrigins_draft2)
        /\ (verdict = Done true None None
            \/ verdict = Done false (Some 401) (Some "Unauthorized origin"))).
Proof.
  split.
  - unfold verifyClient_draft1.
    destruct (falsy_origin origin || includes allowedOrigins_draft1 origin) eqn:Hok;
      eexists; (split; [reflexivity|]); (split; [|tauto]).
    + split; [intros _|reflexivity].
      apply orb_true_iff in Hok as [Hf|Hi].
      * apply falsy_origin_spec in Hf. tauto.
      * destruct origin as [o|]; [|now left]. right; right. exists o.
        split; [reflexivity|now apply includes_spec].
    + split; [discriminate|]. apply orb_false_iff in Hok as [Hf Hi].
      intros [->|[->|(o & -> & Hin)]]; try discriminate.
      apply includes_spec in Hin. congruence.
  - unfold verifyClient_draft2.
    destruct (falsy_origin origin || includes_value allowedOrigins_draft2 origin)
      eqn:Hok;
      eexists; (split; [reflexivity|]); (split; [|tauto]).
    + split; [intros _|reflexivity].
      apply orb_true_iff in Hok as [Hf|Hi].
      * apply falsy_origin_spec in Hf. tauto.
      * destruct origin as [o|]; [|now left]. right; right. exists o.
        split; [reflexivity|now apply includes_value_spec].
    + split; [discriminate|]. apply orb_false_iff in Hok as [Hf Hi].
      intros [->|[->|(o & -> & Hin)]]; try discriminate.
      apply includes_value_spec in Hin. congruence.
Qed.

(** ** The registry holds no closed socket *)

(** A property of the state that a callback keeps. *)
Definition keeps (I : Server -> Prop) (s s' : Server) : Prop := I s -> I s'.

#[local] Instance keeps_preorder (I : Server -> Prop) : PreOrder (keeps I).
Proof.
  split; [now intros s0|]. intros s1 s2 s3 H12 H23 H1. apply H23, H12, H1.
Qed.

Lemma JsMap_get_key {V} k (v : V) (m : list (Handle * V)) :
  JsMap.get k m = Some v -> k ∈ m.*1.
Proof.
  intros Hget. apply list_elem_of_fmap. exists (k, v).
  split; [reflexivity|now apply JsMap_get_elem_of].
Qed.

Lemma step_registry_listed e s :
  registry_listed s -> registry_listed (step e s).
Proof.
  intros Hs.
  assert (Hsame : forall f s0, keeps registry_listed s0 (with_conns f s0))
    by (now intros f s0).
  assert (Hlog : forall e0 s0, keeps registry_listed s0 (log e0 s0))
    by (now intros e0 s0).
  assert (Htransmit : forall ws op s0, is_open ws s0 = true ->
            keeps registry_listed s0 (with_conns (alter (record_op op) ws) s0))
    by (intros; apply Hsame).
  assert (Hmutate : forall g ws s0,
            keeps registry_listed s0 (with_clients (JsMap.mutate g ws) s0)).
  { intros g ws s0 H0 h. cbn. rewrite JsMap_keys_mutate. apply H0. }
  assert (Hdelete : forall ws s0,
            keeps registry_listed s0 (with_clients (JsMap.delete ws) s0)).
  { intros ws s0 H0 h. cbn -[JsMap.delete]. rewrite JsMap_keys_delete.
    intros [_ Hin]%list_elem_of_filter. now apply H0. }
  unfold step, on_socket. destruct (exitCode s) eqn:Hrun; [exact Hs|].
  destruct e as [ws uuid addr t1 t2|ws m t1 t2|ws now|ws code reason|ws|ws|now| | | ].
  - destruct (conns s !! ws) eqn:Hfresh; [exact Hs|].
    assert (Hopen : is_open ws (ws_accept ws s) = true).
    { unfold is_open, ready, ws_accept. cbn. now rewrite lookup_insert_eq. }
    rewrite (on_connection_eq _ _ _ _ _ _ Hopen).
    unfold exec. rewrite broadcastMessage_eq. intros h.
    cbn -[delivered JsSet.add JsMap.set].
    rewrite JsMap_keys_set, elem_of_JsSet_add.
    destruct (decide _); [intros Hin; right; now apply Hs|].
    rewrite elem_of_app, list_elem_of_singleton.
    intros [Hin | ->]; [right; now apply Hs|now left].
  - destruct (conns s !! ws) as [c|]; [|exact Hs]. revert Hs.
    apply (preserves_on_message_touched (keeps registry_listed)); [exact Hmutate|].
    apply (preserves_on_message_rest (keeps registry_listed)); auto;
      now intros ? s0.
  - destruct (conns s !! ws); [|exact Hs]. revert Hs.
    now apply (preserves_on_pong (keeps registry_listed)).
  - destruct (conns s !! ws) as [c|]; [|exact Hs].
    rewrite on_close_eq. unfold exec. rewrite broadcastMessage_eq. intros h.
    cbn -[delivered JsSet.delete JsMap.delete].
    rewrite JsMap_keys_delete, elem_of_JsSet_delete.
    intros [Hne Hin]%list_elem_of_filter. split; [exact Hne|now apply Hs].
  - destruct (conns s !! ws); [|exact Hs]. revert Hs.
    apply (preserves_on_error (keeps registry_listed)); auto.
    intros ws0 s0. apply Hsame.
  - destruct (conns s !! ws) as [c|]; [|exact Hs].
    destruct (pingInterval c); [|exact Hs]. revert Hs.
    apply (preserves_heartbeat (keeps registry_listed)); auto.
  - revert Hs. apply (preserves_sweep (keeps registry_listed)); auto.
  - revert Hs. apply (preserves_shutdown (keeps registry_listed)); auto.
    now intros closing timers s0.
  - destruct (serverClosing s); [|exact Hs]. revert Hs.
    apply (preserves_exit_callbacks (keeps registry_listed)); auto.
    now intros code s0.
  - destruct (exitTimers s); [exact Hs|]. revert Hs.
    apply (preserves_exit_callbacks (keeps registry_listed)); auto.
    now intros code s0.
Qed.

Lemma run_registry_listed es s :
  registry_listed s -> registry_listed (run_events es s).
Proof.
  revert s. induction es as [|e es IH]; intros s Hs; [exact Hs|].
  cbn [run_events foldl]. apply IH. now apply step_registry_listed.
Qed.

(** X19: a connection found in the registry, at any time, has a socket that has
    not been reported closed and that is a member of [wss.clients]: the
    'close' listener removes the entry, so none outlives its socket. *)
Theorem registry_holds_no_closed_socket es h info :
  let s := run_events es initial in
  JsMap.get h (clients s) = Some info ->
  h ∈ wss_clients s
  /\ exists c, conns s !! h = Some c /\ readyState c <> CLOSED.
Proof.
  intros s Hget.
  assert (Hreg : registry_listed s).
  { apply run_registry_listed. intros h0 Hin.
    now apply not_elem_of_nil in Hin. }
  assert (Hl : listed s).
  { apply run_listed. intros h0. cbn. rewrite lookup_empty.
    split; [now intros ?%not_elem_of_nil|now intros (c & [=] & _)]. }
  assert (Hin : h ∈ wss_clients s) by (eapply Hreg, JsMap_get_key, Hget).
  split; [exact Hin|]. now apply (Hl h).
Qed.

(** ** A chat with missing fields *)

(** X20: a CHAT is relayed whenever its name and text can be written into the
    log line, strings or not: every OPEN connection of [wss.clients] is
    sent once the message with the two values as they came, a value that is
    missing being left out of the message; no other socket is sent
    anything. *)
Theorem chat_relays_whatever_can_be_logged s ws sender o t1 t2 :
  exitCode s = None ->
  conns s !! ws = Some sender ->
  NoDup (wss_clients s) ->
  Obj.get "type" o = Some (JStr "CHAT") ->
  interpolates (Obj.get "Name" o) = true ->
  interpolates (Obj.get "res" o) = true ->
  let chat :=
    JObj ([("type", JStr "CHAT")]
          ++ match Obj.get "Name" o with Some v => [("Name", v)] | None => [] end
          ++ match Obj.get "res" o with Some v => [("res", v)] | None => [] end) in
  let s' := step (EvMessage ws (Json (JObj o)) t1 t2) s in
  forall h,
    conns s' !! h
    = (fun c =>
         mkConn (readyState c)
           (ops c ++ if bool_decide (h ∈ wss_clients s /\ readyState c = OPEN)
                     then [OpSend chat] else [])
           (clientId c) (pingInterval c))
      <$> conns s !! h.
Proof.
  intros Hrun Hsender Hnd Htype Hname Hres chat s' h.
  assert (Hchat : msg_CHAT (Obj.get "Name" o) (Obj.get "res" o) = chat).
  { unfold chat, msg_CHAT.
    now destruct (Obj.get "Name" o), (Obj.get "res" o). }
  unfold s'. rewrite (step_message _ _ _ _ _ _ Hrun Hsender).
  rewrite (on_message_CHAT _ _ _ _ _ _ Htype Hname Hres), Hchat.
  unfold exec. rewrite broadcastMessage_eq. cbn -[delivered].
  rewrite delivered_lookup by exact Hnd.
  destruct (conns s !! h) as [c|]; [|reflexivity]. cbn. f_equal.
  rewrite (bool_decide_ext (Some h <> None /\ h ∈ wss_clients s
                            /\ readyState c = OPEN)
             (h ∈ wss_clients s /\ readyState c = OPEN))
    by (split; [now intros (_ & Hr)|now intros Hr]).
  case_bool_decide; [reflexivity|]. destruct c. cbn. now rewrite app_nil_r.
Qed.

End Handlers.

(** * A session with three connections

    A, B and C connect in that order; the library drops data sent after
    close without throwing. *)

Module Scenario.

Definition A : Handle := 1%nat.
Definition B : Handle := 2%nat.
Definition C : Handle := 3%nat.

Definition abc : Server :=
  run_events false
    [ EvConnection A "uuid-a" "10.0.0.1" 0 0;
      EvConnection B "uuid-b" "10.0.0.2" 1 1;
      EvConnection C "uuid-c" "10.0.0.3" 2 2 ]
    initial.

Definition conn_of (h : Handle) (s : Server) : Conn :=
  default (mkConn CLOSED [] "" false) (conns s !! h).

Definition info_of (h : Handle) (s : Server) : ClientInfo :=
  default (mkInfo "" "" 0 0 None) (JsMap.get h (clients s)).

Definition stroke : list (string * json) :=
  [ ("type", JStr "DRAW");
    ("data", JObj [("x", JNum 3); ("y", JNum 4); ("clientId", JStr "forged")]) ].

Definition hello : list (string * json) :=
  [ ("type", JStr "CHAT"); ("Name", JStr "Ada"); ("res", JStr "hello") ].

Definition ping : list (string * json) := [ ("type", JStr "PING") ].

(** The string with these bytes. *)
Definition of_bytes (l : list N) : string :=
  foldr (fun b s => String (Ascii.ascii_of_N b) s) EmptyString l.

(** [n] DRAW messages from A, at clocks 1 to [n]. *)
Definition draws (n : nat) : list Event :=
  map (fun i => EvMessage A (Json (JObj stroke)) (Z.of_nat i) (Z.of_nat i))
      (seq 1 n).

Lemma abc_set : NoDup (wss_clients abc).
Proof. apply (bool_decide_unpack _). vm_compute. exact I. Defined.

Lemma abc_map : NoDup (clients abc).*1.
Proof. apply (bool_decide_unpack _). vm_compute. exact I. Defined.

End Scenario.

Import Scenario.

(** A sends a DRAW at clock 11: the action carries A's identifier (not the
    one forged in the payload) and enters the history while B and C are as
    they were; B and C are then sent it, A is sent nothing. *)
Lemma draw_relay_witness :
  let s' := step false (EvMessage A (Json (JObj stroke)) 10 11) abc in
  let action :=
    JObj [("x", JNum 3); ("y", JNum 4); ("clientId", JStr "uuid-a");
          ("timestamp", JNum 11)] in
  let draw := OpSend (JObj [("type", JStr "DRAW"); ("data", action)]) in
  (exitCode abc = None
   /\ conns abc !! A = Some (conn_of A abc)
   /\ NoDup (wss_clients abc)
   /\ Obj.get "type" stroke = Some (JStr "DRAW"))
  /\ drawingHistory s' = [action]
  /\ pushes s' = [(action, conns abc)]
  /\ ops (conn_of A s') = ops (conn_of A abc)
  /\ ops (conn_of B s') = ops (conn_of B abc) ++ [draw]
  /\ ops (conn_of C s') = ops (conn_of C abc) ++ [draw].
Proof.
  intros s' action draw.
  assert (H1 : exitCode abc = None) by (vm_compute; reflexivity).
  assert (H2 : conns abc !! A = Some (conn_of A abc)) by (vm_compute; reflexivity).
  assert (H3 : NoDup (wss_clients abc)) by exact abc_set.
  assert (H4 : Obj.get "type" stroke = Some (JStr "DRAW")) by (vm_compute; reflexivity).
  pose proof (draw_recorded_then_relayed_to_others false abc A (conn_of A abc)
                stroke 10 11 H1 H2 H3 H4) as Hthm.
  cbv zeta in Hthm.
  destruct Hthm as (fields & _ & _ & _ & Hhist & Hpushes & Hconns).
  assert (Hfields : JObj fields = action).
  { vm_compute in Hhist. injection Hhist as <-. reflexivity. }
  rewrite Hfields in Hhist, Hconns.
  split; [exact (conj H1 (conj H2 (conj H3 H4)))|].
  split; [unfold s'; rewrite Hhist; vm_compute; reflexivity|].
  split; [vm_compute; reflexivity|].
  split; [vm_compute; reflexivity|].
  split; [unfold s', conn_of; rewrite Hconns|]; vm_compute; reflexivity.
Defined.

(** A sends a CHAT: A, B and C are all sent the pair. *)
Lemma chat_relay_witness :
  let s' := step false (EvMessage A (Json (JObj hello)) 10 11) abc in
  let chat := OpSend (JObj [("type", JStr "CHAT"); ("Name", JStr "Ada");
                            ("res", JStr "hello")]) in
  (exitCode abc = None
   /\ conns abc !! A = Some (conn_of A abc)
   /\ NoDup (wss_clients abc)
   /\ Obj.get "type" hello = Some (JStr "CHAT")
   /\ Obj.get "Name" hello = Some (JStr "Ada")
   /\ Obj.get "res" hello = Some (JStr "hello"))
  /\ ops (conn_of A s') = ops (conn_of A abc) ++ [chat]
  /\ ops (conn_of B s') = ops (conn_of B abc) ++ [chat]
  /\ ops (conn_of C s') = ops (conn_of C abc) ++ [chat]
  /\ drawingHistory s' = drawingHistory abc.
Proof.
  intros s' chat.
  assert (H1 : exitCode abc = None) by (vm_compute; reflexivity).
  assert (H2 : conns abc !! A = Some (conn_of A abc)) by (vm_compute; reflexivity).
  assert (H3 : NoDup (wss_clients abc)) by exact abc_set.
  assert (H4 : Obj.get "type" hello = Some (JStr "CHAT")) by (vm_compute; reflexivity).
  assert (H5 : Obj.get "Name" hello = Some (JStr "Ada")) by (vm_compute; reflexivity).
  assert (H6 : Obj.get "res" hello = Some (JStr "hello")) by (vm_compute; reflexivity).
  pose proof (chat_relayed_to_all_including_sender false abc A (conn_of A abc)
                hello "Ada" "hello" 10 11 H1 H2 H3 H4 H5 H6) as Hthm.
  cbv zeta in Hthm. destruct Hthm as (Hconns & Hhist).
  split; [exact (conj H1 (conj H2 (conj H3 (conj H4 (conj H5 H6)))))|].
  split; [unfold s', conn_of; rewrite Hconns; vm_compute; reflexivity|].
  split; [vm_compute; reflexivity|]. split; [vm_compute; reflexivity|].
  exact Hhist.
Defined.

(** B sends a PING at clock 21: B is sent one PONG carrying 21. *)
Lemma ping_pong_witness :
  let s' := step false (EvMessage B (Json (JObj ping)) 20 21) abc in
  (exitCode abc = None
   /\ conns abc !! B = Some (conn_of B abc)
   /\ readyState (conn_of B abc) = OPEN
   /\ Obj.get "type" ping = Some (JStr "PING"))
  /\ conns s' !! B
     = Some (mkConn OPEN
               (ops (conn_of B abc)
                ++ [OpSend (JObj [("type", JStr "PONG");
                                  ("timestamp", JNum 21)])])
               (clientId (conn_of B abc)) (pingInterval (conn_of B abc)))
  /\ (forall h, h <> B -> conns s' !! h = conns abc !! h)
  /\ drawingHistory s' = drawingHistory abc
  /\ texts (conn_of B s')
     = texts (conn_of B abc)
       ++ [JObj [("type", JStr "PONG"); ("timestamp", JNum 21)]]
  /\ texts (conn_of A s') = texts (conn_of A abc).
Proof.
  intros s'.
  assert (H1 : exitCode abc = None) by (vm_compute; reflexivity).
  assert (H2 : conns abc !! B = Some (conn_of B abc)) by (vm_compute; reflexivity).
  assert (H3 : readyState (conn_of B abc) = OPEN) by (vm_compute; reflexivity).
  assert (H4 : Obj.get "type" ping = Some (JStr "PING")) by (vm_compute; reflexivity).
  pose proof (ping_answered_by_one_pong false abc B (conn_of B abc) ping 20 21
                H1 H2 H3 H4) as Hthm.
  cbv zeta in Hthm. destruct Hthm as (Hpong & Hrest & Hhist).
  split; [exact (conj H1 (conj H2 (conj H3 H4)))|].
  split; [exact Hpong|]. split; [exact Hrest|]. split; [exact Hhist|].
  split; vm_compute; reflexivity.
Defined.

(** C sends a text that is not JSON. *)
Lemma unparseable_witness :
  let s' := step false (EvMessage C Unparseable 30 31) abc in
  (exitCode abc = None /\ conns abc !! C = Some (conn_of C abc))
  /\ console s'
     = console abc ++ [LogProcessingError (clientId (conn_of C abc)) SyntaxError]
  /\ conns s' = conns abc
  /\ drawingHistory s' = drawingHistory abc
  /\ wss_clients s' = wss_clients abc
  /\ (clients s').*1 = (clients abc).*1
  /\ exitCode s' = None.
Proof.
  intros s'.
  assert (H1 : exitCode abc = None) by (vm_compute; reflexivity).
  assert (H2 : conns abc !! C = Some (conn_of C abc)) by (vm_compute; reflexivity).
  split; [exact (conj H1 H2)|].
  exact (unparseable_message_logged_and_discarded false abc C (conn_of C abc)
           30 31 H1 H2).
Defined.

(** C sends a text that is not JSON at clock 30: its stamp becomes 30 and the
    sweep at 300 030 keeps it. *)
Lemma activity_stamp_witness :
  let s' := step false (EvMessage C Unparseable 30 31) abc in
  (exitCode abc = None
   /\ conns abc !! C = Some (conn_of C abc)
   /\ JsMap.get C (clients abc) = Some (info_of C abc)
   /\ NoDup (clients abc).*1
   /\ 300030 - 30 <= INACTIVITY)
  /\ JsMap.get C (clients s') = Some (mkInfo "uuid-c" "10.0.0.3" 2 30 None)
  /\ JsMap.get C (clients (step false (EvSweep 300030) s'))
     = Some (touch 30 (info_of C abc)).
Proof.
  intros s'.
  assert (H1 : exitCode abc = None) by (vm_compute; reflexivity).
  assert (H2 : conns abc !! C = Some (conn_of C abc)) by (vm_compute; reflexivity).
  assert (H3 : JsMap.get C (clients abc) = Some (info_of C abc)) by (vm_compute; reflexivity).
  assert (H4 : NoDup (clients abc).*1) by exact abc_map.
  assert (H5 : 300030 - 30 <= INACTIVITY) by (vm_compute; discriminate).
  pose proof (every_message_stamps_activity false abc C (conn_of C abc)
                (info_of C abc) Unparseable 30 31 H1 H2 H3) as Hthm.
  cbv zeta in Hthm. destruct Hthm as (Hstamp & _ & Hsweep).
  split; [exact (conj H1 (conj H2 (conj H3 (conj H4 H5))))|].
  split; [unfold s'; rewrite Hstamp; vm_compute; reflexivity|].
  exact (Hsweep 300030 H4 H5).
Defined.


(** A signal with A, B and C open, at loop time 1000: the timer is due at
    6000. *)
Lemma shutdown_witness :
  let s' := step false EvSignal abc in
  let notice := JObj [("type", JStr "SYSTEM");
                      ("message", JStr "Server is shutting down...")] in
  let timed := [(6000, EvForceTimeout); (6001, EvSweep 6001)] in
  exitCode abc = None
  /\ ops (conn_of A s')
     = ops (conn_of A abc) ++ [OpSend notice; OpClose 1000 "Server shutdown"]
  /\ (forall es, exists c',
        conns (run_events false es s') !! B = Some c'
        /\ readyState c' <> OPEN
        /\ texts c' = texts (conn_of B abc) ++ [notice])
  /\ exitTimers s' = [5000]
  /\ exitCode (run_events false
                 [EvClose A 1000 "Server shutdown"; EvSweep 3000;
                  EvServerClosed; EvForceTimeout] s') = Some 0
  /\ exitCode (run_events false
                 [EvSweep 3000; EvForceTimeout; EvServerClosed] s') = Some 1
  /\ exitCode (run_events false [EvSweep 3000; EvSweep 123000] s') = None
  /\ timer_served 1000 5000 timed
  /\ (exitCode (run_events false [EvSignal; EvForceTimeout] abc) = Some 0
      \/ exitCode (run_events false [EvSignal; EvForceTimeout] abc) = Some 1).
Proof.
  intros s' notice timed.
  assert (H1 : exitCode abc = None) by (vm_compute; reflexivity).
  pose proof (shutdown_notifies_closes_and_exits false abc H1) as Hthm.
  cbv zeta in Hthm.
  destruct Hthm as (_ & Honce & _ & _ & _ & Hexit & Hlate).
  assert (Hserved : timer_served 1000 5000 timed).
  { intros before t e after Heq Hlt.
    destruct before as [|x [|y before]].
    - injection Heq as <- _ _. lia.
    - injection Heq as <- _ _. apply list_elem_of_here.
    - injection Heq as _ _ Heq. now destruct before. }
  split; [exact H1|].
  split; [vm_compute; reflexivity|].
  split; [intros es; apply Honce;
          [vm_compute; reflexivity
          |apply list_elem_of_further, list_elem_of_here
          |vm_compute; reflexivity]|].
  split; [vm_compute; reflexivity|].
  split; [vm_compute; reflexivity|]. split; [vm_compute; reflexivity|].
  split; [exact (Hexit _)|]. split; [exact Hserved|].
  exact (Hlate 1000 timed Hserved [(6000, EvForceTimeout)] 6001 (EvSweep 6001) []
           eq_refl eq_refl).
Defined.

(** A fourth connection arrives after A has drawn; it then draws itself. *)
Lemma init_snapshot_witness :
  let s := step false (EvMessage A (Json (JObj stroke)) 10 11) abc in
  let D : Handle := 4%nat in
  let s' := step false (EvConnection D "uuid-d" "10.0.0.4" 40 40) s in
  let init :=
    OpSend (JObj [("type", JStr "INIT");
                  ("data", JArr [JObj [("x", JNum 3); ("y", JNum 4);
                                       ("clientId", JStr "uuid-a");
                                       ("timestamp", JNum 11)]])]) in
  let welcome :=
    OpSend (JObj [("type", JStr "SYSTEM");
                  ("message", JStr "Connected to whiteboard server")]) in
  (exitCode s = None /\ conns s !! D = None)
  /\ conns s' !! D = Some (mkConn OPEN [init; welcome] "uuid-d" true)
  /\ texts (conn_of D s')
     = [JObj [("type", JStr "INIT");
              ("data", JArr [JObj [("x", JNum 3); ("y", JNum 4);
                                   ("clientId", JStr "uuid-a");
                                   ("timestamp", JNum 11)]])];
        JObj [("type", JStr "SYSTEM");
              ("message", JStr "Connected to whiteboard server")]]
  /\ exists c',
       conns (run_events false [EvMessage D (Json (JObj stroke)) 50 51] s') !! D
       = Some c'
       /\ head (ops c') = Some init.
Proof.
  intros s D s' init welcome.
  assert (H1 : exitCode s = None) by (vm_compute; reflexivity).
  assert (H2 : conns s !! D = None) by (vm_compute; reflexivity).
  assert (H3 : drawingHistory s
               = [JObj [("x", JNum 3); ("y", JNum 4);
                        ("clientId", JStr "uuid-a"); ("timestamp", JNum 11)]])
    by (vm_compute; reflexivity).
  pose proof (new_connection_gets_history_snapshot false s D "uuid-d" "10.0.0.4"
                40 40 H1 H2) as Hthm.
  cbv zeta in Hthm. rewrite H3 in Hthm. destruct Hthm as (Hconn & _ & Hlater & _).
  split; [exact (conj H1 H2)|]. split; [exact Hconn|].
  split; [vm_compute; reflexivity|].
  exact (Hlater [EvMessage D (Json (JObj stroke)) 50 51]).
Defined.


(** After 101 DRAW messages the history holds 100 actions and starts with the
    second one: the first has been shifted out. *)
Example hundred_and_one_draws :
  let s := run_events false (draws 101) abc in
  length (drawingHistory s) = 100%nat
  /\ head (drawingHistory s)
     = Some (make_action (Obj.get "data" stroke) "uuid-a" 2)
  /\ last (drawingHistory s)
     = Some (make_action (Obj.get "data" stroke) "uuid-a" 101).
Proof. vm_compute. repeat split. Qed.

(** A CHAT whose name is an object with its own [toString] member reaches
    nobody: the log line throws before the broadcast. *)
Example chat_with_unprintable_name_is_dropped :
  let bad := [ ("type", JStr "CHAT");
               ("Name", JObj [("toString", JNum 0)]);
               ("res", JStr "hello") ] in
  conns (step false (EvMessage A (Json (JObj bad)) 10 11) abc) = conns abc.
Proof. vm_compute. reflexivity. Qed.

(** * The same session, continued *)

(** The events that lead to [abc]. *)
Definition arrivals : list Event :=
  [ EvConnection A "uuid-a" "10.0.0.1" 0 0;
    EvConnection B "uuid-b" "10.0.0.2" 1 1;
    EvConnection C "uuid-c" "10.0.0.3" 2 2 ].

(** [abc] after the sweep at clock 300 001, which evicts A. *)
Definition swept : Server := step false (EvSweep 300001) abc.

Definition D : Handle := 4%nat.

(** D arrives: A, B and C are told, and D joins [wss.clients]. *)
Lemma arrival_witness :
  let s' := step false (EvConnection D "uuid-d" "10.0.0.4" 40 40) abc in
  let joined :=
    OpSend (JObj [("type", JStr "SYSTEM");
                  ("message", JStr "A new user has joined the whiteboard")]) in
  (exitCode abc = None /\ conns abc !! D = None /\ NoDup (wss_clients abc)
   /\ D ∉ wss_clients abc)
  /\ wss_clients s' = [A; B; C; D]
  /\ ops (conn_of B s') = ops (conn_of B abc) ++ [joined]
  /\ ops (conn_of C s') = ops (conn_of C abc) ++ [joined].
Proof.
  intros s' joined.
  assert (H1 : exitCode abc = None) by (vm_compute; reflexivity).
  assert (H2 : conns abc !! D = None) by (vm_compute; reflexivity).
  assert (H3 : NoDup (wss_clients abc)) by exact abc_set.
  assert (H4 : D ∉ wss_clients abc).
  { apply (bool_decide_unpack _). vm_compute. exact I. }
  pose proof (arrival_is_announced_to_the_others false abc D "uuid-d"
                "10.0.0.4" 40 40 H1 H2 H3 H4) as Hthm.
  cbv zeta in Hthm. destruct Hthm as (Hset & _ & Hconns).
  split; [exact (conj H1 (conj H2 (conj H3 H4)))|]. split.
  - unfold s'. rewrite Hset. vm_compute. reflexivity.
  - split; [|vm_compute; reflexivity].
    unfold s', conn_of. rewrite (Hconns B) by (vm_compute; discriminate).
    vm_compute. reflexivity.
Defined.

(** B closes: B is CLOSED and gone from both tables, A is told. *)
Lemma departure_witness :
  let s' := step false (EvClose B 1001 "gone") abc in
  let left :=
    OpSend (JObj [("type", JStr "SYSTEM");
                  ("message", JStr "A user has left the whiteboard")]) in
  (exitCode abc = None
   /\ conns abc !! B = Some (conn_of B abc)
   /\ NoDup (wss_clients abc))
  /\ conns s' !! B
     = Some (mkConn CLOSED (ops (conn_of B abc)) (clientId (conn_of B abc)) false)
  /\ (B ∉ wss_clients s')
  /\ JsMap.get B (clients s') = None
  /\ ops (conn_of A s') = ops (conn_of A abc) ++ [left]
  /\ ops (conn_of C s') = ops (conn_of C abc) ++ [left].
Proof.
  intros s' left.
  assert (H1 : exitCode abc = None) by (vm_compute; reflexivity).
  assert (H2 : conns abc !! B = Some (conn_of B abc)) by (vm_compute; reflexivity).
  assert (H3 : NoDup (wss_clients abc)) by exact abc_set.
  pose proof (departure_is_announced_to_the_rest false abc B (conn_of B abc)
                1001 "gone" H1 H2 H3) as Hthm.
  cbv zeta in Hthm. destruct Hthm as (Hclosed & Hout & Hreg & _ & Hconns).
  split; [exact (conj H1 (conj H2 H3))|].
  split; [exact Hclosed|]. split; [exact Hout|]. split; [exact Hreg|].
  split; [|vm_compute; reflexivity].
  unfold s', conn_of. rewrite (Hconns A) by (vm_compute; discriminate).
  vm_compute. reflexivity.
Defined.

(** An 'error' on C: C is CLOSING and is not sent the CHAT that follows. *)
Lemma error_witness :
  let s' := step false (EvError C) abc in
  (exitCode abc = None
   /\ conns abc !! C = Some (conn_of C abc)
   /\ readyState (conn_of C abc) <> CLOSED)
  /\ readyState (conn_of C s') = CLOSING
  /\ pingInterval (conn_of C s') = false
  /\ wss_clients s' = wss_clients abc
  /\ clients s' = clients abc
  /\ step false (EvHeartbeat C) s' = s'
  /\ exists c',
       conns (run_events false [EvMessage A (Json (JObj hello)) 10 11] s') !! C
       = Some c'
       /\ readyState c' <> OPEN /\ texts c' = texts (conn_of C abc).
Proof.
  intros s'.
  assert (H1 : exitCode abc = None) by (vm_compute; reflexivity).
  assert (H2 : conns abc !! C = Some (conn_of C abc)) by (vm_compute; reflexivity).
  assert (H3 : readyState (conn_of C abc) <> CLOSED) by (vm_compute; discriminate).
  pose proof (error_leaves_a_closing_socket_without_heartbeat false abc C
                (conn_of C abc) H1 H2 H3) as Hthm.
  cbv zeta in Hthm.
  destruct Hthm as (Hconns & Hset & Hreg & _ & _ & Hbeat & Hsilent).
  split; [exact (conj H1 (conj H2 H3))|].
  split; [unfold s', conn_of; rewrite Hconns; vm_compute; reflexivity|].
  split; [unfold s', conn_of; rewrite Hconns; vm_compute; reflexivity|].
  split; [exact Hset|]. split; [exact Hreg|]. split; [exact Hbeat|].
  exact (Hsilent [EvMessage A (Json (JObj hello)) 10 11]).
Defined.

(** The heartbeat of B, which is OPEN, and of A after it was swept. *)
Lemma heartbeat_witness :
  (exitCode abc = None
   /\ conns abc !! B = Some (conn_of B abc)
   /\ pingInterval (conn_of B abc) = true
   /\ readyState (conn_of B abc) = OPEN
   /\ exitCode swept = None
   /\ conns swept !! A = Some (conn_of A swept)
   /\ pingInterval (conn_of A swept) = true
   /\ readyState (conn_of A swept) <> OPEN)
  /\ ops (conn_of B (step false (EvHeartbeat B) abc))
     = ops (conn_of B abc) ++ [OpPing]
  /\ ops (conn_of A (step false (EvHeartbeat A) swept)) = ops (conn_of A swept)
  /\ pingInterval (conn_of A (step false (EvHeartbeat A) swept)) = false
  /\ step false (EvHeartbeat A) (step false (EvHeartbeat A) swept)
     = step false (EvHeartbeat A) swept.
Proof.
  assert (B1 : exitCode abc = None) by (vm_compute; reflexivity).
  assert (B2 : conns abc !! B = Some (conn_of B abc)) by (vm_compute; reflexivity).
  assert (B3 : pingInterval (conn_of B abc) = true) by (vm_compute; reflexivity).
  assert (B4 : readyState (conn_of B abc) = OPEN) by (vm_compute; reflexivity).
  assert (A1 : exitCode swept = None) by (vm_compute; reflexivity).
  assert (A2 : conns swept !! A = Some (conn_of A swept))
    by (vm_compute; reflexivity).
  assert (A3 : pingInterval (conn_of A swept) = true) by (vm_compute; reflexivity).
  assert (A4 : readyState (conn_of A swept) <> OPEN) by (vm_compute; discriminate).
  pose proof (heartbeat_pings_or_retires false abc B (conn_of B abc) B1 B2 B3)
    as HB.
  pose proof (heartbeat_pings_or_retires false swept A (conn_of A swept) A1 A2 A3)
    as HA.
  cbv zeta in HA, HB. destruct HB as (HB & _). destruct HA as (_ & HA).
  destruct (HB B4) as (HB1 & _). destruct (HA A4) as (HA1 & _ & HA2).
  split; [exact (conj B1 (conj B2 (conj B3 (conj B4
                   (conj A1 (conj A2 (conj A3 A4)))))))|].
  split; [unfold conn_of at 1; rewrite HB1; vm_compute; reflexivity|].
  split; [vm_compute; reflexivity|].
  split; [vm_compute; reflexivity|exact HA2].
Defined.

(** A pong from A at clock 300 000 does not save it from the sweep at
    300 001. *)
Lemma pong_witness :
  let s' := step false (EvPong A 300000) abc in
  (exitCode abc = None
   /\ conns abc !! A = Some (conn_of A abc)
   /\ JsMap.get A (clients abc) = Some (info_of A abc)
   /\ NoDup (clients abc).*1
   /\ 300001 - lastActivity (info_of A abc) > INACTIVITY)
  /\ JsMap.get A (clients s')
     = Some (mkInfo "uuid-a" "10.0.0.1" 0 0 (Some 300000))
  /\ JsMap.get A (clients (step false (EvSweep 300001) s')) = None.
Proof.
  intros s'.
  assert (H1 : exitCode abc = None) by (vm_compute; reflexivity).
  assert (H2 : conns abc !! A = Some (conn_of A abc)) by (vm_compute; reflexivity).
  assert (H3 : JsMap.get A (clients abc) = Some (info_of A abc))
    by (vm_compute; reflexivity).
  assert (H4 : NoDup (clients abc).*1) by exact abc_map.
  assert (H5 : 300001 - lastActivity (info_of A abc) > INACTIVITY)
    by (vm_compute; reflexivity).
  pose proof (pong_is_not_activity false abc A (conn_of A abc) (info_of A abc)
                300000 H1 H2 H3) as Hthm.
  cbv zeta in Hthm. destruct Hthm as (Hpong & _ & Hsweep).
  split; [exact (conj H1 (conj H2 (conj H3 (conj H4 H5))))|].
  split; [unfold s'; rewrite Hpong; vm_compute; reflexivity|].
  exact (Hsweep 300001 H4 H5).
Defined.

(** A message of a type the server does not know. *)
Lemma unrecognised_witness :
  let erase := Json (JObj [("type", JStr "ERASE")]) in
  let s' := step false (EvMessage A erase 10 11) abc in
  (exitCode abc = None
   /\ conns abc !! A = Some (conn_of A abc)
   /\ unrecognised erase)
  /\ conns s' = conns abc
  /\ drawingHistory s' = drawingHistory abc
  /\ wss_clients s' = wss_clients abc.
Proof.
  intros erase s'.
  assert (H1 : exitCode abc = None) by (vm_compute; reflexivity).
  assert (H2 : conns abc !! A = Some (conn_of A abc)) by (vm_compute; reflexivity).
  assert (H3 : unrecognised erase).
  { intros o [= <-]. vm_compute. auto. }
  split; [exact (conj H1 (conj H2 H3))|].
  exact (unrecognised_message_sends_nothing false abc A (conn_of A abc) erase
           10 11 H1 H2 H3).
Defined.

Definition unprintable : list (string * json) :=
  [ ("type", JStr "CHAT");
    ("Name", JObj [("toString", JNum 0)]);
    ("res", JStr "hello") ].

(** A CHAT whose name has its own [toString]. *)
Lemma dropped_chat_witness :
  let s' := step false (EvMessage A (Json (JObj unprintable)) 10 11) abc in
  (exitCode abc = None
   /\ conns abc !! A = Some (conn_of A abc)
   /\ Obj.get "type" unprintable = Some (JStr "CHAT")
   /\ interpolates (Obj.get "Name" unprintable)
      && interpolates (Obj.get "res" unprintable) = false)
  /\ conns s' = conns abc
  /\ drawingHistory s' = drawingHistory abc
  /\ console s'
     = console abc ++ [LogReceived (clientId (conn_of A abc));
                        LogProcessingError (clientId (conn_of A abc)) TypeError].
Proof.
  intros s'.
  assert (H1 : exitCode abc = None) by (vm_compute; reflexivity).
  assert (H2 : conns abc !! A = Some (conn_of A abc)) by (vm_compute; reflexivity).
  assert (H3 : Obj.get "type" unprintable = Some (JStr "CHAT"))
    by (vm_compute; reflexivity).
  assert (H4 : interpolates (Obj.get "Name" unprintable)
               && interpolates (Obj.get "res" unprintable) = false)
    by (vm_compute; reflexivity).
  split; [exact (conj H1 (conj H2 (conj H3 H4)))|].
  exact (chat_that_cannot_be_logged_is_dropped false abc A (conn_of A abc)
           unprintable 10 11 H1 H2 H3 H4).
Defined.

(** A PING from A after it was swept, under either behaviour of the
    library. *)
Lemma unanswered_ping_witness :
  (exitCode swept = None
   /\ conns swept !! A = Some (conn_of A swept)
   /\ readyState (conn_of A swept) <> OPEN
   /\ Obj.get "type" ping = Some (JStr "PING"))
  /\ conns (step false (EvMessage A (Json (JObj ping)) 300002 300003) swept)
     = conns swept
  /\ conns (step true (EvMessage A (Json (JObj ping)) 300002 300003) swept)
     = conns swept.
Proof.
  assert (H1 : exitCode swept = None) by (vm_compute; reflexivity).
  assert (H2 : conns swept !! A = Some (conn_of A swept))
    by (vm_compute; reflexivity).
  assert (H3 : readyState (conn_of A swept) <> OPEN) by (vm_compute; discriminate).
  assert (H4 : Obj.get "type" ping = Some (JStr "PING")) by (vm_compute; reflexivity).
  split; [exact (conj H1 (conj H2 (conj H3 H4)))|]. split.
  - exact (proj1 (ping_on_closing_socket_is_not_answered false swept A
                    (conn_of A swept) ping 300002 300003 H1 H2 H3 H4)).
  - exact (proj1 (ping_on_closing_socket_is_not_answered true swept A
                    (conn_of A swept) ping 300002 300003 H1 H2 H3 H4)).
Defined.

(** A DRAW from A after it was swept does not register A again. *)
Lemma unregistered_witness :
  (exitCode swept = None
   /\ conns swept !! A = Some (conn_of A swept)
   /\ JsMap.get A (clients swept) = None)
  /\ clients (step false (EvMessage A (Json (JObj stroke)) 300002 300003) swept)
     = clients swept.
Proof.
  assert (H1 : exitCode swept = None) by (vm_compute; reflexivity).
  assert (H2 : conns swept !! A = Some (conn_of A swept))
    by (vm_compute; reflexivity).
  assert (H3 : JsMap.get A (clients swept) = None) by (vm_compute; reflexivity).
  split; [exact (conj H1 (conj H2 H3))|].
  exact (message_from_unregistered_socket_does_not_register false swept A
           (conn_of A swept) (Json (JObj stroke)) 300002 300003 H1 H2 H3).
Defined.

(** The [x] of the stroke survives; its forged [clientId] does not, and a
    [timestamp] of the payload is overwritten where it stands.  A string is
    kept unit by unit: one for an accented letter (two bytes), the two
    surrogates for a character beyond U+FFFF (four bytes). *)
Lemma payload_witness :
  let e_acute := of_bytes [195; 169]%N in
  let face := of_bytes [240; 159; 152; 128]%N in
  let high := of_bytes [237; 160; 189]%N in
  let low := of_bytes [237; 184; 128]%N in
  make_action (Obj.get "data" stroke) "uuid-a" 11
  = JObj [("x", JNum 3); ("y", JNum 4); ("clientId", JStr "uuid-a");
          ("timestamp", JNum 11)]
  /\ make_action (Some (JObj [("timestamp", JNum 0); ("x", JReal "10.5")]))
       "uuid-a" 11
     = JObj [("timestamp", JNum 11); ("x", JReal "10.5");
             ("clientId", JStr "uuid-a")]
  /\ make_action (Some (JStr (String.append e_acute face))) "uuid-a" 11
     = JObj [("0", JStr e_acute); ("1", JStr high); ("2", JStr low);
             ("clientId", JStr "uuid-a"); ("timestamp", JNum 11)]
  /\ exists fields,
       make_action (Some (JStr (String.append e_acute face))) "uuid-a" 11
       = JObj fields
       /\ Obj.get (pretty 1%nat) fields = Some (JStr high).
Proof.
  intros e_acute face high low.
  split; [vm_compute; reflexivity|]. split; [vm_compute; reflexivity|].
  split; [vm_compute; reflexivity|].
  destruct (action_keeps_the_payload
              (Some (JStr (String.append e_acute face))) "uuid-a" 11)
    as (fields & Haction & _ & _ & _ & _ & Htext & _).
  exists fields. split; [exact Haction|].
  rewrite (Htext _ 1%nat eq_refl). vm_compute. reflexivity.
Defined.

(** D arrives after the three others and a DRAW of A. *)
Lemma bounded_init_witness :
  let es := arrivals ++ [EvMessage A (Json (JObj stroke)) 10 11] in
  let s := run_events false es initial in
  (exitCode s = None /\ conns s !! D = None)
  /\ exists history rest,
       ops <$> conns (step false (EvConnection D "uuid-d" "10.0.0.4" 40 40) s) !! D
       = Some (OpSend (JObj [("type", JStr "INIT"); ("data", JArr history)])
               :: rest)
       /\ history = drop (length (drawn_by false es initial) - 100)
                         (drawn_by false es initial)
       /\ (length history <= 100)%nat.
Proof.
  intros es s.
  assert (H1 : exitCode s = None) by (vm_compute; reflexivity).
  assert (H2 : conns s !! D = None) by (vm_compute; reflexivity).
  split; [exact (conj H1 H2)|].
  exact (init_replays_at_most_a_hundred false es D "uuid-d" "10.0.0.4"
           40 40 H1 H2).
Defined.

(** A signal with A, B and C open, and a second one. *)
Lemma none_open_witness :
  let s := run_events false arrivals initial in
  let s' := step false EvSignal s in
  (exitCode s = None /\ wf s)
  /\ (forall h c', conns s' !! h = Some c' -> readyState c' <> OPEN)
  /\ conns (step false EvSignal s') = conns s'
  /\ clients s' = clients s
  /\ wss_clients s' = wss_clients s
  /\ drawingHistory s' = drawingHistory s.
Proof.
  intros s s'.
  assert (H1 : exitCode s = None) by (vm_compute; reflexivity).
  assert (H2 : wf s) by exact (reachable_wf false arrivals).
  split; [exact (conj H1 H2)|].
  exact (shutdown_leaves_no_socket_open false s H1 H2).
Defined.

(** With A, B and C connected: a DRAW, an error, a close, a sweep, and the
    two exit callbacks, which do not run. *)
Lemma no_exit_witness :
  let es := [EvMessage A (Json (JObj stroke)) 10 11; EvError B;
             EvClose B 1006 ""; EvSweep 300001; EvServerClosed;
             EvForceTimeout] in
  let s' := run_events false es abc in
  (exitCode abc = None /\ serverClosing abc = false /\ exitTimers abc = [])
  /\ exitCode s' = None /\ serverClosing s' = false /\ exitTimers s' = [].
Proof.
  intros es s'.
  assert (H1 : exitCode abc = None) by (vm_compute; reflexivity).
  assert (H2 : serverClosing abc = false) by (vm_compute; reflexivity).
  assert (H3 : exitTimers abc = []) by (vm_compute; reflexivity).
  assert (H4 : forall e, e ∈ es ->
                 e <> EvSignal
                 /\ forall ws uuid addr t1 t2,
                      e <> EvConnection ws uuid addr t1 t2).
  { intros e Hin. unfold es in Hin.
    repeat (apply elem_of_cons in Hin as [->|Hin];
            [split; [discriminate|intros; discriminate]|]).
    now apply not_elem_of_nil in Hin. }
  split; [exact (conj H1 (conj H2 H3))|].
  exact (no_exit_without_a_signal false es abc H1 H2 H3 H4).
Defined.

(** The first handshake the server gets, with no origin: the connection is
    registered and sent its INIT, and the process ends with status 1. *)
Lemma crash_witness :
  let after := (handshake false None A "uuid-a" "10.0.0.1" 0 0 initial).2 in
  (exitCode initial = None /\ let_through None)
  /\ exitCode after = Some 1
  /\ JsMap.get A (clients after) = Some (mkInfo "uuid-a" "10.0.0.1" 0 0 None)
  /\ run_events false [EvMessage A (Json (JObj stroke)) 10 11] after = after
  /\ exitCode (upgrade false (verifyClient_draft2 None) A "uuid-a" "10.0.0.1"
                 0 0 initial).2 = None.
Proof.
  intros after.
  assert (H1 : exitCode initial = None) by reflexivity.
  assert (H2 : let_through None) by (now left).
  pose proof (accepted_handshake_ends_the_process false initial None A "uuid-a"
                "10.0.0.1" 0 0 H1 H2) as Hthm.
  cbv zeta in Hthm.
  destruct Hthm as (_ & _ & _ & _ & _ & Hfinal & Hdrafts).
  split; [exact (conj H1 H2)|]. split; [vm_compute; reflexivity|].
  split; [vm_compute; reflexivity|].
  split; [exact (Hfinal _)|exact (proj2 (Hdrafts None))].
Defined.

(** The health report with A, B and C connected, on port 10000. *)
Lemma health_witness :
  let s := run_events false arrivals initial in
  env_truthy (Some "10000") = true
  /\ handle_request (Some "10000") "/health" (JNum 7) s
     = Some (mkResponse 200 "application/json"
               (JsonBody (JObj [ ("status", JStr "ok");
                                 ("connections", JNum (Z.of_nat (size (unclosed s))));
                                 ("uptime", JNum 7) ])))
  /\ size (unclosed s) = 3%nat.
Proof.
  intros s.
  assert (H1 : env_truthy (Some "10000") = true) by (vm_compute; reflexivity).
  split; [exact H1|]. split.
  - exact (proj1 (health_counts_unclosed_sockets false arrivals (Some "10000")
                    (JNum 7) H1)).
  - vm_compute. reflexivity.
Defined.

(** A is in the registry of [abc]. *)
Lemma registry_witness :
  let s := run_events false arrivals initial in
  JsMap.get A (clients s) = Some (mkInfo "uuid-a" "10.0.0.1" 0 0 None)
  /\ A ∈ wss_clients s
  /\ exists c, conns s !! A = Some c /\ readyState c <> CLOSED.
Proof.
  intros s.
  assert (H1 : JsMap.get A (clients s) = Some (mkInfo "uuid-a" "10.0.0.1" 0 0 None))
    by (vm_compute; reflexivity).
  split; [exact H1|].
  exact (registry_holds_no_closed_socket false arrivals A
           (mkInfo "uuid-a" "10.0.0.1" 0 0 None) H1).
Defined.

(** A CHAT with neither name nor text is relayed as [{type: 'CHAT'}]; one
    with a number for a name keeps the number. *)
Lemma bare_chat_witness :
  let bare := [("type", JStr "CHAT")] in
  let odd := [("type", JStr "CHAT"); ("Name", JNum 7)] in
  (exitCode abc = None
   /\ conns abc !! A = Some (conn_of A abc)
   /\ NoDup (wss_clients abc)
   /\ Obj.get "type" bare = Some (JStr "CHAT")
   /\ interpolates (Obj.get "Name" bare) = true
   /\ interpolates (Obj.get "res" bare) = true
   /\ Obj.get "type" odd = Some (JStr "CHAT")
   /\ interpolates (Obj.get "Name" odd) = true
   /\ interpolates (Obj.get "res" odd) = true)
  /\ ops (conn_of B (step false (EvMessage A (Json (JObj bare)) 10 11) abc))
     = ops (conn_of B abc) ++ [OpSend (JObj [("type", JStr "CHAT")])]
  /\ ops (conn_of A (step false (EvMessage A (Json (JObj odd)) 10 11) abc))
     = ops (conn_of A abc)
       ++ [OpSend (JObj [("type", JStr "CHAT"); ("Name", JNum 7)])].
Proof.
  intros bare odd.
  assert (H1 : exitCode abc = None) by (vm_compute; reflexivity).
  assert (H2 : conns abc !! A = Some (conn_of A abc)) by (vm_compute; reflexivity).
  assert (H3 : NoDup (wss_clients abc)) by exact abc_set.
  assert (H4 : Obj.get "type" bare = Some (JStr "CHAT")) by (vm_compute; reflexivity).
  assert (H5 : interpolates (Obj.get "Name" bare) = true)
    by (vm_compute; reflexivity).
  assert (H6 : interpolates (Obj.get "res" bare) = true)
    by (vm_compute; reflexivity).
  assert (H7 : Obj.get "type" odd = Some (JStr "CHAT")) by (vm_compute; reflexivity).
  assert (H8 : interpolates (Obj.get "Name" odd) = true)
    by (vm_compute; reflexivity).
  assert (H9 : interpolates (Obj.get "res" odd) = true)
    by (vm_compute; reflexivity).
  pose proof (chat_relays_whatever_can_be_logged false abc A (conn_of A abc)
                bare 10 11 H1 H2 H3 H4 H5 H6) as Hbare.
  cbv zeta in Hbare.
  split; [exact (conj H1 (conj H2 (conj H3 (conj H4 (conj H5 (conj H6
                   (conj H7 (conj H8 H9))))))))|].
  split; [unfold conn_of at 1; rewrite (Hbare B)|];
    vm_compute; reflexivity.
Defined.
